(** * Watering safety policy of the smart-garden bot

    A shallow embedding of the settings store, the moisture bands, the
    watering-eligibility check and the outcome recording of [bot.py]
    (with [config.py] and [nodemcu_http_controller.py]), and the
    properties the specification states about them.

    Conventions of the embedding:
    - a configuration is the Python dict read from [config.json]: a finite
      map from key strings to JSON values;
    - Python exceptions are explicit: a computation returns [Return v] or
      [Raise e];
    - the module-level controller object and the file system are the
      mutable [world]; what the outside supplies during one call (the
      clock, the HTTP answers of the device, the disk, the random number
      generator) is the [env] of the call;
    - [logging] and [print] calls have no effect on any value and are
      left out. *)

From Stdlib Require Import ZArith Lia List Ascii String.
From Stdlib Require SpecFloat.
From stdpp Require Import base option gmap strings pretty list fin_maps.

Open Scope Z_scope.

(** ** JSON values and Python's operations on them *)

(** The values [json.load] puts into the configuration dict. Every value
    the program itself writes is [None], a bool, an int or a str. *)
Inductive jval :=
| JNull
| JBool (b : bool)
| JInt (n : Z)
| JStr (s : string).

#[global] Instance jval_eq_dec : EqDecision jval.
Proof. solve_decision. Defined.

Abbreviation config := (gmap string jval).

Inductive exn :=
| KeyError (key : string)
| TypeError
| ValueError
| AttributeError
| OSError.

Inductive result (A : Type) :=
| Return (a : A)
| Raise (e : exn).
Arguments Return {A} a.
Arguments Raise {A} e.

#[global] Instance result_ret : MRet result := fun A a => Return a.

#[global] Instance result_bind : MBind result := fun A B k r =>
  match r with
  | Return a => k a
  | Raise e => Raise e
  end.

(** [config[key]] *)
Definition getitem (c : config) (key : string) : result jval :=
  match c !! key with
  | Some v => Return v
  | None => Raise (KeyError key)
  end.

(** [config.get(key)] *)
Definition get (c : config) (key : string) : jval :=
  default JNull (c !! key).

(** Truth value of an object in an [if]. *)
Definition truthy (v : jval) : bool :=
  match v with
  | JNull => false
  | JBool b => b
  | JInt n => negb (n =? 0)
  | JStr s => negb (bool_decide (s = ""%string))
  end.

Definition int_of_bool (b : bool) : Z := if b then 1 else 0.

(** [v >= 1]: bools compare as ints, [None] and strings raise. *)
Definition ge_one (v : jval) : result bool :=
  match v with
  | JInt n => Return (1 <=? n)
  | JBool b => Return (1 <=? int_of_bool b)
  | JNull | JStr _ => Raise TypeError
  end.

(** [v + 1] as computed by [v += 1]. *)
Definition add_one (v : jval) : result jval :=
  match v with
  | JInt n => Return (JInt (n + 1))
  | JBool b => Return (JInt (int_of_bool b + 1))
  | JNull | JStr _ => Raise TypeError
  end.

(** [str(v)], as an f-string interpolates it. *)
Definition py_str (v : jval) : string :=
  match v with
  | JNull => "None"
  | JBool true => "True"
  | JBool false => "False"
  | JInt n => pretty n
  | JStr s => s
  end.

Definition LF : string := String (ascii_of_nat 10) "".

(** ** Moisture bands *)

(** [get_moisture_status] *)
Definition get_moisture_status (moisture_raw : Z) : string * string :=
  if 530 <=? moisture_raw then
    ("🚨 ОЧЕНЬ СУХО", "Срочный полив требуется!")
  else if 430 <=? moisture_raw then
    ("⚠️ СУХО", "Рекомендуется полив")
  else if 350 <=? moisture_raw then
    ("✅ НОРМА", "Влажность в норме")
  else if 320 <=? moisture_raw then
    ("🌟 ИДЕАЛЬНО", "Оптимальная влажность")
  else if 310 <=? moisture_raw then
    ("🌧️ ВЛАЖНО", "Полив не требуется")
  else if 305 <=? moisture_raw then
    ("🚨 ПЕРЕУВЛАЖНЕНИЕ", "Опасно для растения")
  else
    ("💦 СЛИШКОМ МОКРО", "Возможно гниение корней").

(** The seven bands, by the name the specification gives each. *)
Definition VERY_DRY : string * string := ("🚨 ОЧЕНЬ СУХО", "Срочный полив требуется!").
Definition DRY : string * string := ("⚠️ СУХО", "Рекомендуется полив").
Definition NORMAL : string * string := ("✅ НОРМА", "Влажность в норме").
Definition IDEAL : string * string := ("🌟 ИДЕАЛЬНО", "Оптимальная влажность").
Definition MOIST : string * string := ("🌧️ ВЛАЖНО", "Полив не требуется").
Definition OVERWATERED : string * string := ("🚨 ПЕРЕУВЛАЖНЕНИЕ", "Опасно для растения").
Definition TOO_WET : string * string := ("💦 СЛИШКОМ МОКРО", "Возможно гниение корней").

Definition bands : list (string * string) :=
  [VERY_DRY; DRY; NORMAL; IDEAL; MOIST; OVERWATERED; TOO_WET].

(** ** Dates and times *)

(** [datetime.date] and a naive [datetime.datetime], by their fields. *)
Record date := Date { year : Z; month : Z; day : Z }.

Record datetime := Datetime {
  date_of : date;          (* [.date()] *)
  hour : Z;
  minute : Z;
  second : Z;
  microsecond : Z
}.

#[global] Instance date_eq_dec : EqDecision date.
Proof. solve_decision. Defined.

#[global] Instance datetime_eq_dec : EqDecision datetime.
Proof. solve_decision. Defined.

Definition is_leap (y : Z) : bool :=
  (y mod 4 =? 0) && (negb (y mod 100 =? 0) || (y mod 400 =? 0)).

Definition days_in_month (y m : Z) : Z :=
  if m =? 2 then (if is_leap y then 29 else 28)
  else if (m =? 4) || (m =? 6) || (m =? 9) || (m =? 11) then 30
  else 31.

Definition days_before_year (y : Z) : Z :=
  let p := y - 1 in p * 365 + p / 4 - p / 100 + p / 400.

Definition days_before_month (y m : Z) : Z :=
  nth (Z.to_nat (m - 1)) [0; 31; 59; 90; 120; 151; 181; 212; 243; 273; 304; 334] 0
  + (if (2 <? m) && is_leap y then 1 else 0).

(** [date.toordinal()]: the proleptic Gregorian day number. *)
Definition toordinal (d : date) : Z :=
  days_before_year (year d) + days_before_month (year d) (month d) + day d.

(** The values a [date] / [datetime] object can hold. *)
Definition valid_date (d : date) : bool :=
  (1 <=? year d) && (year d <=? 9999) &&
  (1 <=? month d) && (month d <=? 12) &&
  (1 <=? day d) && (day d <=? days_in_month (year d) (month d)).

Definition valid_datetime (t : datetime) : bool :=
  valid_date (date_of t) &&
  (0 <=? hour t) && (hour t <? 24) &&
  (0 <=? minute t) && (minute t <? 60) &&
  (0 <=? second t) && (second t <? 60) &&
  (0 <=? microsecond t) && (microsecond t <? 1000000).

(** [datetime(y, m, d)]: midnight of a day. *)
Definition midnight (d : date) : datetime := Datetime d 0 0 0 0.

(** [a - b] for two naive datetimes, as the [timedelta]'s exact number
    of microseconds. *)
Definition micros_between (a b : datetime) : Z :=
  ((toordinal (date_of a) - toordinal (date_of b)) * 86400
   + ((hour a - hour b) * 3600 + (minute a - minute b) * 60 + (second a - second b)))
  * 1000000
  + (microsecond a - microsecond b).

Definition HOUR_US : Z := 3600 * 1000000.

(** *** Formatting *)

Definition digit (k : Z) : ascii := ascii_of_N (Z.to_N (48 + k)).

(** [n] in decimal on exactly [w] digits, zero-padded ([%0wd]). *)
Fixpoint zfill (w : nat) (n : Z) : string :=
  match w with
  | O => ""
  | S w' => String (digit (n / 10 ^ Z.of_nat w')) (zfill w' (n mod 10 ^ Z.of_nat w'))
  end.

(** [str(d)] for a date, which is [d.isoformat()]: [YYYY-MM-DD]. *)
Definition str_date (d : date) : string :=
  zfill 4 (year d) +:+ "-" +:+ zfill 2 (month d) +:+ "-" +:+ zfill 2 (day d).

(** [t.isoformat()]: [YYYY-MM-DDTHH:MM:SS], followed by [.ffffff] when
    the microsecond is not zero. *)
Definition isoformat (t : datetime) : string :=
  str_date (date_of t) +:+ "T" +:+
  zfill 2 (hour t) +:+ ":" +:+ zfill 2 (minute t) +:+ ":" +:+ zfill 2 (second t) +:+
  (if microsecond t =? 0 then "" else "." +:+ zfill 6 (microsecond t)).

(** *** A parser of the emitted formats

    [datetime.fromisoformat] accepts more or fewer strings depending on
    the interpreter's version; every version accepts what [isoformat()]
    emits. The policy below takes the parser as a parameter, constrained
    to invert the two formatters; [parse_isoformat] is the smallest such
    parser and instantiates it. *)

Definition is_digit (c : ascii) : bool :=
  let n := Z.of_N (N_of_ascii c) in (48 <=? n) && (n <=? 57).

Definition digit_val (c : ascii) : Z := Z.of_N (N_of_ascii c) - 48.

Fixpoint read_digits (w : nat) (s : string) (acc : Z) : option (Z * string) :=
  match w with
  | O => Some (acc, s)
  | S w' =>
      match s with
      | String c s' =>
          if is_digit c then read_digits w' s' (10 * acc + digit_val c) else None
      | EmptyString => None
      end
  end.

Definition read_char (c : ascii) (s : string) : option string :=
  match s with
  | String c' s' => if bool_decide (c = c') then Some s' else None
  | EmptyString => None
  end.

Definition read_date (s : string) : option (date * string) :=
  '(y, s) ← read_digits 4 s 0;
  s ← read_char "-" s;
  '(m, s) ← read_digits 2 s 0;
  s ← read_char "-" s;
  '(d, s) ← read_digits 2 s 0;
  Some (Date y m d, s).

Definition read_fraction (s : string) : option Z :=
  match s with
  | EmptyString => Some 0
  | _ =>
      s ← read_char "." s;
      '(us, s) ← read_digits 6 s 0;
      if bool_decide (s = ""%string) then Some us else None
  end.

Definition read_time (d : date) (s : string) : option datetime :=
  match s with
  | EmptyString => Some (midnight d)
  | _ =>
      s ← read_char "T" s;
      '(h, s) ← read_digits 2 s 0;
      s ← read_char ":" s;
      '(mi, s) ← read_digits 2 s 0;
      s ← read_char ":" s;
      '(se, s) ← read_digits 2 s 0;
      us ← read_fraction s;
      Some (Datetime d h mi se us)
  end.

Definition parse_isoformat (s : string) : option datetime :=
  '(d, s) ← read_date s;
  t ← read_time d s;
  if valid_datetime t then Some t else None.

(** [int((air_value - raw_value) / (air_value - water_value) * 100)] with
    exact arithmetic, which never raises. [percent_float] below is the
    float expression itself; the two differ outside the range the device
    reports in, where the float expression rounds or raises. *)
Definition percent_exact (raw_value : Z) : option Z :=
  Some (Z.quot ((750 - raw_value) * 100) (750 - 305)).

(** Python's floats: IEEE 754 binary64, rounding to nearest, ties to
    even. *)
Module Float64.

Definition prec : Z := 53.
Definition emax : Z := 1024.

(** [a / b] for two ints, [b] positive: the quotient of the integers,
    correctly rounded. Python raises [OverflowError] where it is too
    large for a float, given here as an infinity. *)
Definition true_divide (a b : Z) : SpecFloat.spec_float :=
  match a, b with
  | Z0, Zpos _ => SpecFloat.S754_zero false
  | Zpos m, Zpos n =>
      SpecFloat.SFdiv prec emax
        (SpecFloat.S754_finite false m 0) (SpecFloat.S754_finite false n 0)
  | Zneg m, Zpos n =>
      SpecFloat.SFdiv prec emax
        (SpecFloat.S754_finite true m 0) (SpecFloat.S754_finite false n 0)
  | _, _ => SpecFloat.S754_nan
  end.

(** [x * n] for a float [x] and a positive int [n] below 2^53. *)
Definition mul_int (x : SpecFloat.spec_float) (n : positive) : SpecFloat.spec_float :=
  SpecFloat.SFmul prec emax x (SpecFloat.S754_finite false n 0).

(** [int(x)]: the float cut off towards zero; [None] when it raises, as
    it does for an infinity ([OverflowError]) and a NaN ([ValueError]). *)
Definition to_int (x : SpecFloat.spec_float) : option Z :=
  match x with
  | SpecFloat.S754_zero _ => Some 0
  | SpecFloat.S754_finite s m e =>
      let n := if 0 <=? e then Z.shiftl (Zpos m) e else Z.shiftr (Zpos m) (- e) in
      Some (if s then - n else n)
  | SpecFloat.S754_infinity _ | SpecFloat.S754_nan => None
  end.

End Float64.

(** [int((air_value - raw_value) / (air_value - water_value) * 100)], line
    136 of [get_sensor_data], as Python computes it: the division of two
    ints gives a float, the product is a float, [int] cuts it off. [None]
    when an exception is raised, which the [except] of [get_sensor_data]
    catches. *)
Definition percent_float (raw_value : Z) : option Z :=
  let air_value := 750 in
  let water_value := 305 in
  Float64.to_int
    (Float64.mul_int (Float64.true_divide (air_value - raw_value) (air_value - water_value))
       100).

(** [max(0, min(100, moisture_percent))] *)
Definition shown (p : Z) : Z := Z.max 0 (Z.min 100 p).

(** The float expression and the exact quotient show the same percentage
    for a reading. *)
Definition percent_agrees (raw_value : Z) : bool :=
  match percent_float raw_value, percent_exact raw_value with
  | Some p, Some q => shown p =? shown q
  | _, _ => false
  end.

(** ** The world: the settings file, the controller, the outside *)

(** [config.json]: missing, present but not valid JSON, or holding a JSON
    object. A file holding JSON of another kind is the subject of
    [stored] and [AnyFile] below: [load_config] replaces it by the
    defaults, as it does an unreadable file, unless it is an array or a
    string that names every default key. *)
Inductive file :=
| FAbsent
| FUnreadable
| FStored (c : config).

Record world := World {
  config_json : file;      (* the file named by [CONFIG_FILE] *)
  connected : bool         (* [nodemcu.connected] *)
}.

(** What [open(CONFIG_FILE, 'w')] followed by [json.dump] does. *)
Inductive disk :=
| DiskOk
| DiskOpenError            (* [open] raises: the file stays as it was *)
| DiskWriteError.          (* the file was truncated, the dump failed *)

(** The device's answer to [GET /status]: the status code with the
    integer under ['moisture'] and the string under ['status'] of the
    body, when it has them. *)
Inductive status_reply :=
| StatusRaised                                   (* the request or [.json()] raises *)
| StatusHttp (code : Z) (moisture : option Z) (status : option string).

(** The device's answer to [GET /water]. *)
Inductive water_reply :=
| WaterRaised (exc : string)
| WaterHttp (code : Z) (error : option string).

Record env := Env {
  now : datetime;                (* [datetime.now()] *)
  status_answer : status_reply;
  water_answer : water_reply;
  disk_state : disk;
  randint_18_28 : Z              (* [random.randint(18, 28)] *)
}.

Definition set_config_json (f : file) (w : world) : world :=
  World f (connected w).

Definition set_connected (b : bool) (w : world) : world :=
  World (config_json w) b.

(** The outcome of a request whose body is not read: an exception, or a
    status code. *)
Inductive http_reply :=
| HttpRaised (exc : string)
| HttpStatus (code : Z).

(** ** nodemcu_http_controller.py *)

Module NodeMCUHTTPController.

(** [get_moisture] *)
Definition get_moisture (e : env) (w : world) : (option Z * option string) * world :=
  if negb (connected w) then ((None, None), w)
  else
    match status_answer e with
    | StatusHttp code moisture status =>
        if code =? 200 then ((moisture, status), w) else ((None, None), w)
    | StatusRaised => ((None, None), set_connected false w)
    end.

(** [water_plant] *)
Definition water_plant (e : env) (duration : Z) (w : world) : bool * string :=
  if negb (connected w) then (false, "Нет подключения к системе")
  else
    match water_answer e with
    | WaterHttp code error =>
        if code =? 200 then (true, "Полив выполнен успешно")
        else (false, default "Ошибка полива" error)
    | WaterRaised exc => (false, "Ошибка связи: " +:+ exc)
    end.

(** [connect], the request answered by [answer]. *)
Definition connect (answer : http_reply) (w : world) : bool * world :=
  match answer with
  | HttpStatus code =>
      if code =? 200 then (true, set_connected true w) else (false, w)
  | HttpRaised _ => (false, set_connected false w)
  end.

(** [force_water_plant], the request answered by [answer]. *)
Definition force_water_plant (answer : http_reply) (duration : Z) (w : world)
  : bool * string :=
  if negb (connected w) then (false, "Нет подключения к системе")
  else
    match answer with
    | HttpStatus code =>
        if code =? 200 then (true, "Принудительный полив выполнен")
        else (false, "Ошибка принудительного полива")
    | HttpRaised exc => (false, "Ошибка связи: " +:+ exc)
    end.

(** [reset_watering_time], the request answered by [answer]. *)
Definition reset_watering_time (answer : http_reply) (w : world) : bool :=
  if negb (connected w) then false
  else
    match answer with
    | HttpStatus code => code =? 200
    | HttpRaised _ => false
    end.

(** [set_auto_mode], the request answered by [answer]. *)
Definition set_auto_mode (answer : http_reply) (enable : bool) (w : world) : bool :=
  if negb (connected w) then false
  else
    match answer with
    | HttpStatus code => code =? 200
    | HttpRaised _ => false
    end.

End NodeMCUHTTPController.

(** ** config.py *)

(** On the files of the settings model; [AnyFileConfigPy] below follows
    config.py on a file that holds JSON of another kind. *)
Module ConfigPy.

Definition DEFAULT_CONFIG : config :=
  list_to_map [
    ("auto_mode", JBool false);
    ("watering_duration", JInt 3);
    ("notifications", JBool true);
    ("moisture_threshold", JInt 400);
    ("report_interval", JInt 30)
  ]%string.

(** [load_config] *)
Definition load_config (w : world) : config :=
  match config_json w with
  | FStored c => c
  | FUnreadable => DEFAULT_CONFIG
  | FAbsent => DEFAULT_CONFIG
  end.

(** [save_config]: no handler, an I/O error propagates ([None] here). *)
Definition save_config (e : env) (c : config) (w : world) : option unit * world :=
  match disk_state e with
  | DiskOk => (Some tt, set_config_json (FStored c) w)
  | DiskOpenError => (None, w)
  | DiskWriteError => (None, set_config_json FUnreadable w)
  end.

(** [update_config] *)
Definition update_config (e : env) (new_settings : config) (w : world)
  : option config * world :=
  let c := new_settings ∪ load_config w in
  let '(r, w) := save_config e c w in
  (_ ← r; Some c, w).

(** [get_config] *)
Definition get_config (w : world) : config := load_config w.

End ConfigPy.

(** ** bot.py: the settings store *)

Definition DEFAULT_CONFIG_items : list (string * jval) := [
  ("auto_mode", JBool false);
  ("auto_mode_type", JStr "smart");
  ("watering_duration", JInt 3);
  ("schedule_morning_time", JStr "09:00");
  ("schedule_evening_time", JStr "19:00");
  ("notifications", JBool true);
  ("moisture_threshold", JInt 430);
  ("report_interval", JInt 30);
  ("last_watering", JNull);
  ("watering_count_today", JInt 0);
  ("last_watering_date", JNull);
  ("dont_ask_again_today", JBool false)
]%string.

Definition DEFAULT_CONFIG : config := list_to_map DEFAULT_CONFIG_items.

(** One turn of the loop of [load_config]:
    [if key not in config: config[key] = value]. *)
Definition fill_default (c : config) (kv : string * jval) : config :=
  match c !! kv.1 with
  | Some _ => c
  | None => <[kv.1 := kv.2]> c
  end.

(** [load_config] *)
Definition load_config (w : world) : config :=
  match config_json w with
  | FStored c => fold_left fill_default DEFAULT_CONFIG_items c
  | FUnreadable => DEFAULT_CONFIG
  | FAbsent => DEFAULT_CONFIG
  end.

(** [save_config] *)
Definition save_config (e : env) (c : config) (w : world) : bool * world :=
  match disk_state e with
  | DiskOk => (true, set_config_json (FStored c) w)
  | DiskOpenError => (false, w)
  | DiskWriteError => (false, set_config_json FUnreadable w)
  end.

(** [update_config]; [config.update(new_settings)] lets the new values win. *)
Definition update_config (e : env) (new_settings : config) (w : world) : config * world :=
  let c := new_settings ∪ load_config w in
  (c, (save_config e c w).2).

(** ** bot.py: sensor data *)

Record sensor_data := SensorData {
  moisture_percent : Z;
  moisture_raw : Z;
  temperature : Z;
  status : option string
}.

(** The four warning levels, ["ok"], ["info"], ["warning"], ["danger"]. *)
Inductive level := ok | info | warning | danger.

#[global] Instance level_eq_dec : EqDecision level.
Proof. solve_decision. Defined.

(** How grave a level is. *)
Definition rank (l : level) : Z :=
  match l with ok => 0 | info => 1 | warning => 2 | danger => 3 end.

(** What [check_watering_restrictions] returns:
    (may water, message, warning level). *)
Definition verdict : Type := bool * string * level.

Definition allowed (v : verdict) : bool := v.1.1.
Definition message (v : verdict) : string := v.1.2.
Definition severity (v : verdict) : level := v.2.

(** The value of [datetime.fromisoformat]: the fields read, and the UTC
    offset when the string carries one. *)
Record parsed := Parsed { naive : datetime; utcoffset : option Z }.

(** ** bot.py: recording a watering *)

(** The body of the success branch of [water_plant], on the dict just
    loaded: reset the counter on a new day, stamp, count. *)
Definition record_watering (c : config) (now : datetime) : result config :=
  let today := date_of now in
  last_watering_date ← getitem c "last_watering_date";
  let c :=
    if bool_decide (last_watering_date ≠ JStr (str_date today))
    then <["watering_count_today" := JInt 0]> c
    else c in
  let c := <["last_watering" := JStr (isoformat now)]> c in
  let c := <["last_watering_date" := JStr (str_date today)]> c in
  count ← getitem c "watering_count_today";
  count ← add_one count;
  Return (<["watering_count_today" := count]> c).

(** [water_plant] *)
Definition water_plant (e : env) (duration_seconds : Z) (w : world)
  : result (bool * string) * world :=
  if negb (connected w) then (Return (false, "❌ НЕТ СВЯЗИ С СИСТЕМОЙ ПОЛИВА"), w)
  else
    let '(success, message) := NodeMCUHTTPController.water_plant e duration_seconds w in
    if success then
      match record_watering (load_config w) (now e) with
      | Return c => (Return (success, message), (save_config e c w).2)
      | Raise x => (Raise x, w)
      end
    else (Return (success, message), w).

(** The settings write of the handler of the button
    ['🔔 Больше не спрашивать сегодня'] in [handle_message]. *)
Definition dont_ask_again (e : env) (w : world) : world :=
  let c := load_config w in
  let c := <["dont_ask_again_today" := JBool true]> c in
  let c := <["dont_ask_again_date" := JStr (str_date (date_of (now e)))]> c in
  (save_config e c w).2.

(** The [update_config] calls of the menus of [handle_message]. *)
Inductive menu_update :=
| EnableSmart
| EnableSchedule
| SwitchToSchedule
| SwitchToSmart
| DisableAuto
| SetDuration (seconds : Z)
| ToggleNotifications
| SetMorningTime (time_value : string)
| SetEveningTime (time_value : string).

(** The dict each of them passes; [c] is the configuration the handler
    loaded on entry. *)
Definition new_settings (u : menu_update) (c : config) : result config :=
  match u with
  | EnableSmart =>
      Return (list_to_map [("auto_mode", JBool true); ("auto_mode_type", JStr "smart")]%string)
  | EnableSchedule =>
      Return (list_to_map [("auto_mode", JBool true); ("auto_mode_type", JStr "schedule")]%string)
  | SwitchToSchedule => Return {[ "auto_mode_type"%string := JStr "schedule" ]}
  | SwitchToSmart => Return {[ "auto_mode_type"%string := JStr "smart" ]}
  | DisableAuto => Return {[ "auto_mode"%string := JBool false ]}
  | SetDuration seconds => Return {[ "watering_duration"%string := JInt seconds ]}
  | ToggleNotifications =>
      notifications ← getitem c "notifications";
      Return {[ "notifications"%string := JBool (negb (truthy notifications)) ]}
  | SetMorningTime time_value =>
      Return {[ "schedule_morning_time"%string := JStr time_value ]}
  | SetEveningTime time_value =>
      Return {[ "schedule_evening_time"%string := JStr time_value ]}
  end.

Definition menu_write (e : env) (u : menu_update) (w : world) : world :=
  match new_settings u (load_config w) with
  | Return new => (update_config e new w).2
  | Raise _ => w
  end.

(** ** bot.py: the watering check *)

Definition MSG_NO_LINK : string :=
  "❌ НЕТ СВЯЗИ С СИСТЕМОЙ" +:+ LF +:+ LF +:+
  "Не удается подключиться к системе полива. Проверьте подключение NodeMCU.".

Definition MSG_NO_DATA : string :=
  "❌ НЕТ ДАННЫХ О ВЛАЖНОСТИ" +:+ LF +:+ LF +:+
  "Не удалось получить данные с датчика влажности.".

Definition MSG_CAN_WATER : string := "✅ Можно поливать".

Definition MSG_TOO_OFTEN : string :=
  "🚨 СЛИШКОМ ЧАСТЫЙ ПОЛИВ!" +:+ LF +:+ LF +:+
  "Прошло менее 6 часов с последнего полива. Это может навредить растению.".

Definition msg_already_watered (count : jval) (hours : Z) : string :=
  "⚠️ ВНИМАНИЕ!" +:+ LF +:+ LF +:+
  "Сегодня уже был полив (" +:+ py_str count +:+ " раз). Прошло " +:+
  pretty hours +:+ " часов.".

Definition msg_watered_long_ago (hours : Z) : string :=
  "💡 ИНФОРМАЦИЯ" +:+ LF +:+ LF +:+
  "Сегодня уже был полив, но прошло " +:+ pretty hours +:+ " часов.".

Definition msg_too_moist (moisture_raw : Z) : string :=
  "❌ Влажность почвы слишком высокая (" +:+ pretty moisture_raw +:+ ").".

(** Lines 181-186: a new day clears the "do not ask again" flag. *)
Definition reset_dont_ask (e : env) (c : config) (w : world) : config * world :=
  let today := date_of (now e) in
  if bool_decide (get c "dont_ask_again_date" ≠ JStr (str_date today)) then
    let c := <["dont_ask_again_today" := JBool false]> c in
    let c := <["dont_ask_again_date" := JStr (str_date today)]> c in
    (c, (save_config e c w).2)
  else (c, w).

(** Lines 216-221: soil that is already wet makes the level ["danger"]. *)
Definition moisture_warning (sd : sensor_data) (wm : option string * level)
  : option string * level :=
  if moisture_raw sd <? 310 then
    (Some match wm.1 with
          | Some m => m +:+ LF +:+ LF +:+ msg_too_moist (moisture_raw sd)
          | None => msg_too_moist (moisture_raw sd)
          end,
     danger)
  else wm.

(** Lines 223-226: the verdict for the warning gathered, if any. *)
Definition verdict_of_warning (wm : option string * level) : verdict :=
  match wm with
  | (Some warning_message, warning_level) => (true, warning_message, warning_level)
  | (None, _) => (true, MSG_CAN_WATER, ok)
  end.

Section Policy.

(** [datetime.fromisoformat]; [None] when it raises [ValueError]. *)
Variable fromisoformat : string -> option parsed.

(** [int((air_value - raw_value) / (air_value - water_value) * 100)], a
    floating point computation; [None] when it raises. *)
Variable float_percent : Z -> option Z.

Definition fromisoformat_of (v : jval) : result parsed :=
  match v with
  | JStr s =>
      match fromisoformat s with
      | Some p => Return p
      | None => Raise ValueError
      end
  | _ => Raise TypeError
  end.

(** [(datetime.now() - p).total_seconds()], in microseconds; a naive
    and an aware datetime do not subtract. *)
Definition micros_since (now : datetime) (p : parsed) : result Z :=
  match utcoffset p with
  | None => Return (micros_between now (naive p))
  | Some _ => Raise TypeError
  end.

(** [get_sensor_data] *)
Definition get_sensor_data (e : env) (w : world) : option sensor_data * world :=
  if negb (connected w) then (None, w)
  else
    let '((raw_value, status), w) := NodeMCUHTTPController.get_moisture e w in
    match raw_value with
    | Some raw_value =>
        match float_percent raw_value with
        | Some p =>
            (Some (SensorData (Z.max 0 (Z.min 100 p)) raw_value (randint_18_28 e) status), w)
        | None => (None, w)
        end
    | None => (None, w)
    end.

(** Lines 193-209: the warning about a watering earlier today.
    [hours_since_last] is a float; [hours_since_last < 6] is decided on
    the timedelta's microseconds, since the rounded quotient by 3600 of a
    number of seconds [s] is below [6.0] exactly when [s < 21600], and
    likewise for 12. [int(hours_since_last)] is the quotient of the
    microseconds by those of an hour, which is what the float gives for
    instants less than 2^33 seconds apart. *)
Definition frequency_warning (c : config) (now : datetime)
  : result (option string * level) :=
  last_watering_date ← getitem c "last_watering_date";
  if truthy last_watering_date then
    last_date ← fromisoformat_of last_watering_date;
    if bool_decide (date_of (naive last_date) = date_of now) then
      count ← getitem c "watering_count_today";
      several ← ge_one count;
      if (several : bool) then
        last_watering ← getitem c "last_watering";
        last ← fromisoformat_of last_watering;
        us ← micros_since now last;
        if (us : Z) <? 6 * HOUR_US then Return (Some MSG_TOO_OFTEN, danger)
        else if us <? 12 * HOUR_US then
          Return (Some (msg_already_watered count (Z.quot us HOUR_US)), warning)
        else Return (Some (msg_watered_long_ago (Z.quot us HOUR_US)), info)
      else Return (None, ok)
    else Return (None, ok)
  else Return (None, ok).

(** [check_watering_restrictions] *)
Definition check_watering_restrictions (e : env) (w : world) : result verdict * world :=
  let c := load_config w in
  if negb (connected w) then (Return (false, MSG_NO_LINK, danger), w)
  else
    let '(c, w) := reset_dont_ask e c w in
    if truthy (get c "dont_ask_again_today") then (Return (true, MSG_CAN_WATER, ok), w)
    else
      match frequency_warning c (now e) with
      | Raise x => (Raise x, w)
      | Return wm =>
          let '(sd, w) := get_sensor_data e w in
          match sd with
          | None => (Return (false, MSG_NO_DATA, danger), w)
          | Some sd => (Return (verdict_of_warning (moisture_warning sd wm)), w)
          end
      end.

(** What can happen to the world between two messages: the writes of
    the settings the program performs, and the link going up or down.
    [datetime.now()] is always a valid datetime. *)
Inductive step : world -> world -> Prop :=
| step_check e w :
    valid_datetime (now e) = true ->
    step w (check_watering_restrictions e w).2
| step_water e duration w :
    valid_datetime (now e) = true ->
    step w (water_plant e duration w).2
| step_dont_ask e w :
    valid_datetime (now e) = true ->
    step w (dont_ask_again e w)
| step_menu e u w :
    step w (menu_write e u w)
| step_link b w :
    step w (set_connected b w).

(** The worlds the program reaches from the defaults, that is when it
    starts without a settings file it can load. *)
Definition reachable (w : world) : Prop :=
  exists w0, load_config w0 = DEFAULT_CONFIG /\ rtc step w0 w.

End Policy.

(** ** Notions the properties are stated with *)

(** The skip-checks bypass is in effect on [today]: the flag is set and
    was set today. *)
Definition bypass_in_effect (c : config) (today : date) : bool :=
  bool_decide (get c "dont_ask_again_date" = JStr (str_date today))
  && truthy (get c "dont_ask_again_today").

(** The record shows no watering earlier on [today]: no date of last
    watering, the date of another day, or a counter below one. *)
Definition no_same_day_watering (fromisoformat : string -> option parsed)
  (c : config) (today : date) : Prop :=
  (exists v, c !! "last_watering_date"%string = Some v /\ truthy v = false) \/
  (exists s p, c !! "last_watering_date"%string = Some (JStr s) /\ s ≠ ""%string /\
     fromisoformat s = Some p /\ date_of (naive p) ≠ today) \/
  (exists n, c !! "last_watering_date"%string = Some (JStr (str_date today)) /\
     c !! "watering_count_today"%string = Some (JInt n) /\ n < 1).

(** A parser inverts the two formatters of the program. *)
Definition inverts_isoformat (fromisoformat : string -> option parsed) : Prop :=
  (forall d, valid_date d = true ->
     fromisoformat (str_date d) = Some (Parsed (midnight d) None)) /\
  (forall t, valid_datetime t = true ->
     fromisoformat (isoformat t) = Some (Parsed t None)).

(** [parse_isoformat], as a [fromisoformat]. *)
Definition fromisoformat_emitted (s : string) : option parsed :=
  t ← parse_isoformat s; Some (Parsed t None).

(** The watering history of a record is consistent: the counter is an
    int, and a date of last watering comes with the timestamp it is the
    date of. *)
Definition history_consistent (c : config) : Prop :=
  (exists n, c !! "watering_count_today"%string = Some (JInt n)) /\
  (c !! "last_watering_date"%string = Some JNull \/
   exists t, valid_datetime t = true /\
     c !! "last_watering"%string = Some (JStr (isoformat t)) /\
     c !! "last_watering_date"%string = Some (JStr (str_date (date_of t)))).

(** ** Sample inputs *)

Module Sample.

Definition today : date := Date 2024 3 5.
Definition noon : datetime := Datetime today 12 0 0 0.

(** A device that answers with the reading [raw]. *)
Definition env_reading (t : datetime) (raw : Z) : env :=
  Env t (StatusHttp 200 (Some raw) (Some "ok"%string)) (WaterHttp 200 None) DiskOk 21.

(** A device whose status request fails. *)
Definition env_silent (t : datetime) : env :=
  Env t StatusRaised (WaterRaised "timeout") DiskOk 21.

(** A record watered [count] times, last at [last]. *)
Definition watered (last : datetime) (count : Z) : config :=
  list_to_map [
    ("last_watering", JStr (isoformat last));
    ("last_watering_date", JStr (str_date (date_of last)));
    ("watering_count_today", JInt count)
  ]%string.

(** The same with the bypass set on [d]. *)
Definition bypassed (last : datetime) (count : Z) (d : date) : config :=
  <["dont_ask_again_today"%string := JBool true]>
    (<["dont_ask_again_date"%string := JStr (str_date d)]> (watered last count)).

Definition online (c : config) : world := World (FStored c) true.
Definition offline (c : config) : world := World (FStored c) false.

(** A settings file written by hand with one key. *)
Definition partial : config := {[ "auto_mode"%string := JBool true ]}.

Definition check := check_watering_restrictions fromisoformat_emitted percent_exact.
Definition sense := get_sensor_data percent_exact.

Definition at_4 : datetime := Datetime today 4 0 0 0.
Definition at_9 : datetime := Datetime today 9 0 0 0.
Definition at_11_59 : datetime := Datetime today 11 59 0 0.
Definition at_15 : datetime := Datetime today 15 0 0 0.
Definition at_23 : datetime := Datetime today 23 0 0 0.
Definition yesterday_18 : datetime := Datetime (Date 2024 3 4) 18 0 0 0.

(** The bot starts without a settings file, the controller connected. *)
Definition fresh : world := World FAbsent true.

End Sample.
(** ** bot.py: keyboards and message handling *)

(** [text.startswith(prefix)] *)
Fixpoint startswith (text prefix : string) : bool :=
  match prefix with
  | EmptyString => true
  | String a prefix' =>
      match text with
      | String b text' => if bool_decide (a = b) then startswith text' prefix' else false
      | EmptyString => false
      end
  end.

(** [text.split(sep)] for a separator of one character: the pieces
    between the separators, empty ones kept. *)
Fixpoint split (sep : ascii) (text : string) : list string :=
  match text with
  | EmptyString => [EmptyString]
  | String a text' =>
      if bool_decide (a = sep) then EmptyString :: split sep text'
      else
        match split sep text' with
        | piece :: pieces => String a piece :: pieces
        | [] => [String a EmptyString]
        end
  end.

(** [needle in text] for two strings. *)
Fixpoint contains (text needle : string) : bool :=
  startswith text needle
  || match text with
     | String _ text' => contains text' needle
     | EmptyString => false
     end.

(** [v == n] for an int [n]. *)
Definition eq_int (v : jval) (n : Z) : bool :=
  match v with
  | JInt m => m =? n
  | JBool b => int_of_bool b =? n
  | JNull | JStr _ => false
  end.

(** [v * 50] raises for [None]; a number is multiplied and a string
    repeated. *)
Definition times_50 (v : jval) : result unit :=
  match v with
  | JNull => Raise TypeError
  | JBool _ | JInt _ | JStr _ => Return tt
  end.

(** [config.get(key, fallback)] *)
Definition get_or (c : config) (key : string) (fallback : jval) : jval :=
  default fallback (c !! key).

(** The rows of buttons a [ReplyKeyboardMarkup] is built from. *)
Definition keyboard : Type := list (list string).

(** [main_menu_keyboard] *)
Definition main_menu_keyboard : keyboard :=
  [["🌱 Статус растения"];
   ["💦 Полить растение"];
   ["🤖 Автономный режим"];
   ["📚 Информация"];
   ["⚙️ Настройки"]].

(** [confirm_watering_keyboard] *)
Definition confirm_watering_keyboard : keyboard :=
  [["✅ ДА, полить"; "❌ НЕТ, отменить"];
   ["🔔 Больше не спрашивать сегодня"]].

(** [settings_menu_keyboard] *)
Definition settings_menu_keyboard : keyboard :=
  [["⏱ Время полива"; "🔔 Уведомления"];
   ["📅 Настройка расписания"; "🔄 Сброс времени полива"];
   ["↩️ Назад"]].

(** [schedule_settings_menu_keyboard] *)
Definition schedule_settings_menu_keyboard : keyboard :=
  [["🕘 Утреннее время"; "🕖 Вечернее время"];
   ["↩️ Назад"]].

(** [time_selection_menu_keyboard] *)
Definition time_selection_menu_keyboard : keyboard :=
  [["🕘 09:00"; "🕙 10:00"; "🕚 11:00"];
   ["🕖 19:00"; "🕗 20:00"; "🕘 21:00"];
   ["↩️ Назад"]].

(** [watering_menu_keyboard] *)
Definition watering_menu_keyboard (w : world) : result keyboard :=
  let config := load_config w in
  duration ← getitem config "watering_duration";
  Return [["💦 Полить " +:+ py_str duration +:+ " сек"];
          ["❌ Отмена"]].

(** [watering_time_menu_keyboard] *)
Definition watering_time_menu_keyboard (w : world) : result keyboard :=
  let config := load_config w in
  current_duration ← getitem config "watering_duration";
  Return [["⏱ 3 сек " +:+ (if eq_int current_duration 3 then "✅" else "");
           "⏱ 5 сек " +:+ (if eq_int current_duration 5 then "✅" else "")];
          ["⏱ 10 сек " +:+ (if eq_int current_duration 10 then "✅" else "");
           "↩️ Назад"]].

(** [auto_mode_menu_keyboard] *)
Definition auto_mode_menu_keyboard (w : world) : result keyboard :=
  let config := load_config w in
  auto_mode ← getitem config "auto_mode";
  let mode_type := get_or config "auto_mode_type" (JStr "smart") in
  let keyboard :=
    if truthy auto_mode then
      if bool_decide (mode_type = JStr "smart") then
        [["🧠 Умный режим ✅"];
         ["📅 Перейти на расписание"; "❌ Выключить авторежим"]]
      else
        [["📅 Режим по расписанию ✅"];
         ["🧠 Перейти на умный режим"; "❌ Выключить авторежим"]]
    else
      [["🧠 Включить умный режим"];
       ["📅 Включить режим по расписанию"]] in
  Return (keyboard ++ [["↩️ Назад"]]).

(** [notifications_menu_keyboard] *)
Definition notifications_menu_keyboard (w : world) : result keyboard :=
  let config := load_config w in
  notifications ← getitem config "notifications";
  let status := if truthy notifications then "✅ Вкл" else "❌ Выкл" in
  Return [["🔔 " +:+ status]; ["↩️ Назад"]].

(** The branches of the [if]/[elif] chain of [handle_message], in its
    order, and the final [else]. *)
Inductive branch :=
| BStatus
| BWater
| BAutoMode
| BInfo
| BSettings
| BWaterMenu
| BCancel
| BYes
| BNo
| BDontAsk
| BEnableSmart
| BEnableSchedule
| BSmartActive
| BScheduleActive
| BToSchedule
| BToSmart
| BAutoOff
| BWateringTime
| BNotifications
| BScheduleSettings
| BResetTime
| BDuration3
| BDuration5
| BDuration10
| BToggleNotifications
| BMorning
| BEvening
| BTimeChoice
| BBack
| BUnknown.

#[global] Instance branch_eq_dec : EqDecision branch.
Proof. solve_decision. Defined.

(** The texts of the time buttons the chain tests membership in. *)
Definition TIME_BUTTONS : list string :=
  ["🕘 09:00"; "🕙 10:00"; "🕚 11:00"; "🕖 19:00"; "🕗 20:00"; "🕘 21:00"].

(** The branch of [handle_message] a text selects: the first test of the
    chain that holds. *)
Definition route (text : string) : branch :=
  if bool_decide (text = "🌱 Статус растения") then BStatus else
  if bool_decide (text = "💦 Полить растение") then BWater else
  if bool_decide (text = "🤖 Автономный режим") then BAutoMode else
  if bool_decide (text = "📚 Информация") then BInfo else
  if bool_decide (text = "⚙️ Настройки") then BSettings else
  if startswith text "💦 Полить" then BWaterMenu else
  if bool_decide (text = "❌ Отмена") then BCancel else
  if bool_decide (text = "✅ ДА, полить") then BYes else
  if bool_decide (text = "❌ НЕТ, отменить") then BNo else
  if bool_decide (text = "🔔 Больше не спрашивать сегодня") then BDontAsk else
  if bool_decide (text = "🧠 Включить умный режим") then BEnableSmart else
  if bool_decide (text = "📅 Включить режим по расписанию") then BEnableSchedule else
  if bool_decide (text = "🧠 Умный режим ✅") then BSmartActive else
  if bool_decide (text = "📅 Режим по расписанию ✅") then BScheduleActive else
  if bool_decide (text = "📅 Перейти на расписание") then BToSchedule else
  if bool_decide (text = "🧠 Перейти на умный режим") then BToSmart else
  if bool_decide (text = "❌ Выключить авторежим") then BAutoOff else
  if bool_decide (text = "⏱ Время полива") then BWateringTime else
  if bool_decide (text = "🔔 Уведомления") then BNotifications else
  if bool_decide (text = "📅 Настройка расписания") then BScheduleSettings else
  if bool_decide (text = "🔄 Сброс времени полива") then BResetTime else
  if startswith text "⏱ 3 сек" then BDuration3 else
  if startswith text "⏱ 5 сек" then BDuration5 else
  if startswith text "⏱ 10 сек" then BDuration10 else
  if startswith text "🔔" then BToggleNotifications else
  if bool_decide (text = "🕘 Утреннее время") then BMorning else
  if bool_decide (text = "🕖 Вечернее время") then BEvening else
  if bool_decide (text ∈ TIME_BUTTONS) then BTimeChoice else
  if bool_decide (text = "↩️ Назад") then BBack else
  BUnknown.

(** [context.user_data], by the two keys [handle_message] looks at: the
    duration and warning level of a watering awaiting confirmation, and
    the schedule setting last opened. *)
Record user_data := UserData {
  pending_watering : option (jval * level);
  last_schedule_setting : option string
}.

Definition set_pending (p : option (jval * level)) (u : user_data) : user_data :=
  UserData p (last_schedule_setting u).

(** The seconds put in the request to the device for a duration. The
    device's answer is given by the [env] and does not depend on them, so
    the number standing for a duration that is not one has no effect. *)
Definition duration_param (duration : jval) : Z :=
  match duration with
  | JInt n => n
  | JBool b => int_of_bool b
  | JNull | JStr _ => 0
  end.

(** A decimal number without sign, as [str] prints a natural number. *)
Fixpoint read_decimal (s : string) (acc : Z) : option Z :=
  match s with
  | EmptyString => Some acc
  | String c s' => if is_digit c then read_decimal s' (10 * acc + digit_val c) else None
  end.

Definition int_of_decimal (s : string) : option Z :=
  match s with
  | EmptyString => None
  | _ => read_decimal s 0
  end.

Section Shell.

(** [datetime.fromisoformat]; [None] when it raises [ValueError]. *)
Variable fromisoformat : string -> option parsed.

(** The float expression of [get_sensor_data]; [None] when it raises. *)
Variable float_percent : Z -> option Z.

(** [int(s)] for a string; [None] when it raises [ValueError]. *)
Variable py_int : string -> option Z.

(** The text about the last watering in the status report of
    [handle_message]; [//] rounds down. *)
Definition last_watering_info (c : config) (now : datetime) : result string :=
  last_watering ← getitem c "last_watering";
  if truthy last_watering then
    last_time ← fromisoformat_of fromisoformat last_watering;
    us ← micros_since now last_time;
    let hours := (us : Z) / HOUR_US in
    if hours <? 1 then Return (pretty (us / (60 * 1000000)) +:+ " минут назад")
    else Return (pretty hours +:+ " часов назад")
  else Return "Не было"%string.

(** [start_watering]; the replies it sends are left out. *)
Definition start_watering (e : env) (duration : jval) (w : world) : result unit * world :=
  match times_50 duration with
  | Raise x => (Raise x, w)
  | Return _ =>
      let '(r, w) := water_plant e (duration_param duration) w in
      match r with
      | Raise x => (Raise x, w)
      | Return (success, _) =>
          if (success : bool) then (Return tt, (get_sensor_data float_percent e w).2)
          else (Return tt, w)
      end
  end.

(** What follows the check in the two branches that ask for a watering:
    a refusal ends the message, a warning is kept for confirmation, a
    clean verdict waters. *)
Definition after_check (e' : env) (v : verdict) (duration : jval)
  (u : user_data) (w : world) : result unit * user_data * world :=
  let '(can_water, _, warning_level) := v in
  if bool_decide (warning_level ∈ [danger; warning; info]) then
    (Return tt, set_pending (Some (duration, warning_level)) u, w)
  else
    let '(r, w) := start_watering e' duration w in (r, u, w).

(** An [update_config] call of a menu branch. *)
Definition menu_step (e : env) (m : menu_update) (u : user_data) (w : world)
  : result unit * user_data * world :=
  match new_settings m (load_config w) with
  | Return new => (Return tt, u, (update_config e new w).2)
  | Raise x => (Raise x, u, w)
  end.

(** [handle_message], by its effect on [context.user_data], the settings
    file and the controller. The replies it sends are left out, and with
    them the reads of the configuration that only fill a reply and cannot
    raise, [load_config] returning every default key. [e] is the outside
    during the handler's own calls, [e'] during [start_watering]. *)
Definition handle_message (e e' : env) (text : string) (u : user_data) (w : world)
  : result unit * user_data * world :=
  let config := load_config w in
  match route text with
  | BStatus =>
      let '(sensor_data, w) := get_sensor_data float_percent e w in
      match sensor_data with
      | None => (Return tt, u, w)
      | Some _ => (_ ← last_watering_info config (now e); Return tt, u, w)
      end
  | BWater =>
      let '(r, w) := check_watering_restrictions fromisoformat float_percent e w in
      match r with
      | Raise x => (Raise x, u, w)
      | Return v =>
          if negb (allowed v) then (Return tt, u, w)
          else
            match getitem (load_config w) "watering_duration" with
            | Raise x => (Raise x, u, w)
            | Return duration => after_check e' v duration u w
            end
      end
  | BAutoMode =>
      if negb (connected w) then (Return tt, u, w)
      else
        let config := load_config w in
        (auto_mode ← getitem config "auto_mode";
         let mode_type := get_or config "auto_mode_type" (JStr "smart") in
         if truthy auto_mode then
           if bool_decide (mode_type = JStr "smart") then
             _ ← getitem config "watering_duration"; Return tt
           else
             duration ← getitem config "watering_duration"; times_50 duration
         else Return tt,
         u, w)
  | BWaterMenu =>
      let typed :=
        match split " " text !! 2%nat with
        | Some piece => py_int piece
        | None => None
        end in
      match (match typed with
             | Some n => Return (JInt n)
             | None => getitem config "watering_duration"
             end) with
      | Raise x => (Raise x, u, w)
      | Return duration =>
          let '(r, w) := check_watering_restrictions fromisoformat float_percent e w in
          match r with
          | Raise x => (Raise x, u, w)
          | Return v =>
              if negb (allowed v) then (Return tt, u, w)
              else after_check e' v duration u w
          end
      end
  | BCancel | BNo => (Return tt, set_pending None u, w)
  | BYes =>
      match pending_watering u with
      | Some (duration, _) =>
          let '(r, w) := start_watering e' duration w in (r, set_pending None u, w)
      | None => (Return tt, u, w)
      end
  | BDontAsk =>
      match pending_watering u with
      | Some (duration, _) =>
          let w := dont_ask_again e w in
          let '(r, w) := start_watering e' duration w in (r, set_pending None u, w)
      | None => (Return tt, u, w)
      end
  | BEnableSmart =>
      if negb (connected w) then (Return tt, u, w) else menu_step e EnableSmart u w
  | BEnableSchedule =>
      if negb (connected w) then (Return tt, u, w) else menu_step e EnableSchedule u w
  | BToSchedule => menu_step e SwitchToSchedule u w
  | BToSmart => menu_step e SwitchToSmart u w
  | BAutoOff => menu_step e DisableAuto u w
  | BDuration3 => menu_step e (SetDuration 3) u w
  | BDuration5 => menu_step e (SetDuration 5) u w
  | BDuration10 => menu_step e (SetDuration 10) u w
  | BToggleNotifications => menu_step e ToggleNotifications u w
  | BTimeChoice =>
      let time_value := nth 1 (split " " text) ""%string in
      let last := default ""%string (last_schedule_setting u) in
      if contains last "Утреннее время" then menu_step e (SetMorningTime time_value) u w
      else if contains last "Вечернее время" then menu_step e (SetEveningTime time_value) u w
      else if bool_decide (time_value ∈ ["09:00"; "10:00"; "11:00"]%string)
      then menu_step e (SetMorningTime time_value) u w
      else menu_step e (SetEveningTime time_value) u w
  | BInfo | BSettings | BSmartActive | BScheduleActive | BWateringTime
  | BNotifications | BScheduleSettings | BResetTime | BMorning | BEvening
  | BBack | BUnknown => (Return tt, u, w)
  end.

End Shell.

(** Every button of a keyboard sends a text that [handle_message] has a
    branch for, other than the final [else]. *)
Definition handled (k : keyboard) : Prop :=
  forall row label, row ∈ k -> label ∈ row -> route label ≠ BUnknown.

(** The number of occurrences of a character. *)
Fixpoint count_char (c : ascii) (s : string) : nat :=
  match s with
  | EmptyString => 0%nat
  | String a s' => ((if bool_decide (a = c) then 1 else 0) + count_char c s')%nat
  end.

(** ** A settings file of any JSON content *)

(** What [json.load] returns for the file: a dict for an object, a list
    for an array, and [None], a bool, a number or a str otherwise. The
    elements of an array are given as [jval]s; an element of another kind
    (a float, an array, an object) is equal to no key, as [JNull] is, and
    a float at top level is, as an int, no dict, list or str. *)
Inductive document :=
| DObject (c : config)
| DArray (items : list jval)
| DScalar (v : jval).

Definition is_dict (d : document) : bool :=
  match d with
  | DObject _ => true
  | DArray _ | DScalar _ => false
  end.

(** [config.json]: missing, not valid JSON, or holding a document. *)
Inductive stored :=
| SAbsent
| SInvalid
| SDocument (d : document).

(** [key in d] for a str [key]: a key of a dict, an element of a list, a
    substring of a str; nothing else is iterable. *)
Definition py_in (key : string) (d : document) : result bool :=
  match d with
  | DObject c => Return (bool_decide (is_Some (c !! key)))
  | DArray items => Return (bool_decide (JStr key ∈ items))
  | DScalar (JStr s) => Return (contains s key)
  | DScalar _ => Raise TypeError
  end.

(** [d[key] = value] for a str [key]: only a dict takes it. *)
Definition py_setitem (d : document) (key : string) (value : jval) : result document :=
  match d with
  | DObject c => Return (DObject (<[key := value]> c))
  | DArray _ | DScalar _ => Raise TypeError
  end.

(** [d[key]] for a str [key] *)
Definition py_getitem (d : document) (key : string) : result jval :=
  match d with
  | DObject c => getitem c key
  | DArray _ | DScalar _ => Raise TypeError
  end.

(** [d.get(key)]: only a dict has the method. *)
Definition py_get (d : document) (key : string) : result jval :=
  match d with
  | DObject c => Return (get c key)
  | DArray _ | DScalar _ => Raise AttributeError
  end.

(** [d.update(new_settings)]: only a dict has the method. *)
Definition py_update (d : document) (new_settings : config) : result config :=
  match d with
  | DObject c => Return (new_settings ∪ c)
  | DArray _ | DScalar _ => Raise AttributeError
  end.

(** A [for] loop whose body may raise. *)
Fixpoint for_each {A S : Type} (body : S -> A -> result S) (items : list A) (s : S)
  : result S :=
  match items with
  | [] => Return s
  | x :: items => s ← body s x; for_each body items s
  end.

(** The file as the settings model has it. A document that [load_config]
    replaces by the defaults reads there as an unreadable file does. *)
Definition settings_file (s : stored) : file :=
  match s with
  | SAbsent => FAbsent
  | SDocument (DObject c) => FStored c
  | SInvalid | SDocument (DArray _) | SDocument (DScalar _) => FUnreadable
  end.

(** A file of the settings model, as it is stored. *)
Definition stored_file (f : file) : stored :=
  match f with
  | FAbsent => SAbsent
  | FUnreadable => SInvalid
  | FStored c => SDocument (DObject c)
  end.

(** bot.py on a [config.json] of any content. Each function is followed
    up to its first use of the value [load_config] returned, which raises
    when that value is no dict; on a dict the function is the one of the
    settings model. *)
Module AnyFile.

(** One turn of the loop of [load_config]:
    [if key not in config: config[key] = value]. *)
Definition fill_default (d : document) (kv : string * jval) : result document :=
  present ← py_in kv.1 d;
  if (present : bool) then Return d else py_setitem d kv.1 kv.2.

(** [load_config]: what the loop raises is caught by [except Exception],
    and the defaults are returned. *)
Definition load_config (s : stored) : document :=
  match s with
  | SDocument d =>
      match for_each fill_default DEFAULT_CONFIG_items d with
      | Return config => config
      | Raise _ => DObject DEFAULT_CONFIG
      end
  | SInvalid => DObject DEFAULT_CONFIG
  | SAbsent => DObject DEFAULT_CONFIG
  end.

Section Checks.

Variable fromisoformat : string -> option parsed.
Variable float_percent : Z -> option Z.

(** [check_watering_restrictions]: line 175 loads the configuration,
    line 183 uses it first, by [config.get]. *)
Definition check_watering_restrictions (e : env) (s : stored) (link : bool)
  : result verdict :=
  let config := load_config s in
  if negb link then Return (false, MSG_NO_LINK, danger)
  else
    _ ← py_get config "dont_ask_again_date";
    (check_watering_restrictions fromisoformat float_percent e
       (World (settings_file s) link)).1.

End Checks.

(** [water_plant]: line 357 uses the configuration first, by
    [config['last_watering_date']], once the device has watered. *)
Definition water_plant (e : env) (duration_seconds : Z) (s : stored) (link : bool)
  : result (bool * string) :=
  let w := World (settings_file s) link in
  if negb link then Return (false, "❌ НЕТ СВЯЗИ С СИСТЕМОЙ ПОЛИВА"%string)
  else
    let '(success, message) := NodeMCUHTTPController.water_plant e duration_seconds w in
    if (success : bool) then
      _ ← py_getitem (load_config s) "last_watering_date";
      (water_plant e duration_seconds w).1
    else Return (success, message).

(** [watering_menu_keyboard] *)
Definition watering_menu_keyboard (s : stored) : result keyboard :=
  _ ← py_getitem (load_config s) "watering_duration";
  watering_menu_keyboard (World (settings_file s) false).

(** [watering_time_menu_keyboard] *)
Definition watering_time_menu_keyboard (s : stored) : result keyboard :=
  _ ← py_getitem (load_config s) "watering_duration";
  watering_time_menu_keyboard (World (settings_file s) false).

(** [auto_mode_menu_keyboard] *)
Definition auto_mode_menu_keyboard (s : stored) : result keyboard :=
  _ ← py_getitem (load_config s) "auto_mode";
  auto_mode_menu_keyboard (World (settings_file s) false).

(** [notifications_menu_keyboard] *)
Definition notifications_menu_keyboard (s : stored) : result keyboard :=
  _ ← py_getitem (load_config s) "notifications";
  notifications_menu_keyboard (World (settings_file s) false).

End AnyFile.

(** config.py on a [config.json] of any content. *)
Module AnyFileConfigPy.

(** [load_config]: what [json.load] returns, whatever it is. *)
Definition load_config (s : stored) : document :=
  match s with
  | SDocument d => d
  | SInvalid => DObject ConfigPy.DEFAULT_CONFIG
  | SAbsent => DObject ConfigPy.DEFAULT_CONFIG
  end.

(** [save_config]: no handler, an I/O error propagates. *)
Definition save_config (e : env) (c : config) (s : stored) : result unit * stored :=
  match disk_state e with
  | DiskOk => (Return tt, SDocument (DObject c))
  | DiskOpenError => (Raise OSError, s)
  | DiskWriteError => (Raise OSError, SInvalid)
  end.

(** [get_config] *)
Definition get_config (s : stored) : document := load_config s.

(** [update_config] *)
Definition update_config (e : env) (new_settings : config) (s : stored)
  : result config * stored :=
  match py_update (load_config s) new_settings with
  | Raise x => (Raise x, s)
  | Return config =>
      let '(r, s) := save_config e config s in
      (_ ← r; Return config, s)
  end.

End AnyFileConfigPy.

(** ** More sample inputs *)

Module Scene.

Definition handle :=
  handle_message fromisoformat_emitted percent_exact int_of_decimal.

Definition nobody : user_data := UserData None None.
Definition awaiting (duration : Z) (l : level) : user_data :=
  UserData (Some (JInt duration, l)) None.

(** A device that answers the status request with an error page. *)
Definition env_error_page (t : datetime) : env :=
  Env t (StatusHttp 500 None None) (WaterHttp 500 (Some "pump"%string)) DiskOk 21.

Definition next_day_8 : datetime := Datetime (Date 2024 3 6) 8 0 0 0.

(** A [config.json] holding the array of the twelve key names. *)
Definition key_names : stored :=
  SDocument (DArray (map (fun kv : string * jval => JStr kv.1) DEFAULT_CONFIG_items)).

(** A [config.json] holding [null]. *)
Definition null_file : stored := SDocument (DScalar JNull).

(** A record whose date of last watering was typed in by hand. *)
Definition scribbled : config :=
  <["last_watering_date"%string := JStr "05.03.2024"]> (Sample.watered Sample.at_9 1).

End Scene.

(** * Properties *)

(** ** The parser inverts the formatters *)

Lemma digit_val_digit k :
  0 <= k < 10 -> is_digit (digit k) = true /\ digit_val (digit k) = k.
Proof.
  intros Hk. unfold is_digit, digit_val, digit.
  rewrite N_ascii_embedding by lia.
  rewrite Z2N.id by lia.
  split; [| lia].
  apply andb_true_intro; split; apply Z.leb_le; lia.
Qed.

Lemma append_cons a s1 s2 : String a s1 +:+ s2 = String a (s1 +:+ s2).
Proof. reflexivity. Qed.

Lemma append_nil s : ""%string +:+ s = s.
Proof. reflexivity. Qed.

Lemma append_assoc s1 s2 s3 : (s1 +:+ s2) +:+ s3 = s1 +:+ s2 +:+ s3.
Proof.
  induction s1 as [| a s1 IH]; [reflexivity |].
  rewrite !append_cons. f_equal. exact IH.
Qed.

Lemma append_nil_r s : s +:+ "" = s.
Proof.
  induction s as [| a s IH]; [reflexivity |].
  rewrite append_cons. f_equal. exact IH.
Qed.

Lemma read_digits_zfill w : forall n rest acc,
  0 <= n < 10 ^ Z.of_nat w ->
  read_digits w (zfill w n +:+ rest) acc = Some (acc * 10 ^ Z.of_nat w + n, rest).
Proof.
  induction w as [| w IH]; intros n rest acc Hn.
  - cbn in *. f_equal. f_equal. lia.
  - rewrite Nat2Z.inj_succ, Z.pow_succ_r in * by lia.
    set (p := 10 ^ Z.of_nat w) in *.
    assert (Hp : 0 < p) by (apply Z.pow_pos_nonneg; lia).
    assert (Hq : 0 <= n / p < 10).
    { split; [apply Z.div_pos; lia | apply Z.div_lt_upper_bound; lia]. }
    assert (Hr : 0 <= n mod p < p) by (apply Z.mod_pos_bound; lia).
    cbn [zfill]. fold p. rewrite append_cons. cbn [read_digits].
    destruct (digit_val_digit (n / p) Hq) as [-> ->].
    rewrite IH by exact Hr.
    f_equal. f_equal.
    pose proof (Z.div_mod n p ltac:(lia)). nia.
Qed.

Lemma read_char_cons c s : read_char c (String c s) = Some s.
Proof. unfold read_char. rewrite bool_decide_true; reflexivity. Qed.

Lemma days_in_month_le y m : days_in_month y m <= 31.
Proof.
  unfold days_in_month.
  repeat match goal with |- context [if ?b then _ else _] => destruct b end; lia.
Qed.

Lemma valid_date_bounds d :
  valid_date d = true ->
  0 <= year d < 10 ^ Z.of_nat 4 /\ 0 <= month d < 10 ^ Z.of_nat 2 /\
  0 <= day d < 10 ^ Z.of_nat 2.
Proof.
  unfold valid_date. rewrite !andb_true_iff, !Z.leb_le.
  pose proof (days_in_month_le (year d) (month d)).
  change (10 ^ Z.of_nat 4) with 10000. change (10 ^ Z.of_nat 2) with 100. lia.
Qed.

Lemma read_date_str_date d rest :
  valid_date d = true -> read_date (str_date d +:+ rest) = Some (d, rest).
Proof.
  intros Hv. destruct (valid_date_bounds d Hv) as (Hy & Hm & Hd).
  destruct d as [y m dd]; cbn [year month day] in *.
  unfold read_date, str_date; cbn [year month day].
  rewrite !append_assoc.
  rewrite read_digits_zfill by exact Hy. cbn [mbind option_bind].
  rewrite append_cons, read_char_cons, append_nil. cbn [mbind option_bind].
  rewrite read_digits_zfill by exact Hm. cbn [mbind option_bind].
  rewrite append_cons, read_char_cons, append_nil. cbn [mbind option_bind].
  rewrite read_digits_zfill by exact Hd. cbn [mbind option_bind].
  repeat f_equal; lia.
Qed.

Lemma valid_datetime_bounds t :
  valid_datetime t = true ->
  valid_date (date_of t) = true /\
  0 <= hour t < 10 ^ Z.of_nat 2 /\ 0 <= minute t < 10 ^ Z.of_nat 2 /\
  0 <= second t < 10 ^ Z.of_nat 2 /\ 0 <= microsecond t < 10 ^ Z.of_nat 6.
Proof.
  unfold valid_datetime. rewrite !andb_true_iff, !Z.leb_le, !Z.ltb_lt.
  change (10 ^ Z.of_nat 2) with 100. change (10 ^ Z.of_nat 6) with 1000000.
  intuition lia.
Qed.

Lemma read_fraction_emitted us :
  0 <= us < 10 ^ Z.of_nat 6 ->
  read_fraction (if us =? 0 then "" else "." +:+ zfill 6 us) = Some us.
Proof.
  intros Hus. destruct (Z.eqb_spec us 0) as [-> | Hne]; [reflexivity |].
  rewrite append_cons, append_nil. unfold read_fraction.
  rewrite read_char_cons. cbn [mbind option_bind].
  rewrite <- (append_nil_r (zfill 6 us)), read_digits_zfill by exact Hus.
  cbn [mbind option_bind]. rewrite bool_decide_true by reflexivity.
  reflexivity.
Qed.

Lemma parse_isoformat_str_date d :
  valid_date d = true -> parse_isoformat (str_date d) = Some (midnight d).
Proof.
  intros Hv. unfold parse_isoformat.
  rewrite <- (append_nil_r (str_date d)), read_date_str_date by exact Hv.
  cbn [mbind option_bind read_time].
  unfold valid_datetime, midnight; cbn [date_of hour minute second microsecond].
  rewrite Hv. reflexivity.
Qed.

Lemma parse_isoformat_isoformat t :
  valid_datetime t = true -> parse_isoformat (isoformat t) = Some t.
Proof.
  intros Hv. destruct (valid_datetime_bounds t Hv) as (Hd & Hh & Hm & Hs & Hus).
  unfold parse_isoformat, isoformat.
  rewrite read_date_str_date by exact Hd. cbn [mbind option_bind].
  rewrite append_cons, append_nil. unfold read_time.
  rewrite read_char_cons. cbn [mbind option_bind].
  rewrite read_digits_zfill by exact Hh. cbn [mbind option_bind].
  rewrite append_cons, read_char_cons, append_nil. cbn [mbind option_bind].
  rewrite read_digits_zfill by exact Hm. cbn [mbind option_bind].
  rewrite append_cons, read_char_cons, append_nil. cbn [mbind option_bind].
  rewrite read_digits_zfill by exact Hs. cbn [mbind option_bind].
  rewrite read_fraction_emitted by exact Hus. cbn [mbind option_bind].
  replace (Datetime (date_of t) (0 * 10 ^ Z.of_nat 2 + hour t)
             (0 * 10 ^ Z.of_nat 2 + minute t) (0 * 10 ^ Z.of_nat 2 + second t)
             (microsecond t)) with t.
  - rewrite Hv. reflexivity.
  - destruct t; cbn [date_of hour minute second microsecond]. f_equal; lia.
Qed.

Lemma fromisoformat_emitted_inverts : inverts_isoformat fromisoformat_emitted.
Proof.
  split.
  - intros d Hd. unfold fromisoformat_emitted.
    rewrite parse_isoformat_str_date by exact Hd. reflexivity.
  - intros t Ht. unfold fromisoformat_emitted.
    rewrite parse_isoformat_isoformat by exact Ht. reflexivity.
Qed.

(** ** The settings store *)

Lemma fold_fill_default l : forall c : config,
  fold_left fill_default l c = c ∪ list_to_map l.
Proof.
  induction l as [| [k v] l IH]; intros c; cbn [fold_left list_to_map foldr].
  - rewrite (right_id_L ∅ (∪)). reflexivity.
  - rewrite IH. unfold fill_default; cbn [fst snd].
    apply map_eq; intros i. rewrite !lookup_union.
    destruct (c !! k) as [x |] eqn:Hk.
    + destruct (decide (k = i)) as [<- | Hne].
      * rewrite Hk, lookup_insert_eq. destruct (list_to_map l !! k); reflexivity.
      * rewrite lookup_insert_ne by exact Hne. reflexivity.
    + destruct (decide (k = i)) as [<- | Hne].
      * rewrite Hk, !lookup_insert_eq. destruct (list_to_map l !! k); reflexivity.
      * rewrite !lookup_insert_ne by exact Hne. reflexivity.
Qed.

Lemma load_config_stored w c :
  config_json w = FStored c -> load_config w = c ∪ DEFAULT_CONFIG.
Proof. intros H. unfold load_config. rewrite H. apply fold_fill_default. Qed.

Lemma load_config_keeps w c k v :
  config_json w = FStored c -> c !! k = Some v -> load_config w !! k = Some v.
Proof.
  intros Hw Hk. rewrite (load_config_stored w c Hw).
  apply lookup_union_Some_l. exact Hk.
Qed.

Lemma load_config_fills w c k :
  config_json w = FStored c -> c !! k = None ->
  load_config w !! k = DEFAULT_CONFIG !! k.
Proof.
  intros Hw Hk. rewrite (load_config_stored w c Hw).
  apply lookup_union_r. exact Hk.
Qed.

Lemma load_config_no_record w :
  config_json w = FAbsent \/ config_json w = FUnreadable ->
  load_config w = DEFAULT_CONFIG.
Proof. intros [H | H]; unfold load_config; rewrite H; reflexivity. Qed.

Lemma load_config_complete w k v :
  DEFAULT_CONFIG !! k = Some v -> is_Some (load_config w !! k).
Proof.
  intros Hd. unfold load_config. destruct (config_json w) as [| | c]; eauto.
  rewrite fold_fill_default. destruct (c !! k) as [x |] eqn:Hk.
  - exists x. apply lookup_union_Some_l. exact Hk.
  - exists v. rewrite lookup_union_r by exact Hk. exact Hd.
Qed.

(** A record holding every default key is loaded back as it was saved. *)
Lemma load_config_saved w c :
  dom DEFAULT_CONFIG ⊆ dom c ->
  load_config (set_config_json (FStored c) w) = c.
Proof.
  intros Hdom.
  rewrite (load_config_stored (set_config_json (FStored c) w) c) by reflexivity.
  apply map_eq; intros k. rewrite lookup_union.
  destruct (c !! k) as [x |] eqn:Hk.
  - destruct (DEFAULT_CONFIG !! k); reflexivity.
  - assert (Hn : DEFAULT_CONFIG !! k = None).
    { apply not_elem_of_dom. intros Hin. apply Hdom in Hin.
      apply elem_of_dom in Hin. rewrite Hk in Hin. destruct Hin; discriminate. }
    rewrite Hn. reflexivity.
Qed.

Lemma load_config_dom w : dom DEFAULT_CONFIG ⊆ dom (load_config w).
Proof.
  intros k Hk. apply elem_of_dom in Hk as [v Hv].
  apply elem_of_dom. eapply load_config_complete. exact Hv.
Qed.

Lemma save_config_connected e c w : connected (save_config e c w).2 = connected w.
Proof. unfold save_config. destruct (disk_state e); reflexivity. Qed.

Lemma save_config_written e c w :
  disk_state e = DiskOk -> save_config e c w = (true, set_config_json (FStored c) w).
Proof. intros H. unfold save_config. rewrite H. reflexivity. Qed.

(** ** Moisture bands *)

Lemma bands_NoDup : NoDup bands.
Proof. apply (bool_decide_unpack _). vm_compute. reflexivity. Qed.

(** C2. [get_moisture_status] sorts every raw value into exactly one of
    the seven bands: VERY DRY from 530 up, DRY on [430, 530), NORMAL on
    [350, 430), IDEAL on [320, 350), MOIST on [310, 320), OVERWATERED on
    [305, 310), TOO WET below 305. The seven bands are distinct and each
    is returned on its interval and nowhere else, so the intervals
    partition the integers, and each of the six thresholds belongs to the
    band that starts at it. *)
Theorem C2_moisture_bands (r : Z) :
  NoDup bands /\
  In (get_moisture_status r) bands /\
  (get_moisture_status r = VERY_DRY <-> 530 <= r) /\
  (get_moisture_status r = DRY <-> 430 <= r < 530) /\
  (get_moisture_status r = NORMAL <-> 350 <= r < 430) /\
  (get_moisture_status r = IDEAL <-> 320 <= r < 350) /\
  (get_moisture_status r = MOIST <-> 310 <= r < 320) /\
  (get_moisture_status r = OVERWATERED <-> 305 <= r < 310) /\
  (get_moisture_status r = TOO_WET <-> r < 305) /\
  map get_moisture_status [530; 430; 350; 320; 310; 305]
    = [VERY_DRY; DRY; NORMAL; IDEAL; MOIST; OVERWATERED] /\
  map get_moisture_status [529; 429; 349; 319; 309; 304]
    = [DRY; NORMAL; IDEAL; MOIST; OVERWATERED; TOO_WET].
Proof.
  split; [exact bands_NoDup |].
  unfold get_moisture_status.
  repeat match goal with
         | |- context [?a <=? r] => destruct (Z.leb_spec a r)
         end;
    (split; [cbn; tauto |]);
    repeat split; intros; try lia; try reflexivity; try discriminate.
Qed.

(** ** Recording a watering *)

Lemma record_watering_counts (c : config) t n :
  is_Some (c !! "last_watering_date"%string) ->
  (c !! "last_watering_date"%string = Some (JStr (str_date (date_of t))) ->
   c !! "watering_count_today"%string = Some (JInt n)) ->
  (c !! "last_watering_date"%string ≠ Some (JStr (str_date (date_of t))) -> n = 0) ->
  record_watering c t =
    Return (<["watering_count_today"%string := JInt (n + 1)]>
             (<["last_watering_date"%string := JStr (str_date (date_of t))]>
               (<["last_watering"%string := JStr (isoformat t)]>
                 (if decide (c !! "last_watering_date"%string
                             = Some (JStr (str_date (date_of t))))
                  then c else <["watering_count_today"%string := JInt 0]> c)))).
Proof.
  intros [v Hv] Hsame Hnew.
  destruct (decide (c !! "last_watering_date"%string = Some (JStr (str_date (date_of t)))))
    as [Heq | Hne]; unfold record_watering, getitem; rewrite Hv; cbn [mbind result_bind].
  - rewrite Hv in Heq. injection Heq as ->.
    rewrite bool_decide_false by (intros H; apply H; reflexivity).
    rewrite !lookup_insert_ne by discriminate.
    rewrite (Hsame Hv). reflexivity.
  - rewrite bool_decide_true by (intros ->; apply Hne; exact Hv).
    rewrite !lookup_insert_ne by discriminate. rewrite lookup_insert_eq.
    rewrite (Hnew Hne). reflexivity.
Qed.

Lemma record_watering_dom (c c' : config) t :
  record_watering c t = Return c' -> dom c ⊆ dom c'.
Proof.
  unfold record_watering, getitem.
  destruct (c !! "last_watering_date"%string) as [v |]; [| discriminate].
  cbn [mbind result_bind].
  match goal with |- context [mbind _ ?r] => destruct r as [x |]; [| discriminate] end.
  cbn [mbind result_bind].
  destruct (add_one x) as [y |]; [| discriminate].
  cbn [mbind result_bind]. intros [= <-].
  case_bool_decide; rewrite !dom_insert_L; set_solver.
Qed.

Lemma water_plant_success e d w err c' :
  connected w = true -> water_answer e = WaterHttp 200 err ->
  record_watering (load_config w) (now e) = Return c' ->
  water_plant e d w = (Return (true, "Полив выполнен успешно"), (save_config e c' w).2).
Proof.
  intros Hc Ha Hr. unfold water_plant, NodeMCUHTTPController.water_plant.
  rewrite Hc, Ha. cbn [negb Z.eqb Pos.eqb]. rewrite Hr. reflexivity.
Qed.

Lemma water_plant_records e d w err n :
  connected w = true -> water_answer e = WaterHttp 200 err -> disk_state e = DiskOk ->
  (load_config w !! "last_watering_date"%string
     = Some (JStr (str_date (date_of (now e)))) ->
   load_config w !! "watering_count_today"%string = Some (JInt n)) ->
  (load_config w !! "last_watering_date"%string
     ≠ Some (JStr (str_date (date_of (now e)))) -> n = 0) ->
  exists w',
    water_plant e d w = (Return (true, "Полив выполнен успешно"), w') /\
    connected w' = true /\
    config_json w' = FStored (load_config w') /\
    load_config w' !! "last_watering"%string = Some (JStr (isoformat (now e))) /\
    load_config w' !! "last_watering_date"%string
      = Some (JStr (str_date (date_of (now e)))) /\
    load_config w' !! "watering_count_today"%string = Some (JInt (n + 1)) /\
    (forall k, k ≠ "last_watering"%string -> k ≠ "last_watering_date"%string ->
       k ≠ "watering_count_today"%string -> load_config w' !! k = load_config w !! k).
Proof.
  intros Hc Ha Hd Hsame Hnew.
  assert (Hlwd : is_Some (load_config w !! "last_watering_date"%string)).
  { apply (load_config_complete w _ JNull). reflexivity. }
  pose proof (record_watering_counts (load_config w) (now e) n Hlwd Hsame Hnew) as Hr.
  match type of Hr with _ = Return ?x => set (c' := x) in * end.
  assert (Hload : load_config (set_config_json (FStored c') w) = c').
  { apply load_config_saved. etransitivity; [apply (load_config_dom w) |].
    exact (record_watering_dom _ _ _ Hr). }
  exists (set_config_json (FStored c') w).
  rewrite (water_plant_success e d w err c' Hc Ha Hr), (save_config_written e c' w Hd).
  cbn [snd]. rewrite Hload.
  split; [reflexivity |]. split; [exact Hc |]. split; [reflexivity |].
  subst c'. split; [| split; [| split]].
  - rewrite !lookup_insert_ne by discriminate. apply lookup_insert_eq.
  - rewrite lookup_insert_ne by discriminate. apply lookup_insert_eq.
  - apply lookup_insert_eq.
  - intros k H1 H2 H3. rewrite !lookup_insert_ne by congruence.
    case_decide; [reflexivity |]. rewrite lookup_insert_ne by congruence. reflexivity.
Qed.

(** C7. A successful watering at [now] restarts the counter from 0 when
    the stored date of last watering is not today's, then stamps
    [last_watering] with [now], [last_watering_date] with today, adds one
    to the counter and saves the record, leaving every other setting as it
    was. Two such waterings on one day therefore take a counter standing
    at [n] to [n + 1] and [n + 2] (from 0: 1, then 2), each time with the
    new timestamp, and loading the settings afterwards gives the saved
    record. *)
Theorem C7_record_watering e1 e2 d1 d2 w err1 err2 n :
  connected w = true ->
  water_answer e1 = WaterHttp 200 err1 -> disk_state e1 = DiskOk ->
  water_answer e2 = WaterHttp 200 err2 -> disk_state e2 = DiskOk ->
  date_of (now e2) = date_of (now e1) ->
  (load_config w !! "last_watering_date"%string
     = Some (JStr (str_date (date_of (now e1)))) ->
   load_config w !! "watering_count_today"%string = Some (JInt n)) ->
  (load_config w !! "last_watering_date"%string
     ≠ Some (JStr (str_date (date_of (now e1)))) -> n = 0) ->
  let w1 := (water_plant e1 d1 w).2 in
  let w2 := (water_plant e2 d2 w1).2 in
  (water_plant e1 d1 w).1 = Return (true, "Полив выполнен успешно"%string) /\
  config_json w1 = FStored (load_config w1) /\
  load_config w1 !! "last_watering"%string = Some (JStr (isoformat (now e1))) /\
  load_config w1 !! "last_watering_date"%string
    = Some (JStr (str_date (date_of (now e1)))) /\
  load_config w1 !! "watering_count_today"%string = Some (JInt (n + 1)) /\
  (forall k, k ≠ "last_watering"%string -> k ≠ "last_watering_date"%string ->
     k ≠ "watering_count_today"%string -> load_config w1 !! k = load_config w !! k) /\
  (water_plant e2 d2 w1).1 = Return (true, "Полив выполнен успешно"%string) /\
  config_json w2 = FStored (load_config w2) /\
  load_config w2 !! "last_watering"%string = Some (JStr (isoformat (now e2))) /\
  load_config w2 !! "watering_count_today"%string = Some (JInt (n + 2)).
Proof.
  intros Hc Ha1 Hd1 Ha2 Hd2 Hday Hsame Hnew w1 w2.
  destruct (water_plant_records e1 d1 w err1 n Hc Ha1 Hd1 Hsame Hnew)
    as (w1' & Hw1 & Hc1 & Hf1 & Hlw1 & Hlwd1 & Hcnt1 & Hk1).
  assert (Ew1 : w1 = w1') by (subst w1; rewrite Hw1; reflexivity).
  rewrite <- Ew1 in *. clear Ew1 w1'.
  rewrite <- Hday in Hlwd1.
  destruct (water_plant_records e2 d2 w1 err2 (n + 1) Hc1 Ha2 Hd2)
    as (w2' & Hw2 & Hc2 & Hf2 & Hlw2 & Hlwd2 & Hcnt2 & Hk2).
  { intros _. exact Hcnt1. }
  { intros Hne. destruct (Hne Hlwd1). }
  assert (Ew2 : w2 = w2') by (subst w2; rewrite Hw2; reflexivity).
  rewrite <- Ew2 in *. clear Ew2 w2'.
  rewrite Hday in Hlwd1.
  replace (n + 2) with (n + 1 + 1) by lia.
  rewrite Hw1, Hw2. cbn [fst]. repeat split; assumption.
Qed.

(** C8. A watering the actuator reports as failed, the case of a
    controller that is not connected included, returns that failure and
    leaves the world as it was: timestamp, date and counter keep their
    values and nothing is saved. The settings only ever change when the
    actuator reported success. *)
Theorem C8_failed_watering e d w :
  ((NodeMCUHTTPController.water_plant e d w).1 = false ->
   exists m, water_plant e d w = (Return (false, m), w)) /\
  (connected w = false ->
   (NodeMCUHTTPController.water_plant e d w).1 = false /\
   water_plant e d w = (Return (false, "❌ НЕТ СВЯЗИ С СИСТЕМОЙ ПОЛИВА"%string), w)) /\
  (forall m w', water_plant e d w = (Return (false, m), w') -> w' = w) /\
  ((water_plant e d w).2 ≠ w ->
   (NodeMCUHTTPController.water_plant e d w).1 = true).
Proof.
  unfold water_plant.
  destruct (connected w) eqn:Hc; cbn [negb].
  - destruct (NodeMCUHTTPController.water_plant e d w) as [[|] m] eqn:Hd; cbn [fst].
    + split; [discriminate |]. split; [discriminate |].
      split; [| reflexivity].
      intros m' w'. destruct (record_watering _ _); intros [=].
    + split; [intros _; exists m; reflexivity |]. split; [discriminate |].
      split; [intros m' w' [= _ <-]; reflexivity |].
      cbn [snd]. intros H. destruct (H eq_refl).
  - split; [intros _; eexists; reflexivity |].
    split.
    { intros _. unfold NodeMCUHTTPController.water_plant. rewrite Hc.
      split; reflexivity. }
    split; [intros m w' [= _ <-]; reflexivity |].
    cbn [snd]. intros H. destruct (H eq_refl).
Qed.

(** ** Consistency of the watering history *)

Lemma load_config_file w1 w2 :
  config_json w1 = config_json w2 -> load_config w1 = load_config w2.
Proof. intros H. unfold load_config. rewrite H. reflexivity. Qed.

Lemma history_consistent_default : history_consistent DEFAULT_CONFIG.
Proof. split; [exists 0; reflexivity | left; reflexivity]. Qed.

Lemma history_consistent_ext (c1 c2 : config) :
  c1 !! "last_watering_date"%string = c2 !! "last_watering_date"%string ->
  c1 !! "watering_count_today"%string = c2 !! "watering_count_today"%string ->
  c1 !! "last_watering"%string = c2 !! "last_watering"%string ->
  history_consistent c1 -> history_consistent c2.
Proof.
  intros H1 H2 H3. unfold history_consistent. rewrite H1, H2, H3. tauto.
Qed.

Lemma insert_keeps_defaults (c : config) k v :
  dom DEFAULT_CONFIG ⊆ dom c -> dom DEFAULT_CONFIG ⊆ dom (<[k := v]> c).
Proof. intros H. etransitivity; [exact H | apply dom_insert_subseteq]. Qed.

Lemma save_config_cases e c w :
  config_json (save_config e c w).2 = FStored c \/
  config_json (save_config e c w).2 = config_json w \/
  config_json (save_config e c w).2 = FUnreadable.
Proof. unfold save_config. destruct (disk_state e); cbn; tauto. Qed.

Lemma save_config_consistent e c w :
  dom DEFAULT_CONFIG ⊆ dom c ->
  history_consistent c ->
  history_consistent (load_config w) ->
  history_consistent (load_config (save_config e c w).2).
Proof.
  intros Hdom Hc Hw.
  destruct (save_config_cases e c w) as [H | [H | H]].
  - rewrite (load_config_file _ (set_config_json (FStored c) w) H).
    rewrite (load_config_saved w c Hdom). exact Hc.
  - rewrite (load_config_file _ w H). exact Hw.
  - unfold load_config. rewrite H. exact history_consistent_default.
Qed.

Lemma record_watering_consistent (c : config) t :
  valid_datetime t = true ->
  history_consistent c ->
  exists c', record_watering c t = Return c' /\ history_consistent c'.
Proof.
  intros Hv [[n Hcnt] Hlast].
  assert (Hsome : is_Some (c !! "last_watering_date"%string)).
  { destruct Hlast as [H | (t0 & _ & _ & H)]; rewrite H; eauto. }
  set (m := if decide (c !! "last_watering_date"%string
                       = Some (JStr (str_date (date_of t)))) then n else 0).
  assert (Hr := record_watering_counts c t m Hsome).
  eexists. split.
  - apply Hr; subst m; case_decide; intros;
      try reflexivity; try assumption; contradiction.
  - split.
    + exists (m + 1). apply lookup_insert_eq.
    + right. exists t. split; [exact Hv |]. split.
      * rewrite !lookup_insert_ne by discriminate. apply lookup_insert_eq.
      * rewrite lookup_insert_ne by discriminate. apply lookup_insert_eq.
Qed.

Lemma new_settings_history u (c new : config) k :
  new_settings u c = Return new ->
  k = "last_watering_date"%string \/ k = "watering_count_today"%string \/
  k = "last_watering"%string ->
  new !! k = None.
Proof.
  intros Hn Hk.
  destruct u; cbn [new_settings] in Hn;
    try (unfold getitem in Hn; destruct (c !! "notifications"%string);
         cbn [mbind result_bind] in Hn);
    try discriminate; injection Hn as <-;
    destruct Hk as [-> | [-> | ->]];
    try reflexivity; apply lookup_singleton_ne; discriminate.
Qed.

Lemma water_plant_consistent e d w :
  valid_datetime (now e) = true ->
  history_consistent (load_config w) ->
  history_consistent (load_config (water_plant e d w).2).
Proof.
  intros Hv Hw. unfold water_plant.
  destruct (negb (connected w)); [exact Hw |].
  destruct (NodeMCUHTTPController.water_plant e d w) as [[|] m]; [| exact Hw].
  destruct (record_watering_consistent _ _ Hv Hw) as (c' & Hr & Hc').
  rewrite Hr. cbn [snd].
  apply save_config_consistent; [| exact Hc' | exact Hw].
  etransitivity; [apply (load_config_dom w) | exact (record_watering_dom _ _ _ Hr)].
Qed.

Lemma dont_ask_again_consistent e w :
  history_consistent (load_config w) ->
  history_consistent (load_config (dont_ask_again e w)).
Proof.
  intros Hw. unfold dont_ask_again.
  apply save_config_consistent; [| | exact Hw].
  - do 2 apply insert_keeps_defaults. apply load_config_dom.
  - revert Hw. apply history_consistent_ext;
      rewrite !lookup_insert_ne by discriminate; reflexivity.
Qed.

Lemma menu_write_consistent e u w :
  history_consistent (load_config w) ->
  history_consistent (load_config (menu_write e u w)).
Proof.
  intros Hw. unfold menu_write.
  destruct (new_settings u (load_config w)) as [new |] eqn:Hn; [| exact Hw].
  unfold update_config. cbn [snd].
  apply save_config_consistent; [| | exact Hw].
  - etransitivity; [apply (load_config_dom w) |].
    rewrite dom_union_L. apply union_subseteq_r.
  - revert Hw. apply history_consistent_ext; symmetry;
      apply lookup_union_r; apply (new_settings_history u _ _ _ Hn); tauto.
Qed.

Lemma reset_dont_ask_consistent e w :
  history_consistent (load_config w) ->
  history_consistent (load_config (reset_dont_ask e (load_config w) w).2).
Proof.
  intros Hw. unfold reset_dont_ask. case_bool_decide; [| exact Hw].
  cbn [snd]. apply save_config_consistent; [| | exact Hw].
  - do 2 apply insert_keeps_defaults. apply load_config_dom.
  - revert Hw. apply history_consistent_ext;
      rewrite !lookup_insert_ne by discriminate; reflexivity.
Qed.

Lemma record_watering_new_day (c c' : config) t :
  c !! "last_watering_date"%string ≠ Some (JStr (str_date (date_of t))) ->
  record_watering c t = Return c' ->
  c' !! "watering_count_today"%string = Some (JInt 1).
Proof.
  intros Hne. unfold record_watering, getitem.
  destruct (c !! "last_watering_date"%string) as [v |]; [| discriminate].
  cbn [mbind result_bind].
  rewrite bool_decide_true by congruence.
  rewrite !lookup_insert_ne by discriminate. rewrite lookup_insert_eq.
  cbn [mbind result_bind add_one]. intros [= <-]. apply lookup_insert_eq.
Qed.

(** ** The watering check *)

Lemma str_date_truthy d : truthy (JStr (str_date d)) = true.
Proof.
  unfold str_date. cbn [zfill]. rewrite append_cons. cbn [truthy].
  rewrite bool_decide_false by discriminate. reflexivity.
Qed.

Lemma reset_dont_ask_bypass e c w :
  truthy (get (reset_dont_ask e c w).1 "dont_ask_again_today")
  = bypass_in_effect c (date_of (now e)).
Proof.
  unfold reset_dont_ask, bypass_in_effect.
  destruct (decide (get c "dont_ask_again_date" = JStr (str_date (date_of (now e)))))
    as [Heq | Hne].
  - rewrite bool_decide_false by (intros H; exact (H Heq)).
    rewrite bool_decide_true by exact Heq. reflexivity.
  - rewrite bool_decide_true by exact Hne.
    rewrite bool_decide_false by exact Hne.
    cbn [fst]. unfold get.
    rewrite lookup_insert_ne by discriminate. rewrite lookup_insert_eq. reflexivity.
Qed.

Lemma reset_dont_ask_other e c w k :
  k ≠ "dont_ask_again_today"%string -> k ≠ "dont_ask_again_date"%string ->
  (reset_dont_ask e c w).1 !! k = c !! k.
Proof.
  intros H1 H2. unfold reset_dont_ask. case_bool_decide; [| reflexivity].
  cbn [fst]. rewrite !lookup_insert_ne by congruence. reflexivity.
Qed.

Lemma reset_dont_ask_connected e c w :
  connected (reset_dont_ask e c w).2 = connected w.
Proof.
  unfold reset_dont_ask. case_bool_decide; [| reflexivity].
  cbn [snd]. apply save_config_connected.
Qed.

Lemma reset_dont_ask_same_day e c w :
  get c "dont_ask_again_date" = JStr (str_date (date_of (now e))) ->
  reset_dont_ask e c w = (c, w).
Proof.
  intros H. unfold reset_dont_ask.
  rewrite bool_decide_false by (intros Hn; exact (Hn H)). reflexivity.
Qed.

Lemma verdict_of_warning_allowed wm : allowed (verdict_of_warning wm) = true.
Proof. destruct wm as [[m |] l]; reflexivity. Qed.

Section PolicyFacts.

Variable fromisoformat : string -> option parsed.
Variable float_percent : Z -> option Z.

Local Abbreviation check := (check_watering_restrictions fromisoformat float_percent).
Local Abbreviation sense := (get_sensor_data float_percent).
Local Abbreviation frequency := (frequency_warning fromisoformat).

Lemma frequency_warning_ext (c1 c2 : config) t :
  c1 !! "last_watering_date"%string = c2 !! "last_watering_date"%string ->
  c1 !! "watering_count_today"%string = c2 !! "watering_count_today"%string ->
  c1 !! "last_watering"%string = c2 !! "last_watering"%string ->
  frequency c1 t = frequency c2 t.
Proof.
  intros H1 H2 H3. unfold frequency_warning, getitem.
  rewrite H1, H2, H3. reflexivity.
Qed.

Lemma frequency_warning_reset e c w t :
  frequency (reset_dont_ask e c w).1 t = frequency c t.
Proof.
  apply frequency_warning_ext; apply reset_dont_ask_other; discriminate.
Qed.

(** The frequency check gives no message exactly with the level [ok]. *)
Lemma frequency_warning_none c t l :
  frequency c t = Return (None, l) -> l = ok.
Proof.
  unfold frequency_warning.
  repeat match goal with
         | |- context [mbind _ ?r] => destruct r; cbn [mbind result_bind]
         | |- context [if ?b then _ else _] => destruct b
         end; congruence.
Qed.

Lemma sense_connected e w1 w2 :
  connected w1 = connected w2 -> (sense e w1).1 = (sense e w2).1.
Proof.
  intros H. unfold get_sensor_data, NodeMCUHTTPController.get_moisture.
  rewrite H. destruct (connected w2); cbn [negb]; [| reflexivity].
  destruct (status_answer e) as [| code m st]; [reflexivity |].
  destruct (code =? 200); [| reflexivity].
  destruct m as [raw |]; [| reflexivity].
  destruct (float_percent raw); reflexivity.
Qed.

Lemma sense_offline e w : connected w = false -> sense e w = (None, w).
Proof. intros H. unfold get_sensor_data. rewrite H. reflexivity. Qed.

(** [check_watering_restrictions] behind the connection gate. *)
Lemma check_connected e w :
  connected w = true ->
  check e w =
    let w1 := (reset_dont_ask e (load_config w) w).2 in
    if bypass_in_effect (load_config w) (date_of (now e)) then
      (Return (true, MSG_CAN_WATER, ok), w1)
    else
      match frequency (load_config w) (now e) with
      | Raise x => (Raise x, w1)
      | Return wm =>
          match (sense e w).1 with
          | None => (Return (false, MSG_NO_DATA, danger), (sense e w1).2)
          | Some sd => (Return (verdict_of_warning (moisture_warning sd wm)), (sense e w1).2)
          end
      end.
Proof.
  intros Hc. unfold check_watering_restrictions. rewrite Hc. cbn [negb].
  pose proof (reset_dont_ask_bypass e (load_config w) w) as Hb.
  pose proof (frequency_warning_reset e (load_config w) w (now e)) as Hf.
  pose proof (reset_dont_ask_connected e (load_config w) w) as Hk.
  destruct (reset_dont_ask e (load_config w) w) as [c1 w1]. cbn [fst snd] in *.
  rewrite Hb, Hf. clear Hb Hf. destruct (bypass_in_effect _ _); [reflexivity |].
  destruct (frequency _ _) as [wm | x]; [| reflexivity].
  rewrite (sense_connected e w w1) by congruence.
  destruct (sense e w1) as [[sd |] w2]; reflexivity.
Qed.

Lemma valid_datetime_date t : valid_datetime t = true -> valid_date (date_of t) = true.
Proof. intros H. apply valid_datetime_bounds in H. tauto. Qed.

Lemma frequency_warning_same_day (c : config) t n s last :
  inverts_isoformat fromisoformat ->
  valid_datetime t = true ->
  c !! "last_watering_date"%string = Some (JStr (str_date (date_of t))) ->
  c !! "watering_count_today"%string = Some (JInt n) -> 1 <= n ->
  c !! "last_watering"%string = Some (JStr s) ->
  fromisoformat s = Some (Parsed last None) ->
  frequency c t =
    let us := micros_between t last in
    if us <? 6 * HOUR_US then Return (Some MSG_TOO_OFTEN, danger)
    else if us <? 12 * HOUR_US then
      Return (Some (msg_already_watered (JInt n) (Z.quot us HOUR_US)), warning)
    else Return (Some (msg_watered_long_ago (Z.quot us HOUR_US)), info).
Proof.
  intros [Hdate _] Hv Hlwd Hcnt Hn Hlw Hs.
  unfold frequency_warning, getitem. rewrite Hlwd, Hcnt, Hlw.
  cbn [mbind result_bind]. rewrite str_date_truthy.
  unfold fromisoformat_of.
  rewrite (Hdate _ (valid_datetime_date t Hv)), Hs.
  cbn [mbind result_bind naive midnight date_of].
  rewrite bool_decide_true by reflexivity.
  cbn [ge_one mbind result_bind].
  destruct (Z.leb_spec 1 n); [| lia].
  reflexivity.
Qed.

Lemma frequency_warning_no_same_day (c : config) t :
  inverts_isoformat fromisoformat ->
  valid_datetime t = true ->
  no_same_day_watering fromisoformat c (date_of t) ->
  frequency c t = Return (None, ok).
Proof.
  intros [Hdate _] Hv [(v & Hlwd & Hf) | [(s & p & Hlwd & Hs & Hp & Hd) | (n & Hlwd & Hcnt & Hn)]];
    unfold frequency_warning, getitem; rewrite Hlwd; cbn [mbind result_bind].
  - rewrite Hf. reflexivity.
  - cbn [truthy]. rewrite bool_decide_false by exact Hs. cbn [negb].
    unfold fromisoformat_of. rewrite Hp. cbn [mbind result_bind].
    rewrite bool_decide_false by exact Hd. reflexivity.
  - rewrite str_date_truthy. unfold fromisoformat_of.
    rewrite (Hdate _ (valid_datetime_date t Hv)).
    cbn [mbind result_bind naive midnight date_of].
    rewrite bool_decide_true by reflexivity. rewrite Hcnt.
    cbn [ge_one mbind result_bind].
    destruct (Z.leb_spec 1 n); [lia | reflexivity].
Qed.

(** C1 (as amended). A disconnected controller makes the check answer
    "may not water" with level danger whatever the settings, and it does
    nothing else. With the controller connected, a status request that
    yields no reading gives the same refusal when the skip-checks bypass
    is not in effect and the frequency check raised nothing. A refusal is
    only ever returned when no sensor reading is obtainable: every
    verdict produced with a reading allows watering. *)
Theorem C1_no_sensor_data_gate e w :
  (connected w = false -> check e w = (Return (false, MSG_NO_LINK, danger), w)) /\
  (connected w = true ->
   (sense e w).1 = None ->
   bypass_in_effect (load_config w) (date_of (now e)) = false ->
   forall wm, frequency (load_config w) (now e) = Return wm ->
   (check e w).1 = Return (false, MSG_NO_DATA, danger)) /\
  (forall v, (check e w).1 = Return v -> allowed v = false ->
     (sense e w).1 = None /\ severity v = danger) /\
  (forall v sd, (sense e w).1 = Some sd -> (check e w).1 = Return v ->
     allowed v = true).
Proof.
  split; [| split; [| split]].
  - intros Hc. unfold check_watering_restrictions. rewrite Hc. reflexivity.
  - intros Hc Hs Hb wm Hf. rewrite (check_connected e w Hc). cbn zeta.
    rewrite Hb, Hf, Hs. reflexivity.
  - intros v. destruct (connected w) eqn:Hc.
    + rewrite (check_connected e w Hc). cbn zeta.
      destruct (bypass_in_effect _ _); [intros [= <-]; discriminate |].
      destruct (frequency _ _) as [wm | x]; [| discriminate].
      destruct (sense e w).1 as [sd |]; cbn [fst]; intros [= <-].
      * rewrite verdict_of_warning_allowed. discriminate.
      * intros _. split; reflexivity.
    + rewrite (sense_offline e w Hc).
      unfold check_watering_restrictions. rewrite Hc. cbn [negb fst].
      intros [= <-] _. split; reflexivity.
  - intros v sd Hs. destruct (connected w) eqn:Hc.
    + rewrite (check_connected e w Hc). cbn zeta. rewrite Hs.
      destruct (bypass_in_effect _ _); [intros [= <-]; reflexivity |].
      destruct (frequency _ _) as [wm | x]; [| discriminate].
      cbn [fst]. intros [= <-]. apply verdict_of_warning_allowed.
    + rewrite (sense_offline e w Hc) in Hs. discriminate.
Qed.

(** C3. With a sensor reading of at least 310, the bypass not in effect,
    the date of last watering equal to today and a counter of at least
    one, the level follows the time since the last watering: danger
    below 6 hours, warning from 6 to below 12 hours, info from 12 hours
    on, and watering is allowed in all three cases. Without a watering
    earlier today there is no frequency warning: the verdict is the
    plain "may water". *)
Theorem C3_frequency_check e w sd :
  inverts_isoformat fromisoformat ->
  valid_datetime (now e) = true ->
  connected w = true ->
  bypass_in_effect (load_config w) (date_of (now e)) = false ->
  (sense e w).1 = Some sd ->
  310 <= moisture_raw sd ->
  let c := load_config w in
  let today := date_of (now e) in
  (forall n s last,
     c !! "last_watering_date"%string = Some (JStr (str_date today)) ->
     c !! "watering_count_today"%string = Some (JInt n) -> 1 <= n ->
     c !! "last_watering"%string = Some (JStr s) ->
     fromisoformat s = Some (Parsed last None) ->
     let us := micros_between (now e) last in
     exists v, (check e w).1 = Return v /\ allowed v = true /\
       (us < 6 * HOUR_US -> severity v = danger) /\
       (6 * HOUR_US <= us < 12 * HOUR_US -> severity v = warning) /\
       (12 * HOUR_US <= us -> severity v = info)) /\
  (no_same_day_watering fromisoformat c today ->
   (check e w).1 = Return (true, MSG_CAN_WATER, ok)).
Proof.
  intros Hinv Hv Hc Hb Hs Hraw c today. subst c today.
  assert (Hm : forall wm, moisture_warning sd wm = wm).
  { intros wm. unfold moisture_warning.
    destruct (Z.ltb_spec (moisture_raw sd) 310); [lia | reflexivity]. }
  split.
  - intros n s last Hlwd Hcnt Hn Hlw Hp us.
    rewrite (check_connected e w Hc). cbn zeta. rewrite Hb, Hs.
    rewrite (frequency_warning_same_day _ (now e) n s last Hinv Hv Hlwd Hcnt Hn Hlw Hp).
    cbn zeta. fold us.
    destruct (Z.ltb_spec us (6 * HOUR_US)); [| destruct (Z.ltb_spec us (12 * HOUR_US))];
      rewrite Hm; eexists; (split; [reflexivity |]);
      cbn [verdict_of_warning allowed severity fst snd];
      repeat split; intros; try reflexivity; unfold HOUR_US in *; lia.
  - intros Hno. rewrite (check_connected e w Hc). cbn zeta. rewrite Hb, Hs.
    rewrite (frequency_warning_no_same_day _ (now e) Hinv Hv Hno).
    rewrite Hm. reflexivity.
Qed.

(** C4. Past the sensor gate and the bypass, a raw moisture below 310
    makes the level danger and the message end with the over-moisture
    notice, the text of lines 218 and 220 with the raw value in it:
    appended after a blank line to the frequency message when there is
    one, alone otherwise. The final level is never below the
    one the frequency check computed (it is that one when the soil is
    not too wet), and watering stays allowed. *)
Theorem C4_over_moisture e w sd fm fl :
  connected w = true ->
  bypass_in_effect (load_config w) (date_of (now e)) = false ->
  frequency (load_config w) (now e) = Return (fm, fl) ->
  (sense e w).1 = Some sd ->
  exists v, (check e w).1 = Return v /\
    allowed v = true /\
    rank fl <= rank (severity v) /\
    (moisture_raw sd < 310 ->
       severity v = danger /\
       message v = match fm with
                   | Some m =>
                       m +:+ LF +:+ LF +:+
                       "❌ Влажность почвы слишком высокая (" +:+
                       pretty (moisture_raw sd) +:+ ")."
                   | None =>
                       "❌ Влажность почвы слишком высокая (" +:+
                       pretty (moisture_raw sd) +:+ ")."
                   end) /\
    (310 <= moisture_raw sd ->
       severity v = fl /\ message v = default "✅ Можно поливать"%string fm).
Proof.
  intros Hc Hb Hf Hs. rewrite (check_connected e w Hc). cbn zeta.
  rewrite Hb, Hf, Hs. eexists. split; [reflexivity |].
  split; [apply verdict_of_warning_allowed |].
  unfold moisture_warning. cbn [fst].
  destruct (Z.ltb_spec (moisture_raw sd) 310) as [Hlt | Hge].
  - cbn [verdict_of_warning severity message fst snd].
    split; [destruct fl; cbn [rank]; lia |].
    split; [intros _; split; reflexivity | intros; lia].
  - destruct fm as [m |].
    + cbn [verdict_of_warning severity message fst snd default].
      split; [lia |]. split; [intros; lia | intros _; split; reflexivity].
    + rewrite (frequency_warning_none _ _ _ Hf).
      cbn [verdict_of_warning severity message fst snd default rank].
      split; [lia |]. split; [intros; lia | intros _; split; reflexivity].
Qed.

(** C5. With the controller connected, a record whose bypass flag is set
    and dated today makes the check return "may water" with level ok at
    once: nothing is written, the sensor is not read, and neither the
    watering history nor the moisture can change the verdict. *)
Theorem C5_bypass e w :
  connected w = true ->
  get (load_config w) "dont_ask_again_date" = JStr (str_date (date_of (now e))) ->
  truthy (get (load_config w) "dont_ask_again_today") = true ->
  check e w = (Return (true, MSG_CAN_WATER, ok), w).
Proof.
  intros Hc Hd Hf. unfold check_watering_restrictions. rewrite Hc. cbn [negb].
  rewrite (reset_dont_ask_same_day e _ w Hd). rewrite Hf. reflexivity.
Qed.

Lemma sense_file e w : config_json (sense e w).2 = config_json w.
Proof.
  unfold get_sensor_data, NodeMCUHTTPController.get_moisture.
  destruct (connected w); cbn [negb]; [| reflexivity].
  destruct (status_answer e) as [| code m st]; [reflexivity |].
  destruct (code =? 200); [| reflexivity].
  destruct m as [raw |]; [| reflexivity].
  destruct (float_percent raw); reflexivity.
Qed.

(** The check writes the settings at most once, when it resets the flag. *)
Lemma check_file e w :
  config_json (check e w).2
  = if connected w then config_json (reset_dont_ask e (load_config w) w).2
    else config_json w.
Proof.
  destruct (connected w) eqn:Hc.
  - rewrite (check_connected e w Hc). cbn zeta.
    destruct (bypass_in_effect _ _); [reflexivity |].
    destruct (frequency _ _) as [wm | x]; [| reflexivity].
    destruct (sense e w).1; cbn [snd]; apply sense_file.
  - unfold check_watering_restrictions. rewrite Hc. reflexivity.
Qed.

Lemma check_consistent e w :
  history_consistent (load_config w) ->
  history_consistent (load_config (check e w).2).
Proof.
  intros Hw. pose proof (check_file e w) as Hf.
  destruct (connected w).
  - rewrite (load_config_file _ _ Hf). apply reset_dont_ask_consistent. exact Hw.
  - rewrite (load_config_file _ _ Hf). exact Hw.
Qed.

Lemma step_consistent w w' :
  step fromisoformat float_percent w w' ->
  history_consistent (load_config w) -> history_consistent (load_config w').
Proof.
  intros [e w0 Hv | e d w0 Hv | e w0 Hv | e u w0 | b w0] Hw.
  - apply check_consistent. exact Hw.
  - apply water_plant_consistent; assumption.
  - apply dont_ask_again_consistent. exact Hw.
  - apply menu_write_consistent. exact Hw.
  - exact Hw.
Qed.

Lemma reachable_consistent w :
  reachable fromisoformat float_percent w -> history_consistent (load_config w).
Proof.
  intros (w0 & H0 & Hr). revert w Hr.
  apply (rtc_ind_r (fun w => history_consistent (load_config w))).
  - rewrite H0. exact history_consistent_default.
  - intros y z _ Hstep IH. exact (step_consistent y z Hstep IH).
Qed.

(** A consistent history parses: the frequency check raises nothing. *)
Lemma frequency_warning_returns (c : config) t :
  inverts_isoformat fromisoformat ->
  history_consistent c ->
  exists wm, frequency c t = Return wm.
Proof.
  intros [Hdate Htime] [[n Hcnt] [Hnull | (t0 & Hv & Hlw & Hlwd)]];
    unfold frequency_warning, getitem; rewrite ?Hnull, ?Hlwd;
    cbn [mbind result_bind truthy]; [eexists; reflexivity |].
  change (negb (bool_decide (str_date (date_of t0) = ""%string)))
    with (truthy (JStr (str_date (date_of t0)))).
  rewrite str_date_truthy. unfold fromisoformat_of.
  rewrite (Hdate _ (valid_datetime_date t0 Hv)). cbn [mbind result_bind].
  case_bool_decide; [| eexists; reflexivity].
  rewrite Hcnt. cbn [mbind result_bind ge_one].
  destruct (1 <=? n); [| eexists; reflexivity].
  rewrite Hlw. cbn [mbind result_bind]. rewrite (Htime _ Hv).
  cbn [mbind result_bind micros_since utcoffset].
  repeat match goal with |- context [if ?b then _ else _] => destruct b end;
    eexists; reflexivity.
Qed.

(** C6 (as amended). The daily resets are lazy, but only the one of the
    skip flag happens when the settings are read. Loading returns every
    stored value as it is, the counter included. When the controller is
    connected and the stored [dont_ask_again_date] is not today, the
    check sets [dont_ask_again_today] to false and the date to today and
    saves that record before it consults the flag. The check never
    resets the counter: it leaves it as stored and ignores it when the
    date of last watering is another day; the counter restarts from 0
    only when [water_plant] records the next watering. *)
Theorem C6_lazy_daily_reset e w :
  let c := load_config w in
  let today := str_date (date_of (now e)) in
  (forall stored k v, config_json w = FStored stored -> stored !! k = Some v ->
     c !! k = Some v) /\
  (connected w = true -> get c "dont_ask_again_date" ≠ JStr today ->
     let c1 := <["dont_ask_again_date"%string := JStr today]>
                 (<["dont_ask_again_today"%string := JBool false]> c) in
     reset_dont_ask e c w = (c1, (save_config e c1 w).2) /\
     truthy (get c1 "dont_ask_again_today") = false /\
     config_json (check e w).2 = config_json (save_config e c1 w).2 /\
     (disk_state e = DiskOk -> load_config (check e w).2 = c1)) /\
  (disk_state e ≠ DiskWriteError ->
     load_config (check e w).2 !! "watering_count_today"%string
     = c !! "watering_count_today"%string) /\
  (forall s p x, c !! "last_watering_date"%string = Some (JStr s) ->
     fromisoformat s = Some p -> date_of (naive p) ≠ date_of (now e) ->
     frequency (<["watering_count_today"%string := x]> c) (now e) = Return (None, ok)) /\
  (forall c', c !! "last_watering_date"%string ≠ Some (JStr today) ->
     record_watering c (now e) = Return c' ->
     c' !! "watering_count_today"%string = Some (JInt 1)).
Proof.
  intros c today. subst c today.
  split; [intros stored k v; apply load_config_keeps |].
  split; [| split; [| split]].
  - intros Hc Hne. cbn zeta.
    assert (Hr : reset_dont_ask e (load_config w) w
                 = (<["dont_ask_again_date"%string := JStr (str_date (date_of (now e)))]>
                      (<["dont_ask_again_today"%string := JBool false]> (load_config w)),
                    (save_config e
                       (<["dont_ask_again_date"%string := JStr (str_date (date_of (now e)))]>
                          (<["dont_ask_again_today"%string := JBool false]> (load_config w)))
                       w).2)).
    { unfold reset_dont_ask. rewrite bool_decide_true by exact Hne. reflexivity. }
    split; [exact Hr |]. split.
    { unfold get. rewrite lookup_insert_ne by discriminate.
      rewrite lookup_insert_eq. reflexivity. }
    assert (Hf : config_json (check e w).2 = config_json (save_config e
                       (<["dont_ask_again_date"%string := JStr (str_date (date_of (now e)))]>
                          (<["dont_ask_again_today"%string := JBool false]> (load_config w)))
                       w).2).
    { rewrite check_file, Hc, Hr. reflexivity. }
    split; [exact Hf |].
    intros Hd. rewrite (load_config_file _ _ Hf), (save_config_written _ _ _ Hd).
    apply load_config_saved. do 2 apply insert_keeps_defaults. apply load_config_dom.
  - intros Hd. pose proof (check_file e w) as Hf.
    destruct (connected w); [| rewrite (load_config_file _ _ Hf); reflexivity].
    rewrite (load_config_file _ _ Hf). unfold reset_dont_ask.
    case_bool_decide; [| reflexivity]. cbn [snd]. unfold save_config.
    destruct (disk_state e); [| reflexivity | contradiction].
    cbn [snd]. rewrite load_config_saved
      by (do 2 apply insert_keeps_defaults; apply load_config_dom).
    rewrite !lookup_insert_ne by discriminate. reflexivity.
  - intros s p x Hlwd Hp Hd. unfold frequency_warning, getitem.
    rewrite (lookup_insert_ne (load_config w) "watering_count_today"%string
               "last_watering_date"%string x) by discriminate.
    rewrite Hlwd. cbn [mbind result_bind truthy].
    destruct (negb (bool_decide (s = ""%string))); [| reflexivity].
    unfold fromisoformat_of. rewrite Hp. cbn [mbind result_bind].
    rewrite bool_decide_false by exact Hd. reflexivity.
  - intros c'. apply record_watering_new_day.
Qed.

(** C10. Every settings record the program reaches from the defaults by
    its own writes has a consistent history: an int counter, and a
    [last_watering_date] that, when it is not [None], is the date of the
    ISO timestamp stored in [last_watering]. Both [fromisoformat] calls
    of the frequency check then succeed, and the check returns a verdict
    instead of raising. *)
Theorem C10_history_parses w :
  inverts_isoformat fromisoformat ->
  reachable fromisoformat float_percent w ->
  let c := load_config w in
  history_consistent c /\
  (forall v, c !! "last_watering_date"%string = Some v -> v ≠ JNull ->
     exists lw p1 p2, c !! "last_watering"%string = Some lw /\
       fromisoformat_of fromisoformat v = Return p1 /\
       fromisoformat_of fromisoformat lw = Return p2) /\
  (forall e, exists v, (check e w).1 = Return v).
Proof.
  intros Hinv Hr c. subst c.
  pose proof (reachable_consistent w Hr) as Hw.
  split; [exact Hw |]. split.
  - intros v Hv Hn. destruct Hinv as [Hdate Htime].
    destruct Hw as [_ [Hnull | (t0 & Hvalid & Hlw & Hlwd)]].
    + rewrite Hnull in Hv. injection Hv as <-. contradiction.
    + rewrite Hlwd in Hv. injection Hv as <-.
      exists (JStr (isoformat t0)), (Parsed (midnight (date_of t0)) None), (Parsed t0 None).
      split; [exact Hlw |]. unfold fromisoformat_of.
      rewrite (Hdate _ (valid_datetime_date t0 Hvalid)), (Htime _ Hvalid).
      split; reflexivity.
  - intros e. destruct (connected w) eqn:Hc.
    + rewrite (check_connected e w Hc). cbn zeta.
      destruct (bypass_in_effect _ _); [eexists; reflexivity |].
      destruct (frequency_warning_returns (load_config w) (now e) Hinv Hw) as [wm ->].
      destruct (sense e w).1; eexists; reflexivity.
    + unfold check_watering_restrictions. rewrite Hc. eexists; reflexivity.
Qed.

End PolicyFacts.

(** ** The two loaders *)

Lemma ConfigPy_load_config_as_stored w c :
  config_json w = FStored c -> ConfigPy.load_config w = c.
Proof. intros H. unfold ConfigPy.load_config. rewrite H. reflexivity. Qed.

Lemma load_config_merges w c k :
  config_json w = FStored c ->
  load_config w !! k = match c !! k with Some v => Some v | None => DEFAULT_CONFIG !! k end.
Proof.
  intros Hc. destruct (c !! k) as [v |] eqn:Hk.
  - apply (load_config_keeps w c k v Hc Hk).
  - apply (load_config_fills w c k Hc Hk).
Qed.

Lemma ConfigPy_load_config_no_record w :
  config_json w = FAbsent \/ config_json w = FUnreadable ->
  ConfigPy.load_config w = ConfigPy.DEFAULT_CONFIG.
Proof. unfold ConfigPy.load_config. intros [-> | ->]; reflexivity. Qed.

(** C9. On a settings file holding only [auto_mode], [load_config] of
    [bot.py] keeps the stored value and takes [watering_duration] from the
    defaults, whereas [load_config] of [config.py] returns the record as
    stored, without a [watering_duration], although its own defaults have
    one. *)
Theorem C9_config_py_keeps_gaps :
  load_config (Sample.online Sample.partial) !! "auto_mode"%string = Some (JBool true) /\
  load_config (Sample.online Sample.partial) !! "watering_duration"%string = Some (JInt 3) /\
  ConfigPy.load_config (Sample.online Sample.partial) = Sample.partial /\
  ConfigPy.DEFAULT_CONFIG !! "watering_duration"%string = Some (JInt 3) /\
  ConfigPy.load_config (Sample.online Sample.partial) !! "watering_duration"%string = None.
Proof. repeat split; vm_compute; reflexivity. Qed.

(** ** The properties at sample inputs *)

(** C1 does not hold as the specification states it: with the
    controller connected, the status request failing and the bypass set
    today, no reading is obtainable and the check allows the watering. *)
Lemma C1_bypass_precedes_sensor_gate :
  ~ (forall e w, (Sample.sense e w).1 = None ->
       exists m, (Sample.check e w).1 = Return (false, m, danger)).
Proof.
  intros H.
  destruct (H (Sample.env_silent Sample.noon)
              (Sample.online (Sample.bypassed Sample.at_11_59 1 Sample.today)))
    as [m Hm].
  - vm_compute. reflexivity.
  - vm_compute in Hm. discriminate Hm.
Qed.

Lemma C1_no_sensor_data_gate_sample :
  Sample.check (Sample.env_silent Sample.noon) (Sample.offline (Sample.watered Sample.at_9 1))
  = (Return (false, MSG_NO_LINK, danger), Sample.offline (Sample.watered Sample.at_9 1)) /\
  (Sample.check (Sample.env_silent Sample.noon)
     (Sample.online (Sample.watered Sample.yesterday_18 2))).1
  = Return (false, MSG_NO_DATA, danger).
Proof.
  split.
  - apply (proj1 (C1_no_sensor_data_gate fromisoformat_emitted percent_exact _ _)).
    reflexivity.
  - apply (proj1 (proj2 (C1_no_sensor_data_gate fromisoformat_emitted percent_exact _ _)))
      with (wm := (None, ok)).
    + reflexivity.
    + vm_compute. reflexivity.
    + vm_compute. reflexivity.
    + vm_compute. reflexivity.
Defined.

Lemma C3_frequency_check_sample :
  (exists v, (Sample.check (Sample.env_reading Sample.noon 400)
                (Sample.online (Sample.watered Sample.at_9 1))).1 = Return v /\
             allowed v = true /\ severity v = danger) /\
  (exists v, (Sample.check (Sample.env_reading Sample.noon 400)
                (Sample.online (Sample.watered Sample.at_4 1))).1 = Return v /\
             allowed v = true /\ severity v = warning) /\
  (exists v, (Sample.check (Sample.env_reading Sample.at_23 400)
                (Sample.online (Sample.watered Sample.at_4 1))).1 = Return v /\
             allowed v = true /\ severity v = info) /\
  (Sample.check (Sample.env_reading Sample.noon 450)
     (Sample.online (Sample.watered Sample.yesterday_18 2))).1
  = Return (true, MSG_CAN_WATER, ok).
Proof.
  split; [| split; [| split]].
  - pose proof (C3_frequency_check fromisoformat_emitted percent_exact
                  (Sample.env_reading Sample.noon 400)
                  (Sample.online (Sample.watered Sample.at_9 1))
                  (SensorData 78 400 21 (Some "ok"%string))
                  fromisoformat_emitted_inverts eq_refl eq_refl eq_refl eq_refl
                  ltac:(vm_compute; discriminate)) as H.
    cbv zeta in H. destruct H as [H _].
    destruct (H 1 (isoformat Sample.at_9) Sample.at_9 eq_refl eq_refl
                ltac:(lia) eq_refl eq_refl) as (v & Hv & Ha & H6 & _ & _).
    exists v. split; [exact Hv |]. split; [exact Ha |].
    apply H6. vm_compute. reflexivity.
  - pose proof (C3_frequency_check fromisoformat_emitted percent_exact
                  (Sample.env_reading Sample.noon 400)
                  (Sample.online (Sample.watered Sample.at_4 1))
                  (SensorData 78 400 21 (Some "ok"%string))
                  fromisoformat_emitted_inverts eq_refl eq_refl eq_refl eq_refl
                  ltac:(vm_compute; discriminate)) as H.
    cbv zeta in H. destruct H as [H _].
    destruct (H 1 (isoformat Sample.at_4) Sample.at_4 eq_refl eq_refl
                ltac:(lia) eq_refl eq_refl) as (v & Hv & Ha & _ & H12 & _).
    exists v. split; [exact Hv |]. split; [exact Ha |].
    apply H12. split; vm_compute; [discriminate | reflexivity].
  - pose proof (C3_frequency_check fromisoformat_emitted percent_exact
                  (Sample.env_reading Sample.at_23 400)
                  (Sample.online (Sample.watered Sample.at_4 1))
                  (SensorData 78 400 21 (Some "ok"%string))
                  fromisoformat_emitted_inverts eq_refl eq_refl eq_refl eq_refl
                  ltac:(vm_compute; discriminate)) as H.
    cbv zeta in H. destruct H as [H _].
    destruct (H 1 (isoformat Sample.at_4) Sample.at_4 eq_refl eq_refl
                ltac:(lia) eq_refl eq_refl) as (v & Hv & Ha & _ & _ & Hinfo).
    exists v. split; [exact Hv |]. split; [exact Ha |].
    apply Hinfo. vm_compute. discriminate.
  - pose proof (C3_frequency_check fromisoformat_emitted percent_exact
                  (Sample.env_reading Sample.noon 450)
                  (Sample.online (Sample.watered Sample.yesterday_18 2))
                  (SensorData 67 450 21 (Some "ok"%string))
                  fromisoformat_emitted_inverts eq_refl eq_refl eq_refl eq_refl
                  ltac:(vm_compute; discriminate)) as H.
    cbv zeta in H. destruct H as [_ H]. apply H.
    right. left.
    exists (str_date (date_of Sample.yesterday_18)),
           (Parsed (midnight (date_of Sample.yesterday_18)) None).
    split; [reflexivity |]. split; [vm_compute; discriminate |].
    split; [reflexivity |]. vm_compute. discriminate.
Defined.

Lemma C4_over_moisture_sample :
  exists v,
    (Sample.check (Sample.env_reading Sample.at_23 300)
       (Sample.online (Sample.watered Sample.at_4 1))).1 = Return v /\
    allowed v = true /\ severity v = danger /\
    message v = "💡 ИНФОРМАЦИЯ" +:+ LF +:+ LF +:+
                "Сегодня уже был полив, но прошло 19 часов." +:+ LF +:+ LF +:+
                "❌ Влажность почвы слишком высокая (300).".
Proof.
  destruct (C4_over_moisture fromisoformat_emitted percent_exact
              (Sample.env_reading Sample.at_23 300)
              (Sample.online (Sample.watered Sample.at_4 1))
              (SensorData 100 300 21 (Some "ok"%string))
              (Some (msg_watered_long_ago 19)) info
              eq_refl eq_refl eq_refl eq_refl)
    as (v & Hv & Ha & _ & Hwet & _).
  exists v. split; [exact Hv |]. split; [exact Ha |].
  apply Hwet. vm_compute. reflexivity.
Defined.

Lemma C5_bypass_sample :
  Sample.check (Sample.env_reading Sample.noon 300)
    (Sample.online (Sample.bypassed Sample.at_11_59 1 Sample.today))
  = (Return (true, MSG_CAN_WATER, ok),
     Sample.online (Sample.bypassed Sample.at_11_59 1 Sample.today)).
Proof.
  apply (C5_bypass fromisoformat_emitted percent_exact); vm_compute; reflexivity.
Defined.

(** C6 does not hold as the specification states it: a counter of 2
    stored yesterday is what loading returns today, and what the check
    leaves behind. *)
Lemma C6_stale_counter_survives_reads :
  ~ (forall e w, connected w = true ->
       load_config w !! "last_watering_date"%string
         ≠ Some (JStr (str_date (date_of (now e)))) ->
       load_config w !! "watering_count_today"%string = Some (JInt 0) \/
       load_config (Sample.check e w).2 !! "watering_count_today"%string = Some (JInt 0)).
Proof.
  intros H.
  destruct (H (Sample.env_reading Sample.noon 400)
              (Sample.online (Sample.watered Sample.yesterday_18 2)))
    as [Hload | Hcheck].
  - reflexivity.
  - vm_compute. discriminate.
  - vm_compute in Hload. discriminate Hload.
  - vm_compute in Hcheck. discriminate Hcheck.
Qed.

Lemma C6_lazy_daily_reset_sample :
  let e := Sample.env_reading Sample.noon 400 in
  let w := Sample.online (Sample.bypassed Sample.yesterday_18 2 (Date 2024 3 4)) in
  load_config w !! "dont_ask_again_today"%string = Some (JBool true) /\
  load_config (Sample.check e w).2 !! "dont_ask_again_today"%string = Some (JBool false) /\
  load_config (Sample.check e w).2 !! "dont_ask_again_date"%string
    = Some (JStr "2024-03-05") /\
  load_config (Sample.check e w).2 !! "watering_count_today"%string = Some (JInt 2).
Proof.
  intros e w.
  pose proof (C6_lazy_daily_reset fromisoformat_emitted percent_exact e w) as H.
  cbv zeta in H. destruct H as (Hkeep & Hflag & Hcount & _ & _).
  split.
  { apply (Hkeep (Sample.bypassed Sample.yesterday_18 2 (Date 2024 3 4))).
    - reflexivity.
    - vm_compute. reflexivity. }
  destruct Hflag as (_ & _ & _ & Hsaved).
  { reflexivity. }
  { vm_compute. discriminate. }
  unfold Sample.check. split; [| split].
  - rewrite (Hsaved eq_refl). vm_compute. reflexivity.
  - rewrite (Hsaved eq_refl). vm_compute. reflexivity.
  - rewrite (Hcount ltac:(discriminate)). vm_compute. reflexivity.
Defined.

Lemma C7_record_watering_sample :
  let e1 := Sample.env_reading Sample.at_9 400 in
  let e2 := Sample.env_reading Sample.at_15 380 in
  let w1 := (water_plant e1 3 Sample.fresh).2 in
  let w2 := (water_plant e2 3 w1).2 in
  load_config w1 !! "watering_count_today"%string = Some (JInt 1) /\
  load_config w1 !! "last_watering"%string = Some (JStr (isoformat Sample.at_9)) /\
  load_config w2 !! "watering_count_today"%string = Some (JInt 2) /\
  load_config w2 !! "last_watering"%string = Some (JStr (isoformat Sample.at_15)).
Proof.
  intros e1 e2 w1 w2.
  pose proof (C7_record_watering e1 e2 3 3 Sample.fresh None None 0
                eq_refl eq_refl eq_refl eq_refl eq_refl eq_refl
                ltac:(intros H; vm_compute in H; discriminate H)
                ltac:(intros _; reflexivity)) as H.
  cbv zeta in H.
  destruct H as (_ & _ & Hlw1 & _ & Hcnt1 & _ & _ & _ & Hlw2 & Hcnt2).
  split; [exact Hcnt1 |]. split; [exact Hlw1 |]. split; [exact Hcnt2 | exact Hlw2].
Defined.

Lemma C8_failed_watering_sample :
  (exists m, water_plant (Sample.env_silent Sample.noon) 3
               (Sample.online (Sample.watered Sample.at_9 1))
             = (Return (false, m), Sample.online (Sample.watered Sample.at_9 1))) /\
  water_plant (Sample.env_reading Sample.noon 400) 3
    (Sample.offline (Sample.watered Sample.at_9 1))
  = (Return (false, "❌ НЕТ СВЯЗИ С СИСТЕМОЙ ПОЛИВА"%string),
     Sample.offline (Sample.watered Sample.at_9 1)).
Proof.
  split.
  - apply (proj1 (C8_failed_watering _ _ _)). reflexivity.
  - apply (proj1 (proj2 (C8_failed_watering _ _ _))). reflexivity.
Defined.

Lemma C10_history_parses_sample :
  let w := (water_plant (Sample.env_reading Sample.at_9 400) 3 Sample.fresh).2 in
  history_consistent (load_config w) /\
  exists v, (Sample.check (Sample.env_reading Sample.noon 400) w).1 = Return v.
Proof.
  intros w.
  assert (Hr : reachable fromisoformat_emitted percent_exact w).
  { exists Sample.fresh. split; [reflexivity |]. eapply rtc_l; [| apply rtc_refl].
    apply (step_water fromisoformat_emitted percent_exact
             (Sample.env_reading Sample.at_9 400) 3 Sample.fresh).
    reflexivity. }
  pose proof (C10_history_parses fromisoformat_emitted percent_exact w
                fromisoformat_emitted_inverts Hr) as H.
  cbv zeta in H. destruct H as (Hc & _ & Hcheck).
  split; [exact Hc | apply Hcheck].
Defined.

(** * Further properties *)

(** ** The settings store of bot.py *)

Lemma load_config_after_save e c w :
  disk_state e = DiskOk -> load_config (save_config e c w).2 = c ∪ DEFAULT_CONFIG.
Proof.
  intros Hd. rewrite (save_config_written e c w Hd). cbn [snd].
  apply load_config_stored. reflexivity.
Qed.

Lemma loaded_union_default w : load_config w ∪ DEFAULT_CONFIG = load_config w.
Proof.
  apply map_eq; intros k. rewrite lookup_union.
  destruct (load_config w !! k) as [x |] eqn:Hk.
  - destruct (DEFAULT_CONFIG !! k); reflexivity.
  - destruct (DEFAULT_CONFIG !! k) as [v |] eqn:Hv; [| reflexivity].
    destruct (load_config_complete w k v Hv) as [y Hy]. congruence.
Qed.

(** X1. What [save_config] wrote is what [load_config] reads back,
    completed with the defaults for the keys it lacks. Saving the loaded
    record is therefore idempotent: the record read back is the one that
    was loaded, and saving it once more leaves the file as it is. *)
Theorem X1_save_load_roundtrip e e' w c :
  disk_state e = DiskOk -> disk_state e' = DiskOk ->
  let w1 := (save_config e (load_config w) w).2 in
  let w2 := (save_config e' (load_config w1) w1).2 in
  load_config (save_config e c w).2 = c ∪ DEFAULT_CONFIG /\
  load_config w1 = load_config w /\
  w2 = w1.
Proof.
  intros Hd Hd' w1 w2. split; [apply load_config_after_save; exact Hd |].
  assert (H1 : load_config w1 = load_config w).
  { subst w1. rewrite (load_config_after_save e _ w Hd). apply loaded_union_default. }
  split; [exact H1 |].
  subst w2. rewrite H1. subst w1.
  rewrite (save_config_written e _ w Hd). cbn [snd].
  rewrite (save_config_written e' _ _ Hd'). reflexivity.
Qed.

(** X2. [update_config] returns the loaded record with the new values
    put over it: a key of [new_settings] has the new value, any other key
    the loaded one, and no default key is missing. The record is returned
    whatever happens to the write; when the write succeeds, loading gives
    the returned record, and when the file cannot be opened the world is
    as before. *)
Theorem X2_update_config e new w :
  let r := update_config e new w in
  (forall k v, new !! k = Some v -> r.1 !! k = Some v) /\
  (forall k, new !! k = None -> r.1 !! k = load_config w !! k) /\
  dom DEFAULT_CONFIG ⊆ dom r.1 /\
  (disk_state e = DiskOk -> load_config r.2 = r.1) /\
  (disk_state e = DiskOpenError -> r.2 = w).
Proof.
  cbn zeta. unfold update_config. cbn [fst snd].
  split; [intros k v Hk; apply lookup_union_Some_l; exact Hk |].
  split; [intros k Hk; apply lookup_union_r; exact Hk |].
  assert (Hdom : dom DEFAULT_CONFIG ⊆ dom (new ∪ load_config w)).
  { etransitivity; [apply (load_config_dom w) |].
    rewrite dom_union_L. apply union_subseteq_r. }
  split; [exact Hdom |]. split.
  - intros Hd. rewrite (save_config_written e _ w Hd). cbn [snd].
    apply load_config_saved. exact Hdom.
  - intros Hd. unfold save_config. rewrite Hd. reflexivity.
Qed.

(** X3. Two updates in a row, both written, amount to one update with
    the second dict put over the first: the same record is returned and the
    same file is left. *)
Theorem X3_update_config_twice e1 e2 new1 new2 w :
  disk_state e1 = DiskOk -> disk_state e2 = DiskOk ->
  update_config e2 new2 (update_config e1 new1 w).2
  = update_config e2 (new2 ∪ new1) w.
Proof.
  intros H1 H2. unfold update_config. cbn [fst snd].
  rewrite (save_config_written e1 _ w H1). cbn [snd].
  rewrite load_config_saved.
  2:{ etransitivity; [apply (load_config_dom w) |].
      rewrite dom_union_L. apply union_subseteq_r. }
  rewrite !(save_config_written e2 _ _ H2). cbn [snd].
  rewrite (assoc_L (∪)). reflexivity.
Qed.

Lemma record_watering_raises (c : config) t x :
  is_Some (c !! "last_watering_date"%string) ->
  is_Some (c !! "watering_count_today"%string) ->
  record_watering c t = Raise x -> x = TypeError.
Proof.
  intros [v Hv] [n Hn]. unfold record_watering, getitem.
  rewrite Hv. cbn [mbind result_bind].
  rewrite !lookup_insert_ne by discriminate.
  case_bool_decide.
  - rewrite lookup_insert_eq. cbn [mbind result_bind add_one]. discriminate.
  - rewrite Hn. cbn [mbind result_bind].
    destruct n; cbn [add_one mbind result_bind]; congruence.
Qed.

Lemma record_watering_other (c c' : config) t k :
  record_watering c t = Return c' ->
  k ≠ "last_watering"%string -> k ≠ "last_watering_date"%string ->
  k ≠ "watering_count_today"%string ->
  c' !! k = c !! k.
Proof.
  unfold record_watering, getitem.
  destruct (c !! "last_watering_date"%string) as [v |]; [| discriminate].
  cbn [mbind result_bind].
  match goal with |- context [mbind _ ?r] => destruct r as [x |]; [| discriminate] end.
  cbn [mbind result_bind].
  destruct (add_one x) as [y |]; [| discriminate].
  cbn [mbind result_bind]. intros [= <-] H1 H2 H3.
  rewrite !lookup_insert_ne by congruence.
  case_bool_decide; [| reflexivity].
  rewrite lookup_insert_ne by congruence. reflexivity.
Qed.

Lemma water_plant_connected e d w : connected (water_plant e d w).2 = connected w.
Proof.
  unfold water_plant. destruct (negb (connected w)); [reflexivity |].
  destruct (NodeMCUHTTPController.water_plant e d w) as [[|] m]; [| reflexivity].
  destruct (record_watering _ _); [| reflexivity].
  cbn [snd]. apply save_config_connected.
Qed.

(** ** The moisture bands and the check *)

Lemma wet_bands r :
  (get_moisture_status r = MOIST <-> 310 <= r < 320) /\
  (get_moisture_status r = OVERWATERED <-> 305 <= r < 310) /\
  (get_moisture_status r = TOO_WET <-> r < 305).
Proof.
  unfold get_moisture_status.
  repeat match goal with
         | |- context [?a <=? r] => destruct (Z.leb_spec a r)
         end;
    repeat split; intros; try lia; try reflexivity; try discriminate.
Qed.

(** X13. The check's over-moisture threshold is the upper end of the
    band OVERWATERED: a reading gets the over-moisture notice, and the
    level danger, exactly when [get_moisture_status] calls it OVERWATERED
    or TOO WET; a MOIST reading passes without the notice. *)
Theorem X13_over_moisture_bands sd wm :
  (moisture_raw sd < 310 <->
   get_moisture_status (moisture_raw sd) = OVERWATERED \/
   get_moisture_status (moisture_raw sd) = TOO_WET) /\
  (get_moisture_status (moisture_raw sd) = OVERWATERED \/
   get_moisture_status (moisture_raw sd) = TOO_WET ->
   (moisture_warning sd wm).2 = danger /\
   exists before, (moisture_warning sd wm).1
                  = Some (before +:+ "❌ Влажность почвы слишком высокая (" +:+
                          pretty (moisture_raw sd) +:+ ").")) /\
  (get_moisture_status (moisture_raw sd) ≠ OVERWATERED ->
   get_moisture_status (moisture_raw sd) ≠ TOO_WET ->
   moisture_warning sd wm = wm) /\
  (get_moisture_status (moisture_raw sd) = MOIST -> moisture_warning sd wm = wm).
Proof.
  destruct (wet_bands (moisture_raw sd)) as (Hm & Ho & Ht).
  assert (Hiff : moisture_raw sd < 310 <->
                 get_moisture_status (moisture_raw sd) = OVERWATERED \/
                 get_moisture_status (moisture_raw sd) = TOO_WET).
  { rewrite Ho, Ht. lia. }
  split; [exact Hiff |]. unfold moisture_warning.
  split; [| split].
  - intros H. apply Hiff in H.
    destruct (Z.ltb_spec (moisture_raw sd) 310); [| lia]. cbn [fst snd].
    split; [reflexivity |].
    destruct wm as [[m |] l]; cbn [fst].
    + exists (m +:+ LF +:+ LF). rewrite !append_assoc. reflexivity.
    + exists ""%string. reflexivity.
  - intros H1 H2. destruct (Z.ltb_spec (moisture_raw sd) 310); [| reflexivity].
    exfalso. destruct (proj1 Hiff ltac:(assumption)); contradiction.
  - intros H. apply Hm in H.
    destruct (Z.ltb_spec (moisture_raw sd) 310); [lia | reflexivity].
Qed.

(** ** Errors and writes of the check *)

Lemma ge_one_raises v x : ge_one v = Raise x -> x = TypeError.
Proof. destruct v; cbn [ge_one]; congruence. Qed.

Lemma water_plant_other e d w k :
  disk_state e ≠ DiskWriteError ->
  k ≠ "last_watering"%string -> k ≠ "last_watering_date"%string ->
  k ≠ "watering_count_today"%string ->
  load_config (water_plant e d w).2 !! k = load_config w !! k.
Proof.
  intros Hd H1 H2 H3. unfold water_plant.
  destruct (negb (connected w)); [reflexivity |].
  destruct (NodeMCUHTTPController.water_plant e d w) as [[|] m]; [| reflexivity].
  destruct (record_watering (load_config w) (now e)) as [c' |] eqn:Hr; [| reflexivity].
  cbn [snd]. unfold save_config.
  destruct (disk_state e); [| reflexivity | contradiction].
  cbn [snd]. rewrite load_config_saved.
  - exact (record_watering_other _ _ _ k Hr H1 H2 H3).
  - etransitivity; [apply (load_config_dom w) | exact (record_watering_dom _ _ _ Hr)].
Qed.

(** ** A settings file of any JSON content *)

Lemma fill_default_dict c kv :
  AnyFile.fill_default (DObject c) kv = Return (DObject (fill_default c kv)).
Proof.
  unfold AnyFile.fill_default, fill_default, py_in, py_setitem.
  cbn [mbind result_bind]. destruct (c !! kv.1) as [v |].
  - rewrite bool_decide_true by (eexists; reflexivity). reflexivity.
  - rewrite bool_decide_false by (intros [v Hv]; discriminate Hv). reflexivity.
Qed.

Lemma for_each_dict items c :
  for_each AnyFile.fill_default items (DObject c)
  = Return (DObject (fold_left fill_default items c)).
Proof.
  revert c. induction items as [| kv items IH]; intros c; [reflexivity |].
  cbn [for_each fold_left]. rewrite fill_default_dict. cbn [mbind result_bind]. apply IH.
Qed.

Lemma fill_default_no_dict d kv d' :
  is_dict d = false ->
  AnyFile.fill_default d kv = Return d' -> d' = d /\ py_in kv.1 d = Return true.
Proof.
  intros Hd. unfold AnyFile.fill_default.
  destruct (py_in kv.1 d) as [[|] | x]; cbn [mbind result_bind].
  - intros [= <-]. split; reflexivity.
  - destruct d; [discriminate Hd | discriminate | discriminate].
  - discriminate.
Qed.

Lemma for_each_no_dict items d d' :
  is_dict d = false ->
  for_each AnyFile.fill_default items d = Return d' ->
  d' = d /\ Forall (fun kv : string * jval => py_in kv.1 d = Return true) items.
Proof.
  intros Hd. induction items as [| kv items IH]; cbn [for_each].
  - intros [= <-]. split; [reflexivity | constructor].
  - destruct (AnyFile.fill_default d kv) as [d1 | x] eqn:Hfill;
      cbn [mbind result_bind]; [| discriminate].
    destruct (fill_default_no_dict d kv d1 Hd Hfill) as [-> Hin].
    intros H. destruct (IH H) as [-> Hall]. split; [reflexivity |].
    constructor; assumption.
Qed.

(** What [load_config] returns is the dict of the settings model, or the
    document itself when that is no dict and names every default key. *)
Lemma load_config_cases s link :
  AnyFile.load_config s = DObject (load_config (World (settings_file s) link)) \/
  exists d, s = SDocument d /\ is_dict d = false /\ AnyFile.load_config s = d /\
    Forall (fun kv : string * jval => py_in kv.1 d = Return true) DEFAULT_CONFIG_items.
Proof.
  destruct s as [| | [c | items | v]]; try (left; reflexivity).
  - left. unfold AnyFile.load_config. rewrite for_each_dict.
    unfold load_config. cbn [settings_file config_json]. reflexivity.
  - unfold AnyFile.load_config.
    destruct (for_each AnyFile.fill_default DEFAULT_CONFIG_items (DArray items))
      as [d' | x] eqn:Hloop; [| left; reflexivity].
    destruct (for_each_no_dict _ (DArray items) _ eq_refl Hloop) as [-> Hall].
    right. eexists. repeat split; assumption.
  - unfold AnyFile.load_config.
    destruct (for_each AnyFile.fill_default DEFAULT_CONFIG_items (DScalar v))
      as [d' | x] eqn:Hloop; [| left; reflexivity].
    destruct (for_each_no_dict _ (DScalar v) _ eq_refl Hloop) as [-> Hall].
    right. eexists. repeat split; assumption.
Qed.

Lemma load_config_dict s link :
  is_dict (AnyFile.load_config s) = true ->
  AnyFile.load_config s = DObject (load_config (World (settings_file s) link)).
Proof.
  intros Hd. destruct (load_config_cases s link) as [H | (d & _ & Hno & Heq & _)];
    [exact H |].
  rewrite Heq in Hd. congruence.
Qed.

Lemma load_config_names s k v :
  DEFAULT_CONFIG !! k = Some v -> py_in k (AnyFile.load_config s) = Return true.
Proof.
  intros Hk. destruct (load_config_cases s false) as [H | (d & _ & _ & Heq & Hall)].
  - rewrite H. cbn [py_in]. rewrite bool_decide_true; [reflexivity |].
    exact (load_config_complete _ k v Hk).
  - rewrite Heq. rewrite Forall_forall in Hall.
    apply (Hall (k, v)). apply elem_of_list_to_map_2. exact Hk.
Qed.

(** A list, or a str: the documents that are no dict and that
    [load_config] can return. *)
Lemma load_config_no_dict s :
  is_dict (AnyFile.load_config s) = false ->
  (exists items, s = SDocument (DArray items) /\ AnyFile.load_config s = DArray items) \/
  (exists t, s = SDocument (DScalar (JStr t)) /\ AnyFile.load_config s = DScalar (JStr t)).
Proof.
  intros Hd. destruct (load_config_cases s false) as [H | (d & -> & Hno & Heq & Hall)].
  - rewrite H in Hd. discriminate Hd.
  - destruct d as [c | items | v]; [discriminate Hno | left; eauto |].
    destruct v as [| b | n | t]; try (inversion Hall; discriminate).
    right. eauto.
Qed.

Lemma water_plant_raises e d w x : (water_plant e d w).1 = Raise x -> x = TypeError.
Proof.
  unfold water_plant.
  destruct (negb (connected w)); [discriminate |].
  destruct (NodeMCUHTTPController.water_plant e d w) as [[|] m]; [| discriminate].
  destruct (record_watering (load_config w) (now e)) as [c' | y] eqn:Hr; [discriminate |].
  cbn [fst]. intros [= <-]. revert Hr. apply record_watering_raises.
  - apply (load_config_complete w _ JNull). reflexivity.
  - apply (load_config_complete w _ (JInt 0)). reflexivity.
Qed.

Section MoreFacts.

Variable fromisoformat : string -> option parsed.
Variable float_percent : Z -> option Z.

Local Abbreviation check := (check_watering_restrictions fromisoformat float_percent).
Local Abbreviation check_any :=
  (AnyFile.check_watering_restrictions fromisoformat float_percent).
Local Abbreviation sense := (get_sensor_data float_percent).
Local Abbreviation frequency := (frequency_warning fromisoformat).

Lemma fromisoformat_of_raises v x :
  fromisoformat_of fromisoformat v = Raise x -> x = TypeError \/ x = ValueError.
Proof.
  unfold fromisoformat_of. destruct v as [| b | n | s]; try (intros [= <-]; tauto).
  destruct (fromisoformat s); [discriminate | intros [= <-]; tauto].
Qed.

Lemma frequency_warning_raises (c : config) t x :
  is_Some (c !! "last_watering_date"%string) ->
  is_Some (c !! "watering_count_today"%string) ->
  is_Some (c !! "last_watering"%string) ->
  frequency c t = Raise x -> x = TypeError \/ x = ValueError.
Proof.
  intros [v1 H1] [v2 H2] [v3 H3]. unfold frequency_warning, getitem.
  rewrite H1, H2, H3. cbn [mbind result_bind].
  destruct (truthy v1); [| discriminate].
  destruct (fromisoformat_of fromisoformat v1) as [p |y] eqn:Hp; cbn [mbind result_bind].
  2:{ intros [= <-]. exact (fromisoformat_of_raises _ _ Hp). }
  case_bool_decide; [| discriminate].
  destruct (ge_one v2) as [b | y] eqn:Hg; cbn [mbind result_bind].
  2:{ intros [= <-]. left. exact (ge_one_raises _ _ Hg). }
  destruct b; [| discriminate].
  destruct (fromisoformat_of fromisoformat v3) as [q | y] eqn:Hq; cbn [mbind result_bind].
  2:{ intros [= <-]. exact (fromisoformat_of_raises _ _ Hq). }
  unfold micros_since. destruct (utcoffset q); cbn [mbind result_bind].
  - intros [= <-]. tauto.
  - repeat match goal with |- context [if ?b then _ else _] => destruct b end;
      discriminate.
Qed.

Lemma check_raises_iff e w x :
  (check e w).1 = Raise x <->
  connected w = true /\
  bypass_in_effect (load_config w) (date_of (now e)) = false /\
  frequency (load_config w) (now e) = Raise x.
Proof.
  split.
  - destruct (connected w) eqn:Hc.
    + rewrite (check_connected _ _ e w Hc). cbn zeta.
      destruct (bypass_in_effect _ _); [discriminate |].
      destruct (frequency _ _) as [wm | y].
      * destruct (sense e w).1; discriminate.
      * cbn [fst]. intros [= <-]. tauto.
    + unfold check_watering_restrictions. rewrite Hc. discriminate.
  - intros (Hc & Hb & Hf). rewrite (check_connected _ _ e w Hc). cbn zeta.
    rewrite Hb, Hf. reflexivity.
Qed.

Lemma check_raises e w x : (check e w).1 = Raise x -> x = TypeError \/ x = ValueError.
Proof.
  intros Hx. apply check_raises_iff in Hx.
  destruct Hx as (_ & _ & Hf). revert Hf. apply frequency_warning_raises.
  - apply (load_config_complete w _ JNull). reflexivity.
  - apply (load_config_complete w _ (JInt 0)). reflexivity.
  - apply (load_config_complete w _ JNull). reflexivity.
Qed.

Lemma check_any_dict e s link :
  is_dict (AnyFile.load_config s) = true ->
  check_any e s link = (check e (World (settings_file s) link)).1.
Proof.
  intros Hd. unfold AnyFile.check_watering_restrictions.
  rewrite (load_config_dict s link Hd). cbn [py_get mbind result_bind].
  destruct link; [reflexivity |].
  unfold check_watering_restrictions. reflexivity.
Qed.

Lemma check_any_no_dict e s :
  is_dict (AnyFile.load_config s) = false -> check_any e s true = Raise AttributeError.
Proof.
  intros Hd. unfold AnyFile.check_watering_restrictions. cbn [negb].
  destruct (AnyFile.load_config s); [discriminate Hd | reflexivity | reflexivity].
Qed.

(** X4. Whatever [config.json] holds, every key of [DEFAULT_CONFIG] is
    in the value [load_config] returns, and that value is the dict of the
    settings model unless the file holds an array or a string that names
    all twelve keys, which is returned as it is. So the check never raises
    [KeyError]: it raises [AttributeError] exactly when the controller is
    connected and the loaded value is no dict, and [TypeError] or
    [ValueError] otherwise; [water_plant] raises nothing but
    [TypeError]. *)
Theorem X4_no_key_error e d s link :
  let loaded := AnyFile.load_config s in
  (forall k v, DEFAULT_CONFIG !! k = Some v -> py_in k loaded = Return true) /\
  (is_dict loaded = true ->
   loaded = DObject (load_config (World (settings_file s) link))) /\
  (is_dict loaded = false ->
   ((exists items, s = SDocument (DArray items)) \/
    (exists t, s = SDocument (DScalar (JStr t)))) /\
   s = SDocument loaded) /\
  (forall x, check_any e s link = Raise x ->
     x = TypeError \/ x = ValueError \/ x = AttributeError) /\
  (check_any e s link = Raise AttributeError <-> link = true /\ is_dict loaded = false) /\
  (forall x, AnyFile.water_plant e d s link = Raise x -> x = TypeError).
Proof.
  intros loaded. subst loaded.
  split; [intros k v; apply load_config_names |].
  split; [apply load_config_dict |].
  split.
  { intros Hd. destruct (load_config_no_dict s Hd) as [(items & -> & Heq) | (t & -> & Heq)];
      rewrite Heq; eauto. }
  destruct (is_dict (AnyFile.load_config s)) eqn:Hd.
  - rewrite (check_any_dict e s link Hd). split; [| split].
    + intros x Hx. destruct (check_raises _ _ _ Hx); tauto.
    + split; [| intros [_ H]; discriminate H].
      intros Hx. destruct (check_raises _ _ _ Hx); discriminate.
    + intros x. unfold AnyFile.water_plant.
      destruct link; cbn [negb]; [| discriminate].
      destruct (NodeMCUHTTPController.water_plant _ _ _) as [[|] m]; [| discriminate].
      rewrite (load_config_dict s true Hd). cbn [py_getitem]. unfold getitem.
      destruct (load_config_complete (World (settings_file s) true)
                  "last_watering_date"%string JNull eq_refl) as [v ->].
      cbn [mbind result_bind]. apply water_plant_raises.
  - split; [| split].
    + intros x. destruct link; [rewrite (check_any_no_dict e s Hd); intros [= <-]; tauto |].
      discriminate.
    + split.
      * destruct link; [tauto | discriminate].
      * intros [-> _]. apply check_any_no_dict. exact Hd.
    + intros x. unfold AnyFile.water_plant.
      destruct link; cbn [negb]; [| discriminate].
      destruct (NodeMCUHTTPController.water_plant _ _ _) as [[|] m]; [| discriminate].
      destruct (AnyFile.load_config s); [discriminate Hd | |];
        cbn [py_getitem mbind result_bind]; intros [= <-]; reflexivity.
Qed.

(** X5. Which histories make the check raise. With the controller
    connected and the bypass not in effect, a stored date of last watering
    that is [None], empty, zero or false lets the check return; one that
    is a string [fromisoformat] rejects makes it raise [ValueError]; one
    that is a non-zero number or [True] makes it raise [TypeError]; and so
    does, under today's date, a counter that is [None] or a string. *)
Theorem X5_check_raises e w v :
  connected w = true ->
  bypass_in_effect (load_config w) (date_of (now e)) = false ->
  load_config w !! "last_watering_date"%string = Some v ->
  (truthy v = false -> exists r, (check e w).1 = Return r) /\
  (forall s, v = JStr s -> s ≠ ""%string -> fromisoformat s = None ->
     (check e w).1 = Raise ValueError) /\
  (truthy v = true -> (forall s, v ≠ JStr s) -> (check e w).1 = Raise TypeError) /\
  (forall s p count, v = JStr s -> s ≠ ""%string -> fromisoformat s = Some p ->
     date_of (naive p) = date_of (now e) ->
     load_config w !! "watering_count_today"%string = Some count ->
     count = JNull \/ (exists t, count = JStr t) ->
     (check e w).1 = Raise TypeError).
Proof.
  intros Hc Hb Hv. rewrite (check_connected _ _ e w Hc). cbn zeta. rewrite Hb.
  unfold frequency_warning, getitem. rewrite Hv. cbn [mbind result_bind].
  split; [| split; [| split]].
  - intros ->. cbn [mbind result_bind].
    destruct (get_sensor_data float_percent e w).1; eexists; reflexivity.
  - intros s -> Hne Hp. cbn [truthy]. rewrite bool_decide_false by exact Hne.
    cbn [negb fromisoformat_of]. rewrite Hp. reflexivity.
  - intros -> Hno. destruct v as [| b | n | s]; try reflexivity.
    destruct (Hno s eq_refl).
  - intros s p count -> Hne Hp Hday Hcount Hbad. cbn [truthy].
    rewrite bool_decide_false by exact Hne.
    cbn [negb fromisoformat_of]. rewrite Hp. cbn [mbind result_bind].
    rewrite bool_decide_true by exact Hday. rewrite Hcount. cbn [mbind result_bind].
    destruct Hbad as [-> | [t ->]]; reflexivity.
Qed.

End MoreFacts.

Lemma JStr_inj s1 s2 : JStr s1 = JStr s2 -> s1 = s2.
Proof. intros H. injection H as H. exact H. Qed.

Lemma str_date_inj d1 d2 :
  valid_date d1 = true -> valid_date d2 = true -> str_date d1 = str_date d2 -> d1 = d2.
Proof.
  intros H1 H2 Heq.
  pose proof (read_date_str_date d1 "" H1) as R1.
  pose proof (read_date_str_date d2 "" H2) as R2.
  rewrite Heq in R1. rewrite R1 in R2. congruence.
Qed.

Lemma dont_ask_again_loaded e w :
  disk_state e = DiskOk ->
  load_config (dont_ask_again e w)
  = <["dont_ask_again_date"%string := JStr (str_date (date_of (now e)))]>
      (<["dont_ask_again_today"%string := JBool true]> (load_config w)).
Proof.
  intros Hd. unfold dont_ask_again.
  rewrite (save_config_written e _ w Hd). cbn [snd].
  apply load_config_saved. do 2 apply insert_keeps_defaults. apply load_config_dom.
Qed.

Lemma dont_ask_again_connected e w : connected (dont_ask_again e w) = connected w.
Proof. unfold dont_ask_again. apply save_config_connected. Qed.

Section Compositions.

Variable fromisoformat : string -> option parsed.
Variable float_percent : Z -> option Z.

Local Abbreviation check := (check_watering_restrictions fromisoformat float_percent).
Local Abbreviation sense := (get_sensor_data float_percent).
Local Abbreviation frequency := (frequency_warning fromisoformat).

Lemma check_bypassed e w :
  connected w = true ->
  get (load_config w) "dont_ask_again_date" = JStr (str_date (date_of (now e))) ->
  truthy (get (load_config w) "dont_ask_again_today") = true ->
  check e w = (Return (true, MSG_CAN_WATER, ok), w).
Proof.
  intros Hc Hd Hf. unfold check_watering_restrictions. rewrite Hc. cbn [negb].
  rewrite (reset_dont_ask_same_day e _ w Hd). rewrite Hf. reflexivity.
Qed.

Lemma check_other e w k :
  disk_state e ≠ DiskWriteError ->
  k ≠ "dont_ask_again_today"%string -> k ≠ "dont_ask_again_date"%string ->
  load_config (check e w).2 !! k = load_config w !! k.
Proof.
  intros Hd H1 H2. pose proof (check_file fromisoformat float_percent e w) as Hf.
  destruct (connected w); [| rewrite (load_config_file _ _ Hf); reflexivity].
  rewrite (load_config_file _ _ Hf). unfold reset_dont_ask.
  case_bool_decide; [| reflexivity]. cbn [snd]. unfold save_config.
  destruct (disk_state e); [| reflexivity | contradiction].
  cbn [snd]. rewrite load_config_saved
    by (do 2 apply insert_keeps_defaults; apply load_config_dom).
  rewrite !lookup_insert_ne by congruence. reflexivity.
Qed.

(** X6. The check writes nothing but the two keys of the bypass: unless
    a write fails midway, every other setting loads after the check as it
    did before. With the controller disconnected, or with the stored
    bypass date being today's, the check leaves the file alone. *)
Theorem X6_check_writes_bypass_only e w :
  (forall k, disk_state e ≠ DiskWriteError ->
     k ≠ "dont_ask_again_today"%string -> k ≠ "dont_ask_again_date"%string ->
     load_config (check e w).2 !! k = load_config w !! k) /\
  (connected w = false \/
   get (load_config w) "dont_ask_again_date" = JStr (str_date (date_of (now e))) ->
   config_json (check e w).2 = config_json w).
Proof.
  split; [intros k; apply check_other |].
  intros H. rewrite (check_file fromisoformat float_percent e w).
  destruct (connected w); [| reflexivity].
  destruct H as [H | H]; [discriminate |].
  rewrite (reset_dont_ask_same_day e _ w H). reflexivity.
Qed.

Lemma sense_connected_after e w :
  connected (sense e w).2
  = match status_answer e with
    | StatusRaised => false
    | StatusHttp _ _ _ => connected w
    end.
Proof.
  unfold get_sensor_data, NodeMCUHTTPController.get_moisture.
  destruct (connected w) eqn:Hc; cbn [negb];
    [| destruct (status_answer e); exact Hc].
  destruct (status_answer e) as [| code m st]; [reflexivity |].
  destruct (code =? 200); [| exact Hc].
  destruct m as [raw |]; [| exact Hc].
  destruct (float_percent raw); exact Hc.
Qed.

Lemma check_connected_after e w :
  connected (check e w).2 = true -> connected w = true.
Proof.
  destruct (connected w) eqn:Hc; [reflexivity |].
  unfold check_watering_restrictions. rewrite Hc. cbn [negb snd]. rewrite Hc. tauto.
Qed.


(** X11. A sensor reading is returned only by a connected controller
    whose status request was answered 200 with a moisture value: the
    reading carries that raw value and the answer's status unchanged, and
    its percentage lies between 0 and 100. *)
Theorem X11_sensor_reading e w sd :
  (sense e w).1 = Some sd ->
  connected w = true /\
  status_answer e = StatusHttp 200 (Some (moisture_raw sd)) (status sd) /\
  (exists p, float_percent (moisture_raw sd) = Some p /\
             moisture_percent sd = Z.max 0 (Z.min 100 p)) /\
  0 <= moisture_percent sd <= 100 /\
  (sense e w).2 = w.
Proof.
  unfold get_sensor_data, NodeMCUHTTPController.get_moisture.
  destruct (connected w); cbn [negb]; [| discriminate].
  destruct (status_answer e) as [| code m st]; [discriminate |].
  destruct (Z.eqb_spec code 200) as [-> | Hne]; [| discriminate].
  destruct m as [raw |]; [| discriminate].
  destruct (float_percent raw) as [p |] eqn:Hp; [| discriminate].
  cbn [fst snd]. intros [= <-]. cbn [moisture_raw moisture_percent status].
  split; [reflexivity |]. split; [reflexivity |].
  split; [exists p; split; [exact Hp | reflexivity] |].
  split; [lia | reflexivity].
Qed.

End Compositions.

(** ** Sequences of calls *)

Section Sequences.

Variable fromisoformat : string -> option parsed.
Variable float_percent : Z -> option Z.

Local Abbreviation check := (check_watering_restrictions fromisoformat float_percent).
Local Abbreviation sense := (get_sensor_data float_percent).
Local Abbreviation frequency := (frequency_warning fromisoformat).

(** X14. One status request that raises during a check takes the bot
    offline for good: that check refuses for lack of data and clears the
    connected flag, and from then on every check refuses with "no link",
    every watering fails and every sensor read gives nothing, whatever the
    device would answer, none of them changing the world. *)
Theorem X14_failed_read_latches e w wm :
  connected w = true ->
  status_answer e = StatusRaised ->
  bypass_in_effect (load_config w) (date_of (now e)) = false ->
  frequency (load_config w) (now e) = Return wm ->
  let w1 := (check e w).2 in
  (check e w).1 = Return (false, MSG_NO_DATA, danger) /\
  connected w1 = false /\
  forall e' d,
    check e' w1 = (Return (false, MSG_NO_LINK, danger), w1) /\
    water_plant e' d w1 = (Return (false, "❌ НЕТ СВЯЗИ С СИСТЕМОЙ ПОЛИВА"%string), w1) /\
    sense e' w1 = (None, w1).
Proof.
  intros Hc Hs Hb Hf w1.
  assert (Hnone : (sense e w).1 = None).
  { unfold get_sensor_data, NodeMCUHTTPController.get_moisture.
    rewrite Hc, Hs. reflexivity. }
  assert (Hoff : connected w1 = false).
  { subst w1. rewrite (check_connected _ _ e w Hc). cbn zeta.
    rewrite Hb, Hf, Hnone. cbn [snd].
    rewrite sense_connected_after, Hs. reflexivity. }
  split.
  - rewrite (check_connected _ _ e w Hc). cbn zeta. rewrite Hb, Hf, Hnone. reflexivity.
  - split; [exact Hoff |]. intros e' d. split; [| split].
    + unfold check_watering_restrictions. rewrite Hoff. reflexivity.
    + unfold water_plant. rewrite Hoff. reflexivity.
    + apply sense_offline. exact Hoff.
Qed.

(** X15. Once "do not ask again today" has been written, every check
    made the same day with the controller connected returns "may water"
    with level ok at once, and it still does after any watering recorded
    in between. *)
Theorem X15_dont_ask_again_holds e e' w :
  disk_state e = DiskOk ->
  connected w = true ->
  date_of (now e') = date_of (now e) ->
  let w1 := dont_ask_again e w in
  check e' w1 = (Return (true, MSG_CAN_WATER, ok), w1) /\
  forall e2 d, disk_state e2 ≠ DiskWriteError ->
    check e' (water_plant e2 d w1).2
    = (Return (true, MSG_CAN_WATER, ok), (water_plant e2 d w1).2).
Proof.
  intros Hd Hc Hday w1.
  assert (Hdate : load_config w1 !! "dont_ask_again_date"%string
                  = Some (JStr (str_date (date_of (now e'))))).
  { subst w1. rewrite (dont_ask_again_loaded e w Hd), Hday. apply lookup_insert_eq. }
  assert (Hflag : load_config w1 !! "dont_ask_again_today"%string = Some (JBool true)).
  { subst w1. rewrite (dont_ask_again_loaded e w Hd).
    rewrite lookup_insert_ne by discriminate. apply lookup_insert_eq. }
  assert (Hc1 : connected w1 = true).
  { subst w1. rewrite dont_ask_again_connected. exact Hc. }
  split.
  - apply check_bypassed; [exact Hc1 | |]; unfold get; [rewrite Hdate | rewrite Hflag];
      reflexivity.
  - intros e2 d Hd2. apply check_bypassed.
    + rewrite water_plant_connected. exact Hc1.
    + unfold get. rewrite (water_plant_other e2 d w1 _ Hd2) by discriminate.
      rewrite Hdate. reflexivity.
    + unfold get. rewrite (water_plant_other e2 d w1 _ Hd2) by discriminate.
      rewrite Hflag. reflexivity.
Qed.

(** X16. The bypass does not outlive its day: after "do not ask again
    today" was written, a check made on another day finds the bypass not
    in effect, and when its write succeeds the stored flag is false again
    and dated that day. *)
Theorem X16_bypass_expires e e' w :
  disk_state e = DiskOk ->
  connected w = true ->
  valid_datetime (now e) = true ->
  valid_datetime (now e') = true ->
  date_of (now e') ≠ date_of (now e) ->
  let w1 := dont_ask_again e w in
  bypass_in_effect (load_config w1) (date_of (now e')) = false /\
  (disk_state e' = DiskOk ->
   load_config (check e' w1).2 !! "dont_ask_again_today"%string = Some (JBool false) /\
   load_config (check e' w1).2 !! "dont_ask_again_date"%string
     = Some (JStr (str_date (date_of (now e'))))).
Proof.
  intros Hd Hc Hv Hv' Hday w1.
  assert (Hdate : get (load_config w1) "dont_ask_again_date"
                  ≠ JStr (str_date (date_of (now e')))).
  { subst w1. unfold get. rewrite (dont_ask_again_loaded e w Hd), lookup_insert_eq.
    change (JStr (str_date (date_of (now e))) ≠ JStr (str_date (date_of (now e')))).
    intros Heq. apply Hday. symmetry.
    apply str_date_inj; [apply valid_datetime_date .. | apply JStr_inj]; assumption. }
  split.
  - unfold bypass_in_effect. rewrite bool_decide_false by exact Hdate. reflexivity.
  - intros Hd'.
    assert (Hc1 : connected w1 = true).
    { subst w1. rewrite dont_ask_again_connected. exact Hc. }
    pose proof (check_file fromisoformat float_percent e' w1) as Hf.
    rewrite Hc1 in Hf. rewrite (load_config_file _ _ Hf).
    unfold reset_dont_ask. rewrite bool_decide_true by exact Hdate.
    cbn [snd]. rewrite (save_config_written e' _ _ Hd'). cbn [snd].
    rewrite load_config_saved
      by (do 2 apply insert_keeps_defaults; apply load_config_dom).
    split; [rewrite lookup_insert_ne by discriminate |]; apply lookup_insert_eq.
Qed.

(** X17. A watering that was recorded is seen by the next check: the
    same day, with the bypass not in effect and a reading of at least 310,
    the check asks for confirmation with level danger when less than six
    hours have passed since that watering, with level warning from six to
    below twelve hours, and with level info from twelve hours on. *)
Theorem X17_check_after_watering e1 e2 d w err n sd :
  inverts_isoformat fromisoformat ->
  valid_datetime (now e1) = true ->
  valid_datetime (now e2) = true ->
  date_of (now e2) = date_of (now e1) ->
  connected w = true ->
  water_answer e1 = WaterHttp 200 err -> disk_state e1 = DiskOk ->
  (load_config w !! "last_watering_date"%string
     = Some (JStr (str_date (date_of (now e1)))) ->
   load_config w !! "watering_count_today"%string = Some (JInt n)) ->
  (load_config w !! "last_watering_date"%string
     ≠ Some (JStr (str_date (date_of (now e1)))) -> n = 0) ->
  0 <= n ->
  let w1 := (water_plant e1 d w).2 in
  bypass_in_effect (load_config w1) (date_of (now e2)) = false ->
  (sense e2 w1).1 = Some sd ->
  310 <= moisture_raw sd ->
  let us := micros_between (now e2) (now e1) in
  (check e2 w1).1
  = Return (if us <? 6 * HOUR_US then (true, MSG_TOO_OFTEN, danger)
            else if us <? 12 * HOUR_US then
              (true, msg_already_watered (JInt (n + 1)) (Z.quot us HOUR_US), warning)
            else (true, msg_watered_long_ago (Z.quot us HOUR_US), info)).
Proof.
  intros Hinv Hv1 Hv2 Hday Hc Ha Hd Hsame Hnew Hn w1 Hb Hs Hraw us.
  destruct (water_plant_records e1 d w err n Hc Ha Hd Hsame Hnew)
    as (w1' & Hw1 & Hc1 & _ & Hlw & Hlwd & Hcnt & _).
  assert (Ew : w1 = w1') by (subst w1; rewrite Hw1; reflexivity).
  rewrite <- Ew in *. clear Ew w1' Hw1.
  rewrite <- Hday in Hlwd.
  rewrite (check_connected _ _ e2 w1 Hc1). cbn zeta. rewrite Hb, Hs.
  rewrite (frequency_warning_same_day fromisoformat _ (now e2) (n + 1)
             (isoformat (now e1)) (now e1) Hinv Hv2 Hlwd Hcnt ltac:(lia) Hlw
             (proj2 Hinv _ Hv1)).
  cbn zeta. fold us. unfold moisture_warning.
  destruct (Z.ltb_spec (moisture_raw sd) 310); [lia |].
  destruct (us <? 6 * HOUR_US); [reflexivity |].
  destruct (us <? 12 * HOUR_US); reflexivity.
Qed.

End Sequences.

(** ** The percentage shown for a reading *)

(** Every reading of a converter of up to twelve bits, one by one. *)
Lemma percent_agrees_table : forallb percent_agrees (seqZ 0 4096) = true.
Proof. vm_compute. reflexivity. Qed.

Lemma percent_float_exact raw_value :
  0 <= raw_value < 4096 ->
  exists p, percent_float raw_value = Some p /\
    shown p = shown (Z.quot ((750 - raw_value) * 100) 445).
Proof.
  intros Hr. pose proof percent_agrees_table as Ht.
  rewrite forallb_forall in Ht.
  assert (Hin : In raw_value (seqZ 0 4096)).
  { apply list_elem_of_In, elem_of_seqZ. lia. }
  specialize (Ht raw_value Hin). unfold percent_agrees, percent_exact in Ht.
  destruct (percent_float raw_value) as [p |]; [| discriminate Ht].
  exists p. split; [reflexivity |]. apply Z.eqb_eq. exact Ht.
Qed.

Lemma sensor_percent float_percent e w sd :
  (get_sensor_data float_percent e w).1 = Some sd ->
  exists p, float_percent (moisture_raw sd) = Some p /\ moisture_percent sd = shown p.
Proof.
  unfold get_sensor_data, NodeMCUHTTPController.get_moisture.
  destruct (negb (connected w)); [discriminate |].
  destruct (status_answer e) as [| code m st]; [discriminate |].
  destruct (code =? 200); [| discriminate].
  destruct m as [raw |]; [| discriminate].
  destruct (float_percent raw) as [p |] eqn:Hp; [| discriminate].
  cbn [fst]. intros [= <-]. exists p. split; [exact Hp | reflexivity].
Qed.

Lemma sense_agrees e w sd :
  (get_sensor_data percent_float e w).1 = Some sd ->
  0 <= moisture_raw sd < 4096 ->
  get_sensor_data percent_exact e w = get_sensor_data percent_float e w.
Proof.
  unfold get_sensor_data, NodeMCUHTTPController.get_moisture.
  destruct (negb (connected w)); [discriminate |].
  destruct (status_answer e) as [| code m st]; [discriminate |].
  destruct (code =? 200); [| discriminate].
  destruct m as [raw |]; [| discriminate].
  destruct (percent_float raw) as [p |] eqn:Hp; [| discriminate].
  cbn [fst]. intros [= <-]. cbn [moisture_raw]. intros Hr.
  destruct (percent_float_exact raw Hr) as (q & Hq & He).
  rewrite Hp in Hq. injection Hq as <-. unfold percent_exact.
  change (Z.max 0 (Z.min 100 p)) with (shown p). rewrite He. reflexivity.
Qed.

(** X12. The percentage shown for a reading, as the float expression of
    line 136 gives it. For the readings of a converter of up to twelve
    bits, 0 to 4095, it is the exact quotient cut to 0..100, so the
    calibration ends are kept: a reading at or above the dry value 750
    shows 0 %, one at or below the wet value 305 shows 100 %, and of two
    readings the lower raw value, the wetter soil, never shows the lower
    percentage; [get_sensor_data] with the exact quotient is then
    [get_sensor_data] itself. Outside the floats' range the expression
    raises and there is no reading: so for a device that reports
    10^400. *)
Theorem X12_percent_calibration e1 w1 sd1 e2 w2 sd2 :
  (get_sensor_data percent_float e1 w1).1 = Some sd1 ->
  (get_sensor_data percent_float e2 w2).1 = Some sd2 ->
  0 <= moisture_raw sd1 < 4096 ->
  0 <= moisture_raw sd2 < 4096 ->
  moisture_percent sd1
    = Z.max 0 (Z.min 100 (Z.quot ((750 - moisture_raw sd1) * 100) 445)) /\
  (750 <= moisture_raw sd1 -> moisture_percent sd1 = 0) /\
  (moisture_raw sd1 <= 305 -> moisture_percent sd1 = 100) /\
  (moisture_raw sd1 <= moisture_raw sd2 -> moisture_percent sd2 <= moisture_percent sd1) /\
  get_sensor_data percent_exact e1 w1 = get_sensor_data percent_float e1 w1 /\
  (forall e w st, connected w = true ->
     status_answer e = StatusHttp 200 (Some (10 ^ 400)) st ->
     (get_sensor_data percent_float e w).1 = None).
Proof.
  intros H1 H2 Hr1 Hr2.
  pose proof (sense_agrees e1 w1 sd1 H1 Hr1) as Hsame.
  destruct (sensor_percent _ _ _ _ H1) as (p1 & Hp1 & ->).
  destruct (sensor_percent _ _ _ _ H2) as (p2 & Hp2 & ->).
  destruct (percent_float_exact _ Hr1) as (q1 & Hq1 & He1).
  rewrite Hp1 in Hq1. injection Hq1 as <-. rewrite He1.
  destruct (percent_float_exact _ Hr2) as (q2 & Hq2 & He2).
  rewrite Hp2 in Hq2. injection Hq2 as <-. rewrite He2.
  unfold shown.
  split; [reflexivity |]. split; [| split; [| split; [| split; [exact Hsame |]]]].
  - intros Hdry.
    pose proof (Z.quot_le_mono ((750 - moisture_raw sd1) * 100) 0 445 ltac:(lia) ltac:(lia)) as Hq.
    change (Z.quot 0 445) with 0 in Hq. lia.
  - intros Hwet.
    pose proof (Z.quot_le_mono 44500 ((750 - moisture_raw sd1) * 100) 445 ltac:(lia) ltac:(lia)) as Hq.
    change (Z.quot 44500 445) with 100 in Hq. lia.
  - intros Hle.
    pose proof (Z.quot_le_mono ((750 - moisture_raw sd2) * 100)
                  ((750 - moisture_raw sd1) * 100) 445 ltac:(lia) ltac:(lia)) as Hq.
    lia.
  - intros e w st Hc Hs. unfold get_sensor_data, NodeMCUHTTPController.get_moisture.
    rewrite Hc, Hs. cbn [negb Z.eqb Pos.eqb].
    replace (percent_float (10 ^ 400)) with (@None Z) by (vm_compute; reflexivity).
    reflexivity.
Qed.

(** ** The menus' writes *)

Lemma new_settings_other m (c new : config) k :
  new_settings m c = Return new ->
  k ∉ ["auto_mode"; "auto_mode_type"; "watering_duration"; "notifications";
       "schedule_morning_time"; "schedule_evening_time"]%string ->
  new !! k = None.
Proof.
  intros Hn Hk.
  assert (Hne : k ≠ "auto_mode"%string /\ k ≠ "auto_mode_type"%string /\
                k ≠ "watering_duration"%string /\ k ≠ "notifications"%string /\
                k ≠ "schedule_morning_time"%string /\ k ≠ "schedule_evening_time"%string).
  { repeat split; intros ->; apply Hk; repeat constructor. }
  destruct Hne as (H1 & H2 & H3 & H4 & H5 & H6).
  destruct m; cbn [new_settings] in Hn;
    try (unfold getitem in Hn; destruct (c !! "notifications"%string);
         cbn [mbind result_bind] in Hn);
    try discriminate; injection Hn as <-;
    cbn [list_to_map foldr fst snd];
    rewrite ?lookup_insert_ne by congruence;
    try apply lookup_empty; apply lookup_singleton_ne; congruence.
Qed.

Lemma menu_write_connected e m w : connected (menu_write e m w) = connected w.
Proof.
  unfold menu_write. destruct (new_settings m (load_config w)); [| reflexivity].
  unfold update_config. cbn [snd]. apply save_config_connected.
Qed.

Lemma menu_write_loaded e m w new :
  disk_state e = DiskOk ->
  new_settings m (load_config w) = Return new ->
  load_config (menu_write e m w) = new ∪ load_config w.
Proof.
  intros Hd Hn. unfold menu_write. rewrite Hn. unfold update_config. cbn [snd].
  rewrite (save_config_written e _ w Hd). cbn [snd].
  apply load_config_saved. etransitivity; [apply (load_config_dom w) |].
  rewrite dom_union_L. apply union_subseteq_r.
Qed.

(** X18. A menu's [update_config] call changes nothing but the menus'
    own six keys: unless a write fails midway, every other setting, the
    watering history and the bypass included, loads afterwards as before,
    and the connected flag is untouched. A duration chosen in the menu is
    the duration loaded afterwards. *)
Theorem X18_menu_writes e m w :
  (forall k, disk_state e ≠ DiskWriteError ->
     k ∉ ["auto_mode"; "auto_mode_type"; "watering_duration"; "notifications";
          "schedule_morning_time"; "schedule_evening_time"]%string ->
     load_config (menu_write e m w) !! k = load_config w !! k) /\
  connected (menu_write e m w) = connected w /\
  (forall seconds, disk_state e = DiskOk -> m = SetDuration seconds ->
     load_config (menu_write e m w) !! "watering_duration"%string = Some (JInt seconds)).
Proof.
  split; [| split; [apply menu_write_connected |]].
  - intros k Hd Hk. unfold menu_write.
    destruct (new_settings m (load_config w)) as [new |] eqn:Hn; [| reflexivity].
    unfold update_config. cbn [snd]. unfold save_config.
    destruct (disk_state e); [| reflexivity | contradiction].
    cbn [snd]. rewrite load_config_saved.
    + apply lookup_union_r. exact (new_settings_other m _ _ k Hn Hk).
    + etransitivity; [apply (load_config_dom w) |].
      rewrite dom_union_L. apply union_subseteq_r.
  - intros seconds Hd ->.
    rewrite (menu_write_loaded e (SetDuration seconds) w
               {[ "watering_duration"%string := JInt seconds ]} Hd eq_refl).
    apply lookup_union_Some_l. apply lookup_singleton_eq.
Qed.

(** X19. Toggling the notifications inverts the truth value of the
    stored setting, so toggling twice gives back the setting the user
    had, both writes succeeding. *)
Theorem X19_toggle_twice e1 e2 w :
  disk_state e1 = DiskOk -> disk_state e2 = DiskOk ->
  let w1 := menu_write e1 ToggleNotifications w in
  let w2 := menu_write e2 ToggleNotifications w1 in
  truthy (get (load_config w1) "notifications")
  = negb (truthy (get (load_config w) "notifications")) /\
  truthy (get (load_config w2) "notifications")
  = truthy (get (load_config w) "notifications").
Proof.
  intros H1 H2 w1 w2.
  assert (Hstep : forall e w, disk_state e = DiskOk ->
            truthy (get (load_config (menu_write e ToggleNotifications w)) "notifications")
            = negb (truthy (get (load_config w) "notifications"))).
  { clear. intros e w Hd.
    destruct (load_config_complete w "notifications"%string (JBool true) eq_refl) as [v Hv].
    rewrite (menu_write_loaded e ToggleNotifications w
               {[ "notifications"%string := JBool (negb (truthy v)) ]} Hd).
    - unfold get. rewrite (lookup_union_Some_l _ _ _ _ (lookup_singleton_eq _ _)).
      rewrite Hv. reflexivity.
    - cbn [new_settings]. unfold getitem. rewrite Hv. reflexivity. }
  split; [apply Hstep; exact H1 |].
  subst w2. rewrite (Hstep e2 w1 H2). subst w1. rewrite (Hstep e1 w H1).
  apply negb_involutive.
Qed.

(** ** config.py and the controller *)

(** X7. [update_config] of [config.py], whatever [config.json] holds.
    When [load_config] returns a dict, the call returns and stores that
    dict with the new values put over it, without the defaults: a key that
    neither the file nor the new values have is still missing when
    [get_config] reads the file again; a failed write is not caught, the
    call raises [OSError]. When the file holds valid JSON that is no
    object, [load_config] returns it as it is and [config.update] raises
    [AttributeError], the file staying as it was. On the files of the
    settings model this is [ConfigPy.update_config]. *)
Theorem X7_config_py_update e new s :
  let r := AnyFileConfigPy.update_config e new s in
  (forall c, AnyFileConfigPy.load_config s = DObject c ->
     (disk_state e = DiskOk ->
      r = (Return (new ∪ c), SDocument (DObject (new ∪ c))) /\
      AnyFileConfigPy.get_config r.2 = DObject (new ∪ c)) /\
     (disk_state e ≠ DiskOk -> r.1 = Raise OSError)) /\
  (forall d, s = SDocument d -> is_dict d = false -> r = (Raise AttributeError, s)) /\
  (forall c k, s = SDocument (DObject c) -> disk_state e = DiskOk ->
     new !! k = None -> c !! k = None ->
     exists c', AnyFileConfigPy.get_config r.2 = DObject c' /\ c' !! k = None) /\
  (forall w, s = stored_file (config_json w) ->
     r.1 = match (ConfigPy.update_config e new w).1 with
           | Some c => Return c
           | None => Raise OSError
           end /\
     r.2 = stored_file (config_json (ConfigPy.update_config e new w).2)).
Proof.
  cbn zeta. unfold AnyFileConfigPy.update_config, AnyFileConfigPy.save_config,
    AnyFileConfigPy.get_config.
  split; [| split; [| split]].
  - intros c ->. cbn [py_update]. split.
    + intros ->. split; reflexivity.
    + intros Hd. destruct (disk_state e); [contradiction | reflexivity | reflexivity].
  - intros d -> Hd. cbn [AnyFileConfigPy.load_config].
    destruct d; [discriminate Hd | reflexivity | reflexivity].
  - intros c k -> -> Hn Hk. cbn [AnyFileConfigPy.load_config py_update snd].
    eexists. split; [reflexivity |].
    rewrite lookup_union_r by exact Hn. exact Hk.
  - intros w ->. unfold ConfigPy.update_config, ConfigPy.save_config, ConfigPy.load_config.
    destruct w as [[| | c] b]; cbn [config_json stored_file AnyFileConfigPy.load_config py_update];
      destruct (disk_state e); split; reflexivity.
Qed.

(** X8. [connect] returns true exactly when the status request is
    answered 200, and the controller is then connected; a request that
    raises leaves it disconnected, and any other answer leaves the flag as
    it was. Started disconnected, as the controller is built, the flag
    after [connect] is the value [connect] returned. *)
Theorem X8_connect answer w :
  let r := NodeMCUHTTPController.connect answer w in
  (r.1 = true <-> answer = HttpStatus 200) /\
  (r.1 = true -> connected r.2 = true) /\
  (connected w = false -> connected r.2 = r.1) /\
  (forall exc, answer = HttpRaised exc -> connected r.2 = false) /\
  (forall code, answer = HttpStatus code -> code ≠ 200 -> r.2 = w).
Proof.
  cbn zeta. unfold NodeMCUHTTPController.connect.
  destruct answer as [exc | code];
    [| destruct (Z.eqb_spec code 200) as [-> | Hne]];
    cbn [fst snd set_connected connected];
    repeat split; intros;
    try discriminate; try reflexivity; try assumption; congruence.
Qed.

(** X9. A controller that is not connected refuses every operation
    without consulting the device: whatever the device would answer,
    [get_moisture] gives no value, both watering calls fail with the "no
    connection" message and the two switches return false. This is the
    state a [connect] whose request raised leaves behind. *)
Theorem X9_offline_refusals e a duration enable w :
  connected w = false ->
  NodeMCUHTTPController.get_moisture e w = ((None, None), w) /\
  NodeMCUHTTPController.water_plant e duration w
    = (false, "Нет подключения к системе"%string) /\
  NodeMCUHTTPController.force_water_plant a duration w
    = (false, "Нет подключения к системе"%string) /\
  NodeMCUHTTPController.reset_watering_time a w = false /\
  NodeMCUHTTPController.set_auto_mode a enable w = false /\
  forall exc w0, connected (NodeMCUHTTPController.connect (HttpRaised exc) w0).2 = false.
Proof.
  intros Hc.
  unfold NodeMCUHTTPController.get_moisture, NodeMCUHTTPController.water_plant,
    NodeMCUHTTPController.force_water_plant, NodeMCUHTTPController.reset_watering_time,
    NodeMCUHTTPController.set_auto_mode.
  rewrite Hc. repeat split.
Qed.

(** ** Keyboards and the branches of handle_message *)

Lemma startswith_app p r : startswith (p +:+ r) p = true.
Proof.
  induction p as [| a p IH]; [destruct r; reflexivity |].
  rewrite append_cons. cbn [startswith]. rewrite bool_decide_true by reflexivity.
  exact IH.
Qed.

Lemma count_char_app c s1 s2 :
  count_char c (s1 +:+ s2) = (count_char c s1 + count_char c s2)%nat.
Proof.
  induction s1 as [| a s1 IH]; [reflexivity |].
  rewrite append_cons. cbn [count_char]. rewrite IH. lia.
Qed.

Lemma handled_forallb (k : keyboard) :
  forallb (forallb (fun label => negb (bool_decide (route label = BUnknown)))) k = true ->
  handled k.
Proof.
  intros H row label Hrow Hlabel.
  rewrite forallb_forall in H. apply list_elem_of_In in Hrow.
  specialize (H row Hrow). rewrite forallb_forall in H.
  apply list_elem_of_In in Hlabel. specialize (H label Hlabel).
  apply negb_true_iff, bool_decide_eq_false in H. exact H.
Qed.

Lemma route_water_menu duration :
  route ("💦 Полить " +:+ duration +:+ " сек") = BWaterMenu.
Proof.
  assert (Hdrop : startswith ("💦 Полить " +:+ duration +:+ " сек") "💦 " = true).
  { change ("💦 Полить " +:+ duration +:+ " сек")
      with ("💦 " +:+ "Полить " +:+ duration +:+ " сек").
    apply startswith_app. }
  assert (Hpre : startswith ("💦 Полить " +:+ duration +:+ " сек") "💦 Полить" = true).
  { change ("💦 Полить " +:+ duration +:+ " сек")
      with ("💦 Полить" +:+ " " +:+ duration +:+ " сек").
    apply startswith_app. }
  assert (Hspaces : count_char " " ("💦 Полить " +:+ duration +:+ " сек") ≠ 2%nat).
  { rewrite !count_char_app.
    change (count_char " " "💦 Полить ") with 2%nat.
    change (count_char " " " сек") with 1%nat. lia. }
  unfold route.
  rewrite bool_decide_false
    by (intros H; rewrite H in Hdrop; vm_compute in Hdrop; discriminate Hdrop).
  rewrite bool_decide_false
    by (intros H; rewrite H in Hspaces; apply Hspaces; vm_compute; reflexivity).
  rewrite bool_decide_false
    by (intros H; rewrite H in Hdrop; vm_compute in Hdrop; discriminate Hdrop).
  rewrite bool_decide_false
    by (intros H; rewrite H in Hdrop; vm_compute in Hdrop; discriminate Hdrop).
  rewrite bool_decide_false
    by (intros H; rewrite H in Hdrop; vm_compute in Hdrop; discriminate Hdrop).
  rewrite Hpre. reflexivity.
Qed.

Lemma built_keyboards_handled w :
  (exists k, watering_menu_keyboard w = Return k /\ handled k) /\
  (exists k, watering_time_menu_keyboard w = Return k /\ handled k) /\
  (exists k, auto_mode_menu_keyboard w = Return k /\ handled k) /\
  (exists k, notifications_menu_keyboard w = Return k /\ handled k).
Proof.
  destruct (load_config_complete w "watering_duration"%string (JInt 3) eq_refl)
    as [duration Hduration].
  destruct (load_config_complete w "auto_mode"%string (JBool false) eq_refl)
    as [auto_mode Hauto].
  destruct (load_config_complete w "notifications"%string (JBool true) eq_refl)
    as [notifications Hnotif].
  split; [| split; [| split]].
  - unfold watering_menu_keyboard, getitem. rewrite Hduration.
    eexists. split; [reflexivity |].
    intros row label Hrow Hlabel.
    apply elem_of_cons in Hrow as [-> | Hrow].
    + apply list_elem_of_singleton in Hlabel as ->.
      rewrite route_water_menu. discriminate.
    + apply list_elem_of_singleton in Hrow as ->.
      apply list_elem_of_singleton in Hlabel as ->. vm_compute. discriminate.
  - unfold watering_time_menu_keyboard, getitem. rewrite Hduration.
    eexists. split; [reflexivity |].
    destruct (eq_int duration 3), (eq_int duration 5), (eq_int duration 10);
      apply handled_forallb; vm_compute; reflexivity.
  - unfold auto_mode_menu_keyboard, getitem. rewrite Hauto.
    eexists. split; [reflexivity |].
    destruct (truthy auto_mode); [case_bool_decide |];
      apply handled_forallb; vm_compute; reflexivity.
  - unfold notifications_menu_keyboard, getitem. rewrite Hnotif.
    eexists. split; [reflexivity |].
    destruct (truthy notifications); apply handled_forallb; vm_compute; reflexivity.
Qed.

Lemma getitem_loaded s key v :
  is_dict (AnyFile.load_config s) = true -> DEFAULT_CONFIG !! key = Some v ->
  exists x, py_getitem (AnyFile.load_config s) key = Return x.
Proof.
  intros Hd Hk. rewrite (load_config_dict s false Hd). cbn [py_getitem]. unfold getitem.
  destruct (load_config_complete (World (settings_file s) false) key v Hk) as [x ->].
  eexists. reflexivity.
Qed.

Lemma getitem_no_dict d key : is_dict d = false -> py_getitem d key = Raise TypeError.
Proof. destruct d; [discriminate | reflexivity | reflexivity]. Qed.

(** X20. No keyboard has a dead button: every label of the five fixed
    keyboards is a text [handle_message] has a branch for, other than the
    final [else]. So is every label of the four keyboards built from the
    settings, and building them does not raise, whenever [load_config]
    returns a dict; on the array or string it returns as it is, each of
    the four raises [TypeError] at its first subscript. *)
Theorem X20_no_dead_button s :
  handled main_menu_keyboard /\
  handled confirm_watering_keyboard /\
  handled settings_menu_keyboard /\
  handled schedule_settings_menu_keyboard /\
  handled time_selection_menu_keyboard /\
  (is_dict (AnyFile.load_config s) = true ->
   (exists k, AnyFile.watering_menu_keyboard s = Return k /\ handled k) /\
   (exists k, AnyFile.watering_time_menu_keyboard s = Return k /\ handled k) /\
   (exists k, AnyFile.auto_mode_menu_keyboard s = Return k /\ handled k) /\
   (exists k, AnyFile.notifications_menu_keyboard s = Return k /\ handled k)) /\
  (is_dict (AnyFile.load_config s) = false ->
   AnyFile.watering_menu_keyboard s = Raise TypeError /\
   AnyFile.watering_time_menu_keyboard s = Raise TypeError /\
   AnyFile.auto_mode_menu_keyboard s = Raise TypeError /\
   AnyFile.notifications_menu_keyboard s = Raise TypeError).
Proof.
  repeat (split; [apply handled_forallb; vm_compute; reflexivity |]).
  split.
  - intros Hd.
    destruct (built_keyboards_handled (World (settings_file s) false))
      as (H1 & H2 & H3 & H4).
    unfold AnyFile.watering_menu_keyboard, AnyFile.watering_time_menu_keyboard,
      AnyFile.auto_mode_menu_keyboard, AnyFile.notifications_menu_keyboard.
    destruct (getitem_loaded s "watering_duration" (JInt 3) Hd eq_refl) as [x1 ->].
    destruct (getitem_loaded s "auto_mode" (JBool false) Hd eq_refl) as [x2 ->].
    destruct (getitem_loaded s "notifications" (JBool true) Hd eq_refl) as [x3 ->].
    cbn [mbind result_bind]. repeat split; assumption.
  - intros Hd.
    unfold AnyFile.watering_menu_keyboard, AnyFile.watering_time_menu_keyboard,
      AnyFile.auto_mode_menu_keyboard, AnyFile.notifications_menu_keyboard.
    rewrite !(getitem_no_dict _ _ Hd). repeat split.
Qed.

(** ** Handling a message *)

(** The stored timestamp of the last watering. *)
Lemma save_config_stamp e (c : config) w :
  dom DEFAULT_CONFIG ⊆ dom c ->
  c !! "last_watering"%string = load_config w !! "last_watering"%string ->
  load_config (save_config e c w).2 !! "last_watering"%string
    = load_config w !! "last_watering"%string \/
  load_config (save_config e c w).2 !! "last_watering"%string = Some JNull.
Proof.
  intros Hdom Hc.
  destruct (save_config_cases e c w) as [H | [H | H]].
  - left. rewrite (load_config_file _ (set_config_json (FStored c) w) H).
    rewrite (load_config_saved w c Hdom). exact Hc.
  - left. rewrite (load_config_file _ w H). reflexivity.
  - right. unfold load_config. rewrite H. reflexivity.
Qed.

Section ShellFacts.

Variable fromisoformat : string -> option parsed.
Variable float_percent : Z -> option Z.
Variable py_int : string -> option Z.

Local Abbreviation check := (check_watering_restrictions fromisoformat float_percent).
Local Abbreviation sense := (get_sensor_data float_percent).
Local Abbreviation handle := (handle_message fromisoformat float_percent py_int).
Local Abbreviation start := (start_watering float_percent).

(** [w'] has the timestamp of [w], or none. *)
Let keeps_stamp (w w' : world) : Prop :=
  load_config w' !! "last_watering"%string = load_config w !! "last_watering"%string \/
  load_config w' !! "last_watering"%string = Some JNull.

Lemma keeps_stamp_refl w : keeps_stamp w w.
Proof. left. reflexivity. Qed.

Lemma keeps_stamp_trans w1 w2 w3 :
  keeps_stamp w1 w2 -> keeps_stamp w2 w3 -> keeps_stamp w1 w3.
Proof.
  unfold keeps_stamp. intros [H12 | H12] [H23 | H23]; rewrite ?H23, ?H12; tauto.
Qed.

Lemma sense_keeps_stamp e w : keeps_stamp w (sense e w).2.
Proof.
  left. rewrite (load_config_file _ w (sense_file float_percent e w)). reflexivity.
Qed.

Lemma reset_keeps_stamp e w : keeps_stamp w (reset_dont_ask e (load_config w) w).2.
Proof.
  unfold reset_dont_ask. case_bool_decide; [| apply keeps_stamp_refl].
  cbn [snd]. apply save_config_stamp.
  - do 2 apply insert_keeps_defaults. apply load_config_dom.
  - rewrite !lookup_insert_ne by discriminate. reflexivity.
Qed.

Lemma check_keeps_stamp e w : keeps_stamp w (check e w).2.
Proof.
  pose proof (check_file fromisoformat float_percent e w) as Hf.
  destruct (connected w).
  - unfold keeps_stamp. rewrite (load_config_file _ _ Hf). apply reset_keeps_stamp.
  - left. rewrite (load_config_file _ _ Hf). reflexivity.
Qed.

Lemma dont_ask_keeps_stamp e w : keeps_stamp w (dont_ask_again e w).
Proof.
  unfold dont_ask_again. apply save_config_stamp.
  - do 2 apply insert_keeps_defaults. apply load_config_dom.
  - rewrite !lookup_insert_ne by discriminate. reflexivity.
Qed.

Lemma menu_step_world e m u w : (menu_step e m u w).2 = menu_write e m w.
Proof.
  unfold menu_step, menu_write. destruct (new_settings m (load_config w)); reflexivity.
Qed.

Lemma menu_step_user e m u w : (menu_step e m u w).1.2 = u.
Proof. unfold menu_step. destruct (new_settings m (load_config w)); reflexivity. Qed.

Lemma menu_keeps_stamp e m w : keeps_stamp w (menu_write e m w).
Proof.
  unfold menu_write.
  destruct (new_settings m (load_config w)) as [new |] eqn:Hn; [| apply keeps_stamp_refl].
  unfold update_config. cbn [snd]. apply save_config_stamp.
  - etransitivity; [apply (load_config_dom w) |].
    rewrite dom_union_L. apply union_subseteq_r.
  - apply lookup_union_r. apply (new_settings_history m _ _ _ Hn). tauto.
Qed.

Lemma start_connected_after e d w :
  connected (start e d w).2 = true -> connected w = true.
Proof.
  unfold start_watering. destruct (times_50 d); [| tauto].
  pose proof (water_plant_connected e (duration_param d) w) as Hw.
  destruct (water_plant e (duration_param d) w) as [[[[|] m] | x] w1];
    cbn [snd] in *; try (rewrite Hw; tauto).
  rewrite (sense_connected_after float_percent e w1).
  destruct (status_answer e); [discriminate | rewrite Hw; tauto].
Qed.

Lemma sense_connected_true e w : connected (sense e w).2 = true -> connected w = true.
Proof.
  rewrite (sense_connected_after float_percent e w).
  destruct (status_answer e); [discriminate | tauto].
Qed.

Lemma after_check_connected_after e' v d u w :
  connected (after_check float_percent e' v d u w).2 = true -> connected w = true.
Proof.
  unfold after_check. destruct v as [[can m] l]. case_bool_decide; [tauto |].
  pose proof (start_connected_after e' d w) as Hs.
  destruct (start e' d w) as [r w1]. exact Hs.
Qed.

(** X21. No message reconnects the bot: whatever text arrives, in
    whatever state, the controller is marked connected after the handler
    only if it was before. An offline bot stays offline until it is
    restarted. *)
Theorem X21_no_message_reconnects e e' text u w :
  connected (handle e e' text u w).2 = true -> connected w = true.
Proof.
  unfold handle_message.
  destruct (route text); cbn [snd]; try tauto;
    try (rewrite menu_step_world, menu_write_connected; tauto);
    try (destruct (negb (connected w)); cbn [snd];
         [tauto | rewrite ?menu_step_world, ?menu_write_connected; tauto]).
  - (* status *)
    pose proof (sense_connected_true e w) as Hs.
    destruct (sense e w) as [[sd |] w1]; exact Hs.
  - (* main menu watering *)
    pose proof (check_connected_after fromisoformat float_percent e w) as Hc.
    destruct (check e w) as [[v | x] w1]; cbn [snd] in *; [| exact Hc].
    destruct (negb (allowed v)); [exact Hc |].
    destruct (getitem (load_config w1) "watering_duration"); [| exact Hc].
    intros H. apply Hc. revert H. apply after_check_connected_after.
  - (* typed watering *)
    match goal with |- context [match ?d with Return _ => _ | Raise _ => _ end] =>
      destruct d as [duration | x] end; [| tauto].
    pose proof (check_connected_after fromisoformat float_percent e w) as Hc.
    destruct (check e w) as [[v | x] w1]; cbn [snd] in *; [| exact Hc].
    destruct (negb (allowed v)); [exact Hc |].
    intros H. apply Hc. revert H. apply after_check_connected_after.
  - (* yes *)
    destruct (pending_watering u) as [[d l] |]; [| tauto].
    pose proof (start_connected_after e' d w) as Hs.
    destruct (start e' d w) as [r w1]. exact Hs.
  - (* do not ask again *)
    destruct (pending_watering u) as [[d l] |]; [| tauto].
    pose proof (start_connected_after e' d (dont_ask_again e w)) as Hs.
    rewrite dont_ask_again_connected in Hs.
    destruct (start e' d (dont_ask_again e w)) as [r w1]. exact Hs.
  - (* time choice *)
    repeat match goal with |- context [if ?b then _ else _] => destruct b end;
      rewrite menu_step_world, menu_write_connected; tauto.
Qed.

Lemma stamp_kept w w' s :
  keeps_stamp w w' ->
  load_config w' !! "last_watering"%string = Some (JStr s) ->
  load_config w !! "last_watering"%string ≠ Some (JStr s) -> False.
Proof. intros [H | H] H1 H2; rewrite H in H1; [contradiction | discriminate]. Qed.

Lemma level_ok l : l ∉ [danger; warning; info] -> l = ok.
Proof.
  intros H. destruct l; [reflexivity | | |]; exfalso; apply H; repeat constructor.
Qed.

(** X22. A new watering timestamp appears in the settings only through
    a watering the user asked for and the check cleared, or one the user
    confirmed: if the timestamp loaded after a message is one that was not
    there before, the message was a watering request whose check returned
    "may water" with level ok, or it was "yes" or "do not ask again" with
    a watering pending. *)
Theorem X22_watering_needs_clearance e e' text u w s :
  load_config (handle e e' text u w).2 !! "last_watering"%string = Some (JStr s) ->
  load_config w !! "last_watering"%string ≠ Some (JStr s) ->
  ((route text = BWater \/ route text = BWaterMenu) /\
   exists m, (check e w).1 = Return (true, m, ok)) \/
  ((route text = BYes \/ route text = BDontAsk) /\ is_Some (pending_watering u)).
Proof.
  unfold handle_message. intros Hnew Hold.
  destruct (route text) eqn:Hroute; cbn [snd] in Hnew;
    try (exfalso; exact (stamp_kept _ _ _ (keeps_stamp_refl w) Hnew Hold));
    try (rewrite menu_step_world in Hnew;
         exfalso; exact (stamp_kept _ _ _ (menu_keeps_stamp _ _ w) Hnew Hold));
    try (destruct (negb (connected w)); cbn [snd] in Hnew;
         [exfalso; exact (stamp_kept _ _ _ (keeps_stamp_refl w) Hnew Hold)
         | try rewrite menu_step_world in Hnew; exfalso;
           first [ exact (stamp_kept _ _ _ (menu_keeps_stamp _ _ w) Hnew Hold)
                 | exact (stamp_kept _ _ _ (keeps_stamp_refl w) Hnew Hold) ]]).
  - (* status *)
    exfalso. pose proof (sense_keeps_stamp e w) as Hk.
    destruct (sense e w) as [[sd |] w1]; exact (stamp_kept _ _ _ Hk Hnew Hold).
  - (* main menu watering *)
    pose proof (check_keeps_stamp e w) as Hk.
    destruct (check e w) as [[v | x] w1] eqn:Hck; cbn [snd fst] in *;
      [| exfalso; exact (stamp_kept _ _ _ Hk Hnew Hold)].
    destruct (allowed v) eqn:Hallowed; cbn [negb snd] in Hnew;
      [| exfalso; exact (stamp_kept _ _ _ Hk Hnew Hold)].
    destruct (getitem (load_config w1) "watering_duration") as [d | x]; cbn [snd] in Hnew;
      [| exfalso; exact (stamp_kept _ _ _ Hk Hnew Hold)].
    unfold after_check in Hnew. destruct v as [[can m] l]. cbn in Hallowed. subst can.
    case_bool_decide as Hl; cbn [snd] in Hnew;
      [exfalso; exact (stamp_kept _ _ _ Hk Hnew Hold) |].
    left. split; [tauto |]. exists m. rewrite (level_ok l Hl). reflexivity.
  - (* typed watering *)
    match type of Hnew with context [match ?d with Return _ => _ | Raise _ => _ end] =>
      destruct d as [duration | x] end; cbn [snd] in Hnew;
      [| exfalso; exact (stamp_kept _ _ _ (keeps_stamp_refl w) Hnew Hold)].
    pose proof (check_keeps_stamp e w) as Hk.
    destruct (check e w) as [[v | x] w1] eqn:Hck; cbn [snd fst] in *;
      [| exfalso; exact (stamp_kept _ _ _ Hk Hnew Hold)].
    destruct (allowed v) eqn:Hallowed; cbn [negb snd] in Hnew;
      [| exfalso; exact (stamp_kept _ _ _ Hk Hnew Hold)].
    unfold after_check in Hnew. destruct v as [[can m] l]. cbn in Hallowed. subst can.
    case_bool_decide as Hl; cbn [snd] in Hnew;
      [exfalso; exact (stamp_kept _ _ _ Hk Hnew Hold) |].
    left. split; [tauto |]. exists m. rewrite (level_ok l Hl). reflexivity.
  - (* yes *)
    destruct (pending_watering u) as [[d l] |]; cbn [snd] in Hnew;
      [right; split; [tauto | eexists; reflexivity] |].
    exfalso; exact (stamp_kept _ _ _ (keeps_stamp_refl w) Hnew Hold).
  - (* do not ask again *)
    destruct (pending_watering u) as [[d l] |]; cbn [snd] in Hnew;
      [right; split; [tauto | eexists; reflexivity] |].
    exfalso; exact (stamp_kept _ _ _ (keeps_stamp_refl w) Hnew Hold).
  - (* time choice *)
    exfalso.
    repeat match type of Hnew with context [if ?b then _ else _] => destruct b end;
      rewrite menu_step_world in Hnew;
      exact (stamp_kept _ _ _ (menu_keeps_stamp _ _ w) Hnew Hold).
Qed.

(** X23. Asking for a watering never starts one against the check.
    When the check refuses, the message ends there, with the world as the
    check left it and the user data untouched: nothing is made pending,
    and nothing is cleared either, so a watering left pending by an
    earlier warning stays pending and a later "yes" starts it without a
    new check. When the check allows with a warning of any level, the
    watering is kept pending with that level, again with the world as
    the check left it; from the main menu the pending duration is the
    configured one. *)
Theorem X23_request_waits_for_confirmation e e' text u w m l :
  route text = BWater \/ route text = BWaterMenu ->
  ((check e w).1 = Return (false, m, l) ->
   handle e e' text u w = (Return tt, u, (check e w).2) /\
   forall e2 e2' yes d l0,
     route yes = BYes -> pending_watering u = Some (d, l0) ->
     handle e2 e2' yes (handle e e' text u w).1.2 (handle e e' text u w).2
     = ((start e2' d (check e w).2).1, set_pending None u,
        (start e2' d (check e w).2).2)) /\
  ((check e w).1 = Return (true, m, l) -> l ≠ ok ->
   exists duration,
     handle e e' text u w
     = (Return tt, set_pending (Some (duration, l)) u, (check e w).2) /\
     (route text = BWater ->
      load_config (check e w).2 !! "watering_duration"%string = Some duration)).
Proof.
  assert (Hl : l ≠ ok -> bool_decide (l ∈ [danger; warning; info]) = true).
  { intros H. apply bool_decide_eq_true.
    destruct l; [contradiction | | |]; repeat constructor. }
  assert (Hyes : forall e2 e2' yes d l0 w1,
            route yes = BYes -> pending_watering u = Some (d, l0) ->
            handle e2 e2' yes u w1
            = ((start e2' d w1).1, set_pending None u, (start e2' d w1).2)).
  { intros e2 e2' yes d l0 w1 Hr Hp. unfold handle_message. rewrite Hr, Hp.
    destruct (start e2' d w1); reflexivity. }
  assert (Hrefused : route text = BWater \/ route text = BWaterMenu ->
            (check e w).1 = Return (false, m, l) ->
            handle e e' text u w = (Return tt, u, (check e w).2)).
  { intros [Hroute | Hroute]; unfold handle_message; rewrite Hroute.
    - destruct (check e w) as [r w1]. cbn [fst snd]. intros ->. reflexivity.
    - destruct (load_config_complete w "watering_duration"%string (JInt 3) eq_refl)
        as [d Hd].
      unfold getitem. rewrite Hd.
      match goal with |- context [match ?t with Some n => Return (JInt n) | None => _ end] =>
        destruct t as [n |] end;
        destruct (check e w) as [r w1]; cbn [fst snd]; intros ->; reflexivity. }
  intros Hroute. split.
  - intros Hno. rewrite (Hrefused Hroute Hno) at 1. split; [reflexivity |].
    intros e2 e2' yes d l0 Hr Hp. rewrite (Hrefused Hroute Hno). cbn [fst snd].
    exact (Hyes e2 e2' yes d l0 _ Hr Hp).
  - destruct Hroute as [Hroute | Hroute]; unfold handle_message; rewrite Hroute.
    + destruct (check e w) as [r w1]. cbn [fst snd].
      intros -> Hne. cbn [allowed fst negb].
      destruct (load_config_complete w1 "watering_duration"%string (JInt 3) eq_refl)
        as [d Hd].
      exists d. unfold getitem. rewrite Hd. unfold after_check. rewrite (Hl Hne).
      split; [reflexivity | intros _; reflexivity].
    + destruct (load_config_complete w "watering_duration"%string (JInt 3) eq_refl)
        as [d Hd].
      unfold getitem. rewrite Hd.
      match goal with |- context [match ?t with Some n => Return (JInt n) | None => _ end] =>
        destruct t as [n |] end;
        destruct (check e w) as [r w1]; cbn [fst snd];
        intros -> Hne; cbn [allowed fst negb]; eexists; unfold after_check;
        rewrite (Hl Hne); (split; [reflexivity | intros [=]]).
Qed.

(** X24. A pending watering is used at most once: after "cancel",
    "no", "yes" or "do not ask again" nothing is pending, whatever the
    watering did. "Cancel" and "no" change nothing else, and a "yes" that
    finds nothing pending, as a second "yes" in a row does, changes
    nothing at all. *)
Theorem X24_confirmation_is_single_use e e' e2 e2' text u w :
  route text ∈ [BCancel; BYes; BNo; BDontAsk] ->
  let after := handle e e' text u w in
  pending_watering after.1.2 = None /\
  (route text = BCancel \/ route text = BNo -> after.1.1 = Return tt /\ after.2 = w) /\
  (pending_watering u = None -> after = (Return tt, u, w)) /\
  (route text = BYes -> handle e2 e2' text after.1.2 after.2 = (Return tt, after.1.2, after.2)).
Proof.
  intros Hroute after. subst after. unfold handle_message.
  assert (Hcases : route text = BCancel \/ route text = BYes \/
                   route text = BNo \/ route text = BDontAsk).
  { repeat (apply elem_of_cons in Hroute as [-> | Hroute]; [tauto |]).
    apply elem_of_nil in Hroute. destruct Hroute. }
  destruct u as [p ls]. cbn [pending_watering].
  destruct Hcases as [-> | [-> | [-> | ->]]]; cbn [pending_watering];
    try (destruct p as [[d l] |]);
    repeat match goal with
           | |- context [start ?e0 ?d0 ?w0] => destruct (start e0 d0 w0)
           end;
    cbn [fst snd set_pending pending_watering last_schedule_setting];
    repeat (split || intro); subst;
    try discriminate; try reflexivity;
    match goal with H : _ \/ _ |- _ => destruct H; discriminate end.
Qed.

(** X25. Which schedule slot a time button sets depends on the time
    alone. No message ever records the schedule setting last opened, so
    with none recorded, as the bot starts, the buttons "morning time" and
    "evening time" have no effect on the choice: 09:00, 10:00 and 11:00 set
    the morning time, 19:00, 20:00 and 21:00 the evening time. *)
Theorem X25_schedule_slot_by_time e e' text u w :
  last_schedule_setting (handle e e' text u w).1.2 = last_schedule_setting u /\
  (last_schedule_setting u = None ->
   Forall (fun '(button, m) => handle e e' button u w = menu_step e m u w)
     [("🕘 09:00", SetMorningTime "09:00"); ("🕙 10:00", SetMorningTime "10:00");
      ("🕚 11:00", SetMorningTime "11:00"); ("🕖 19:00", SetEveningTime "19:00");
      ("🕗 20:00", SetEveningTime "20:00"); ("🕘 21:00", SetEveningTime "21:00")]%string) /\
  handle e e' "🕘 Утреннее время" u w = (Return tt, u, w) /\
  handle e e' "🕖 Вечернее время" u w = (Return tt, u, w).
Proof.
  split; [| split].
  - unfold handle_message.
    destruct (route text); cbn [fst snd]; try reflexivity;
      try (rewrite menu_step_user; reflexivity);
      try (destruct (negb (connected w)); reflexivity);
      try (destruct (negb (connected w)); [reflexivity | rewrite menu_step_user; reflexivity]).
    + destruct (sense e w) as [[sd |] w1]; reflexivity.
    + destruct (check e w) as [[v | x] w1]; [| reflexivity].
      destruct (negb (allowed v)); [reflexivity |].
      destruct (getitem (load_config w1) "watering_duration"); [| reflexivity].
      unfold after_check. destruct v as [[can m] l]. case_bool_decide; [reflexivity |].
      destruct (start e' a w1); reflexivity.
    + match goal with |- context [match ?d with Return _ => _ | Raise _ => _ end] =>
        destruct d as [duration | x] end; [| reflexivity].
      destruct (check e w) as [[v | x] w1]; [| reflexivity].
      destruct (negb (allowed v)); [reflexivity |].
      unfold after_check. destruct v as [[can m] l]. case_bool_decide; [reflexivity |].
      destruct (start e' duration w1); reflexivity.
    + destruct (pending_watering u) as [[d l] |]; [| reflexivity].
      destruct (start e' d w); reflexivity.
    + destruct (pending_watering u) as [[d l] |]; [| reflexivity].
      destruct (start e' d (dont_ask_again e w)); reflexivity.
    + repeat match goal with |- context [if ?b then _ else _] => destruct b end;
        rewrite ?menu_step_user; reflexivity.
  - intros Hnone. unfold handle_message. rewrite Hnone.
    repeat constructor.
  - split; reflexivity.
Qed.

End ShellFacts.

(** ** Sample runs of the further properties *)

Lemma X1_save_load_roundtrip_sample :
  let e := Sample.env_reading Sample.noon 400 in
  let e' := Sample.env_reading Sample.at_15 400 in
  let w1 := (save_config e (load_config Sample.fresh) Sample.fresh).2 in
  load_config (save_config e Sample.partial Sample.fresh).2
    = Sample.partial ∪ DEFAULT_CONFIG /\
  load_config w1 = load_config Sample.fresh /\
  (save_config e' (load_config w1) w1).2 = w1.
Proof.
  exact (X1_save_load_roundtrip (Sample.env_reading Sample.noon 400)
           (Sample.env_reading Sample.at_15 400) Sample.fresh Sample.partial
           eq_refl eq_refl).
Defined.

Lemma X3_update_config_twice_sample :
  let e1 := Sample.env_reading Sample.at_9 400 in
  let e2 := Sample.env_reading Sample.at_15 400 in
  let off : config := {[ "notifications"%string := JBool false ]} in
  update_config e2 off (update_config e1 Sample.partial Sample.fresh).2
  = update_config e2 (off ∪ Sample.partial) Sample.fresh.
Proof.
  exact (X3_update_config_twice (Sample.env_reading Sample.at_9 400)
           (Sample.env_reading Sample.at_15 400) Sample.partial
           {[ "notifications"%string := JBool false ]} Sample.fresh
           eq_refl eq_refl).
Defined.

Lemma X9_offline_refusals_sample :
  let w := Sample.offline (Sample.watered Sample.at_9 1) in
  NodeMCUHTTPController.get_moisture (Sample.env_reading Sample.noon 400) w
    = ((None, None), w) /\
  NodeMCUHTTPController.force_water_plant (HttpStatus 200) 3 w
    = (false, "Нет подключения к системе"%string) /\
  NodeMCUHTTPController.set_auto_mode (HttpStatus 200) true w = false.
Proof.
  intros w.
  pose proof (X9_offline_refusals (Sample.env_reading Sample.noon 400)
                (HttpStatus 200) 3 true w eq_refl) as H.
  destruct H as (Hm & _ & Hf & _ & Ha & _).
  split; [exact Hm |]. split; [exact Hf | exact Ha].
Defined.

Lemma X11_sensor_reading_sample :
  let e := Sample.env_reading Sample.noon 400 in
  let w := Sample.online (Sample.watered Sample.at_9 1) in
  (Sample.sense e w).1 = Some (SensorData 78 400 21 (Some "ok"%string)) /\
  status_answer e = StatusHttp 200 (Some 400) (Some "ok"%string) /\
  (Sample.sense e w).2 = w.
Proof.
  intros e w.
  pose proof (X11_sensor_reading percent_exact e w
                (SensorData 78 400 21 (Some "ok"%string)) eq_refl) as H.
  destruct H as (_ & Hs & _ & _ & Hw).
  split; [reflexivity |]. split; [exact Hs | exact Hw].
Defined.

Lemma X12_percent_calibration_sample :
  let w := Sample.online (Sample.watered Sample.at_9 1) in
  let wet := SensorData 100 300 21 (Some "ok"%string) in
  let dry := SensorData 0 760 21 (Some "ok"%string) in
  (get_sensor_data percent_float (Sample.env_reading Sample.noon 300) w).1 = Some wet /\
  (get_sensor_data percent_float (Sample.env_reading Sample.noon 760) w).1 = Some dry /\
  moisture_percent dry <= moisture_percent wet /\
  (get_sensor_data percent_float (Sample.env_reading Sample.noon (10 ^ 400)) w).1 = None.
Proof.
  intros w wet dry.
  assert (H1 : (get_sensor_data percent_float (Sample.env_reading Sample.noon 300) w).1
               = Some wet) by (vm_compute; reflexivity).
  assert (H2 : (get_sensor_data percent_float (Sample.env_reading Sample.noon 760) w).1
               = Some dry) by (vm_compute; reflexivity).
  assert (Hr1 : 0 <= moisture_raw wet < 4096) by (cbn [moisture_raw wet]; lia).
  assert (Hr2 : 0 <= moisture_raw dry < 4096) by (cbn [moisture_raw dry]; lia).
  pose proof (X12_percent_calibration (Sample.env_reading Sample.noon 300) w wet
                (Sample.env_reading Sample.noon 760) w dry H1 H2 Hr1 Hr2) as H.
  destruct H as (_ & _ & _ & Hle & _ & Hbig).
  split; [exact H1 |]. split; [exact H2 |]. split.
  - apply Hle. cbn [moisture_raw wet dry]. lia.
  - apply (Hbig _ w (Some "ok"%string)); reflexivity.
Defined.

Lemma X14_failed_read_latches_sample :
  let w := Sample.online (Sample.watered Sample.yesterday_18 1) in
  let w1 := (Sample.check (Sample.env_silent Sample.noon) w).2 in
  (Sample.check (Sample.env_silent Sample.noon) w).1 = Return (false, MSG_NO_DATA, danger) /\
  connected w1 = false /\
  Sample.check (Sample.env_reading Sample.at_15 400) w1
    = (Return (false, MSG_NO_LINK, danger), w1) /\
  Sample.sense (Sample.env_reading Sample.at_15 400) w1 = (None, w1).
Proof.
  intros w w1.
  pose proof (X14_failed_read_latches fromisoformat_emitted percent_exact
                (Sample.env_silent Sample.noon) w (None, ok)
                eq_refl eq_refl ltac:(vm_compute; reflexivity)
                ltac:(vm_compute; reflexivity)) as H.
  cbv zeta in H. destruct H as (Hv & Hoff & Hlater).
  destruct (Hlater (Sample.env_reading Sample.at_15 400) 3) as (Hc & _ & Hs).
  split; [exact Hv |]. split; [exact Hoff |]. split; [exact Hc | exact Hs].
Defined.

Lemma X15_dont_ask_again_holds_sample :
  let e := Sample.env_reading Sample.at_9 400 in
  let e' := Sample.env_reading Sample.at_15 300 in
  let w1 := dont_ask_again e (Sample.online (Sample.watered Sample.at_4 2)) in
  Sample.check e' w1 = (Return (true, MSG_CAN_WATER, ok), w1) /\
  Sample.check e' (water_plant e 3 w1).2
  = (Return (true, MSG_CAN_WATER, ok), (water_plant e 3 w1).2).
Proof.
  intros e e' w1.
  pose proof (X15_dont_ask_again_holds fromisoformat_emitted percent_exact e e'
                (Sample.online (Sample.watered Sample.at_4 2))
                eq_refl eq_refl eq_refl) as H.
  cbv zeta in H. destruct H as (Hnow & Hlater).
  split; [exact Hnow |]. apply Hlater. discriminate.
Defined.

Lemma X16_bypass_expires_sample :
  let e := Sample.env_reading Sample.at_9 400 in
  let e' := Sample.env_reading Scene.next_day_8 400 in
  let w1 := dont_ask_again e (Sample.online (Sample.watered Sample.at_4 2)) in
  bypass_in_effect (load_config w1) (date_of (now e')) = false /\
  load_config (Sample.check e' w1).2 !! "dont_ask_again_today"%string = Some (JBool false) /\
  load_config (Sample.check e' w1).2 !! "dont_ask_again_date"%string
    = Some (JStr "2024-03-06").
Proof.
  intros e e' w1.
  pose proof (X16_bypass_expires fromisoformat_emitted percent_exact e e'
                (Sample.online (Sample.watered Sample.at_4 2))
                eq_refl eq_refl eq_refl eq_refl
                ltac:(vm_compute; discriminate)) as H.
  cbv zeta in H. destruct H as (Hb & Hw).
  destruct (Hw eq_refl) as (Hflag & Hdate).
  split; [exact Hb |]. split; [exact Hflag | exact Hdate].
Defined.

Lemma X17_check_after_watering_sample :
  let e1 := Sample.env_reading Sample.at_4 400 in
  let w1 := (water_plant e1 3 Sample.fresh).2 in
  (Sample.check (Sample.env_reading Sample.at_9 400) w1).1
    = Return (true, MSG_TOO_OFTEN, danger) /\
  (Sample.check (Sample.env_reading Sample.at_11_59 400) w1).1
    = Return (true, msg_already_watered (JInt 1) 7, warning) /\
  (Sample.check (Sample.env_reading Sample.at_23 400) w1).1
    = Return (true, msg_watered_long_ago 19, info).
Proof.
  intros e1 w1.
  assert (H : forall t, valid_datetime t = true -> date_of t = Sample.today ->
            (Sample.check (Sample.env_reading t 400) w1).1
            = Return (let us := micros_between t Sample.at_4 in
                      if us <? 6 * HOUR_US then (true, MSG_TOO_OFTEN, danger)
                      else if us <? 12 * HOUR_US then
                        (true, msg_already_watered (JInt (0 + 1)) (Z.quot us HOUR_US), warning)
                      else (true, msg_watered_long_ago (Z.quot us HOUR_US), info))).
  { intros t Hv Hday.
    apply (X17_check_after_watering fromisoformat_emitted percent_exact
             e1 (Sample.env_reading t 400) 3 Sample.fresh None 0
             (SensorData 78 400 21 (Some "ok"%string))
             fromisoformat_emitted_inverts eq_refl Hv Hday eq_refl eq_refl eq_refl
             ltac:(intros H; vm_compute in H; discriminate H)
             ltac:(intros _; reflexivity) ltac:(lia)).
    - cbn [now Sample.env_reading]. rewrite Hday. vm_compute. reflexivity.
    - vm_compute. reflexivity.
    - cbn [moisture_raw]. lia. }
  split; [| split]; rewrite H by reflexivity; vm_compute; reflexivity.
Defined.

Lemma X19_toggle_twice_sample :
  let e := Sample.env_reading Sample.noon 400 in
  let w1 := menu_write e ToggleNotifications Sample.fresh in
  let w2 := menu_write e ToggleNotifications w1 in
  truthy (get (load_config w1) "notifications") = false /\
  truthy (get (load_config w2) "notifications") = true.
Proof.
  intros e w1 w2.
  pose proof (X19_toggle_twice e e Sample.fresh eq_refl eq_refl) as H.
  cbv zeta in H. destruct H as (H1 & H2).
  split; [etransitivity; [exact H1 |] | etransitivity; [exact H2 |]];
    vm_compute; reflexivity.
Defined.

Lemma X21_no_message_reconnects_sample :
  let e := Sample.env_reading Sample.noon 400 in
  let w := Sample.online (Sample.watered Sample.at_9 1) in
  connected (Scene.handle e e "🌱 Статус растения" Scene.nobody w).2 = true /\
  connected w = true.
Proof.
  intros e w. split; [vm_compute; reflexivity |].
  apply (X21_no_message_reconnects fromisoformat_emitted percent_exact int_of_decimal
           e e "🌱 Статус растения" Scene.nobody w).
  vm_compute. reflexivity.
Defined.

Lemma X22_watering_needs_clearance_sample :
  let e := Sample.env_reading Sample.at_9 400 in
  let w := Sample.online (Sample.watered Sample.yesterday_18 1) in
  let text := "✅ ДА, полить"%string in
  load_config (Scene.handle e e text (Scene.awaiting 3 warning) w).2
    !! "last_watering"%string = Some (JStr (isoformat Sample.at_9)) /\
  route text = BYes /\
  is_Some (pending_watering (Scene.awaiting 3 warning)).
Proof.
  intros e w text.
  assert (Hnew : load_config (handle_message fromisoformat_emitted percent_exact
                   int_of_decimal e e text (Scene.awaiting 3 warning) w).2
                   !! "last_watering"%string = Some (JStr (isoformat Sample.at_9)))
    by (vm_compute; reflexivity).
  assert (Hold : load_config w !! "last_watering"%string
                 ≠ Some (JStr (isoformat Sample.at_9)))
    by (vm_compute; discriminate).
  pose proof (X22_watering_needs_clearance fromisoformat_emitted percent_exact
                int_of_decimal e e text (Scene.awaiting 3 warning) w
                (isoformat Sample.at_9) Hnew Hold) as H.
  split; [exact Hnew |].
  split; [vm_compute; reflexivity |].
  destruct H as [[[Hr | Hr] _] | [_ Hp]]; [| | exact Hp].
  - vm_compute in Hr. discriminate Hr.
  - vm_compute in Hr. discriminate Hr.
Defined.

Lemma X23_request_waits_for_confirmation_sample :
  let e := Sample.env_reading Sample.at_11_59 400 in
  let w := Sample.online (Sample.watered Sample.at_9 1) in
  let down := Scene.env_error_page Sample.at_15 in
  let back := Sample.env_reading Sample.at_23 400 in
  let text := "💦 Полить растение"%string in
  let u := Scene.awaiting 3 danger in
  Scene.handle e e text Scene.nobody w = (Return tt, u, (Sample.check e w).2) /\
  Scene.handle down down text u w = (Return tt, u, (Sample.check down w).2) /\
  load_config (Scene.handle back back "✅ ДА, полить" u (Sample.check down w).2).2
    !! "last_watering"%string
  = Some (JStr (isoformat Sample.at_23)).
Proof.
  intros e w down back text u. unfold Scene.handle, Sample.check.
  assert (Hroute : route text = BWater \/ route text = BWaterMenu)
    by (left; vm_compute; reflexivity).
  assert (Hwarned : (check_watering_restrictions fromisoformat_emitted percent_exact
                       e w).1 = Return (true, MSG_TOO_OFTEN, danger))
    by (vm_compute; reflexivity).
  assert (Hrefused : (check_watering_restrictions fromisoformat_emitted percent_exact
                        down w).1 = Return (false, MSG_NO_DATA, danger))
    by (vm_compute; reflexivity).
  assert (Hthree : load_config (check_watering_restrictions fromisoformat_emitted
                                  percent_exact e w).2 !! "watering_duration"%string
                   = Some (JInt 3)) by (vm_compute; reflexivity).
  assert (Hroute' : route text = BWater) by (vm_compute; reflexivity).
  assert (Hne : danger ≠ ok) by discriminate.
  pose proof (X23_request_waits_for_confirmation fromisoformat_emitted percent_exact
                int_of_decimal e e text Scene.nobody w MSG_TOO_OFTEN danger Hroute) as H1.
  pose proof (X23_request_waits_for_confirmation fromisoformat_emitted percent_exact
                int_of_decimal down down text u w MSG_NO_DATA danger Hroute) as H2.
  destruct H1 as (_ & H1). destruct (H1 Hwarned Hne) as (duration & Hh & Hd).
  destruct H2 as (H2 & _). destruct (H2 Hrefused) as (Hstays & _).
  split; [| split].
  - specialize (Hd Hroute'). rewrite Hthree in Hd. injection Hd as <-. exact Hh.
  - exact Hstays.
  - vm_compute. reflexivity.
Defined.

Lemma X24_confirmation_is_single_use_sample :
  let e := Sample.env_reading Sample.at_9 400 in
  let e2 := Sample.env_reading Sample.at_15 400 in
  let w := Sample.online (Sample.watered Sample.yesterday_18 1) in
  let text := "✅ ДА, полить"%string in
  let after := Scene.handle e e text (Scene.awaiting 3 warning) w in
  pending_watering after.1.2 = None /\
  Scene.handle e2 e2 text after.1.2 after.2 = (Return tt, after.1.2, after.2).
Proof.
  intros e e2 w text after.
  pose proof (X24_confirmation_is_single_use fromisoformat_emitted percent_exact
                int_of_decimal e e e2 e2 text (Scene.awaiting 3 warning) w
                ltac:(apply (bool_decide_unpack _); vm_compute; exact I)) as H.
  cbv zeta in H. destruct H as (Hp & _ & _ & Hyes).
  split; [exact Hp | apply Hyes; vm_compute; reflexivity].
Defined.

Lemma X4_no_key_error_sample :
  let e := Sample.env_reading Sample.noon 400 in
  AnyFile.load_config Scene.key_names
  = DArray (map (fun kv : string * jval => JStr kv.1) DEFAULT_CONFIG_items) /\
  AnyFile.check_watering_restrictions fromisoformat_emitted percent_exact e
    Scene.key_names true = Raise AttributeError /\
  AnyFile.check_watering_restrictions fromisoformat_emitted percent_exact e
    Scene.key_names false = Return (false, MSG_NO_LINK, danger) /\
  AnyFile.water_plant e 3 Scene.key_names true = Raise TypeError /\
  AnyFile.load_config Scene.null_file = DObject DEFAULT_CONFIG.
Proof.
  intros e.
  pose proof (X4_no_key_error fromisoformat_emitted percent_exact e 3
                Scene.key_names true) as H.
  cbv zeta in H. destruct H as (_ & _ & _ & _ & Hattr & _).
  split; [vm_compute; reflexivity |].
  split; [apply Hattr; split; [reflexivity | vm_compute; reflexivity] |].
  repeat split; vm_compute; reflexivity.
Defined.

Lemma X5_check_raises_sample :
  (Sample.check (Sample.env_reading Sample.noon 400) (Sample.online Scene.scribbled)).1
  = Raise ValueError.
Proof.
  assert (Hb : bypass_in_effect (load_config (Sample.online Scene.scribbled))
                 (date_of (now (Sample.env_reading Sample.noon 400))) = false)
    by (vm_compute; reflexivity).
  assert (Hv : load_config (Sample.online Scene.scribbled) !! "last_watering_date"%string
               = Some (JStr "05.03.2024")) by (vm_compute; reflexivity).
  destruct (X5_check_raises fromisoformat_emitted percent_exact
              (Sample.env_reading Sample.noon 400) (Sample.online Scene.scribbled)
              (JStr "05.03.2024") eq_refl Hb Hv) as (_ & Hvalue & _).
  apply (Hvalue "05.03.2024"%string); [reflexivity | discriminate |].
  vm_compute. reflexivity.
Defined.

Lemma X7_config_py_update_sample :
  AnyFileConfigPy.update_config (Sample.env_reading Sample.noon 400) Sample.partial
    Scene.null_file = (Raise AttributeError, Scene.null_file) /\
  AnyFileConfigPy.update_config (Sample.env_reading Sample.noon 400) Sample.partial
    Scene.key_names = (Raise AttributeError, Scene.key_names).
Proof.
  split.
  - apply (proj1 (proj2 (X7_config_py_update _ _ _)) (DScalar JNull)); reflexivity.
  - apply (proj1 (proj2 (X7_config_py_update _ _ _))
             (DArray (map (fun kv : string * jval => JStr kv.1) DEFAULT_CONFIG_items)));
      reflexivity.
Defined.

Lemma X20_no_dead_button_sample :
  AnyFile.watering_time_menu_keyboard Scene.key_names = Raise TypeError /\
  exists k, AnyFile.watering_time_menu_keyboard Scene.null_file = Return k /\ handled k.
Proof.
  split.
  - apply (proj2 (proj2 (proj2 (proj2 (proj2 (proj2 (X20_no_dead_button Scene.key_names))))))).
    vm_compute. reflexivity.
  - apply (proj1 (proj2 (proj2 (proj2 (proj2 (proj2 (X20_no_dead_button Scene.null_file))))))).
    vm_compute. reflexivity.
Defined.
